(** * Hiring-platform backend: the service layer over its relational store

    The services of [src/api/services] are embedded as pure functions over
    tables (lists of rows).  A service method that throws returns [inl e]
    with the table untouched (every throw in the embedded methods happens
    before the first write, or inside a transaction that rolls back); a method
    that returns gives [inr v] and the table after its writes.

    Conventions:
    - a UUID is a natural number; the database's uuid generator is
      [fresh], one more than the largest identifier in the table;
    - a [timestamptz] is an integer (milliseconds since the epoch);
    - [repository.save] of a loaded entity rewrites the row that carries
      its primary key;
    - only the columns the embedded methods read or write are kept;
    - requests are served one after the other: each method runs to its end
      on the tables the previous one left. *)

From Stdlib Require Import List Arith ZArith Lia Bool String Ascii Sorted Permutation.
Import ListNotations.

Definition uuid := nat.
Definition timestamptz := Z.

(** ** Exceptions of [@nestjs/common] thrown by the services *)

Inductive HttpException : Type :=
| BadRequestException
| NotFoundException
| ForbiddenException
| ConflictException
| InternalServerErrorException.

Definition Result (A : Type) : Type := (HttpException + A)%type.

Definition throw {A : Type} (e : HttpException) : Result A := inl e.
Definition ret {A : Type} (a : A) : Result A := inr a.

(** ** [src/db/enums] *)

Inductive CompanyRole := OWNER | ADMIN | RECRUITER.
Inductive MemberStatus := ACTIVE | INVITED | REVOKED.
Inductive JobStatus := JOB_DRAFT | JOB_ACTIVE | JOB_CLOSED.
Inductive JobVisibility := PUBLIC | PRIVATE.
Inductive ApplicationStatus := APPLIED | ACCEPTED | REJECTED | WITHDRAWN.

Definition CompanyRole_eqb (a b : CompanyRole) : bool :=
  match a, b with
  | OWNER, OWNER | ADMIN, ADMIN | RECRUITER, RECRUITER => true
  | _, _ => false
  end.

Definition MemberStatus_eqb (a b : MemberStatus) : bool :=
  match a, b with
  | ACTIVE, ACTIVE | INVITED, INVITED | REVOKED, REVOKED => true
  | _, _ => false
  end.

Definition JobStatus_eqb (a b : JobStatus) : bool :=
  match a, b with
  | JOB_DRAFT, JOB_DRAFT | JOB_ACTIVE, JOB_ACTIVE | JOB_CLOSED, JOB_CLOSED => true
  | _, _ => false
  end.

Definition JobVisibility_eqb (a b : JobVisibility) : bool :=
  match a, b with
  | PUBLIC, PUBLIC | PRIVATE, PRIVATE => true
  | _, _ => false
  end.

Definition ApplicationStatus_eqb (a b : ApplicationStatus) : bool :=
  match a, b with
  | APPLIED, APPLIED | ACCEPTED, ACCEPTED
  | REJECTED, REJECTED | WITHDRAWN, WITHDRAWN => true
  | _, _ => false
  end.

(** ** Generic repository operations *)

Section Repository.
Context {Row : Type} (pk : Row -> uuid).

(** [count({ where })] *)
Definition count (where_ : Row -> bool) (t : list Row) : nat :=
  List.length (filter where_ t).

(** [save(entity)] for an entity that was loaded from the table. *)
Definition save (e : Row) (t : list Row) : list Row :=
  map (fun r => if pk r =? pk e then e else r) t.

(** Identifier handed out by the database for a new row. *)
Definition fresh (t : list Row) : uuid := S (list_max (map pk t)).

(** [createQueryBuilder().update().set(..).where(..).execute()] *)
Definition update_where (where_ : Row -> bool) (set : Row -> Row)
    (t : list Row) : list Row :=
  map (fun r => if where_ r then set r else r) t.
End Repository.

(** ** [src/db/entities/company-member.entity.ts] *)

Module CompanyMember.
Record t := mk {
  id : uuid;
  company : uuid;
  user : uuid;
  role : CompanyRole;
  status : MemberStatus
}.

Definition with_role (m : t) (r : CompanyRole) : t :=
  mk (id m) (company m) (user m) r (status m).

Definition with_status (m : t) (s : MemberStatus) : t :=
  mk (id m) (company m) (user m) (role m) s.
End CompanyMember.

(** ** [src/db/entities/user.entity.ts] *)

Module User.
Record t := mk {
  id : uuid;
  email : string;
  is_active : bool
}.
End User.

(** ** [src/api/services/member.service.ts] *)

Module MemberService.
Import CompanyMember.

Definition Table := list CompanyMember.t.

(** [where: { company: { id }, role: OWNER, status: ACTIVE }] *)
Definition isActiveOwnerOf (companyId : uuid) (m : CompanyMember.t) : bool :=
  (company m =? companyId) && CompanyRole_eqb (role m) OWNER
  && MemberStatus_eqb (status m) ACTIVE.

Definition ownerCount (companyId : uuid) (t : Table) : nat :=
  count (isActiveOwnerOf companyId) t.

(** [findOne({ where: { id: memberId, company: { id: companyId } } })] *)
Definition findMembership (companyId memberId : uuid) (t : Table)
    : option CompanyMember.t :=
  find (fun m => (id m =? memberId) && (company m =? companyId)) t.

Definition updateMemberRole (companyId memberId : uuid) (dto_role : CompanyRole)
    (t : Table) : Result (uuid * CompanyRole * MemberStatus) * Table :=
  match findMembership companyId memberId t with
  | None => (throw NotFoundException, t)
  | Some membership =>
      if CompanyRole_eqb (role membership) OWNER
         && negb (CompanyRole_eqb dto_role OWNER)
         && (ownerCount companyId t <=? 1)
      then (throw BadRequestException, t)
      else
        let membership := with_role membership dto_role in
        (ret (id membership, role membership, status membership),
         save id membership t)
  end.

Definition revokeMember (companyId memberId : uuid) (t : Table)
    : Result string * Table :=
  match findMembership companyId memberId t with
  | None => (throw NotFoundException, t)
  | Some membership =>
      if CompanyRole_eqb (role membership) OWNER
         && (ownerCount companyId t <=? 1)
      then (throw BadRequestException, t)
      else
        let membership := with_status membership REVOKED in
        (ret "Member revoked successfully"%string, save id membership t)
  end.

Definition transferOwnership (companyId targetMemberId currentUserId : uuid)
    (t : Table) : Result string * Table :=
  match find (fun m => (company m =? companyId) && (user m =? currentUserId)
                       && CompanyRole_eqb (role m) OWNER
                       && MemberStatus_eqb (status m) ACTIVE) t with
  | None => (throw ForbiddenException, t)
  | Some currentMembership =>
      match find (fun m => (id m =? targetMemberId) && (company m =? companyId)
                           && MemberStatus_eqb (status m) ACTIVE) t with
      | None => (throw NotFoundException, t)
      | Some targetMembership =>
          (* two entity objects, loaded by two queries *)
          let targetMembership := with_role targetMembership OWNER in
          let t1 := save id targetMembership t in
          let currentMembership := with_role currentMembership ADMIN in
          let t2 := save id currentMembership t1 in
          (ret "Ownership transferred successfully"%string, t2)
      end
  end.

(** Requests of the member-management endpoints that can lower the
    number of owners. *)
Inductive Op :=
| Revoke (companyId memberId : uuid)
| RoleChange (companyId memberId : uuid) (role : CompanyRole).

Definition step (t : Table) (o : Op) : Table :=
  match o with
  | Revoke c m => snd (revokeMember c m t)
  | RoleChange c m r => snd (updateMemberRole c m r t)
  end.

Definition run (ops : list Op) (t : Table) : Table := fold_left step ops t.

(** [InviteMemberSchema] *)
Record InviteMemberDto := mkInviteDto {
  dto_email : string;
  dto_role : CompanyRole
}.

(** [where: { company: { id }, user: { id } }] *)
Definition isMemberOf (companyId userId : uuid) (m : CompanyMember.t) : bool :=
  (company m =? companyId) && (user m =? userId).

(** The [invited_by] column is written here and read nowhere; it is not
    kept in the row. *)
Definition inviteMember (companyId : uuid) (dto : InviteMemberDto)
    (inviterId : uuid) (users : list User.t) (t : Table)
    : Result (uuid * string * CompanyRole * MemberStatus) * Table :=
  match find (fun u => String.eqb (User.email u) (dto_email dto)) users with
  | None => (throw NotFoundException, t)
  | Some invitee =>
      match find (isMemberOf companyId (User.id invitee)) t with
      | Some _ => (throw BadRequestException, t)
      | None =>
          let membership :=
            mk (fresh id t) companyId (User.id invitee) (dto_role dto) ACTIVE in
          (ret (id membership, dto_email dto, role membership,
                status membership),
           t ++ [membership])
      end
  end.

(** Every request of the member-management endpoints that writes. *)
Inductive Request :=
| ReqInvite (companyId : uuid) (dto : InviteMemberDto) (inviterId : uuid)
    (users : list User.t)
| ReqRevoke (companyId memberId : uuid)
| ReqRoleChange (companyId memberId : uuid) (role : CompanyRole)
| ReqTransfer (companyId targetMemberId currentUserId : uuid).

Definition serve (t : Table) (r : Request) : Table :=
  match r with
  | ReqInvite c dto i users => snd (inviteMember c dto i users t)
  | ReqRevoke c m => snd (revokeMember c m t)
  | ReqRoleChange c m r => snd (updateMemberRole c m r t)
  | ReqTransfer c m u => snd (transferOwnership c m u t)
  end.

Definition serveAll (rs : list Request) (t : Table) : Table :=
  fold_left serve rs t.

(** Number of membership rows of the pair (tenant, actor). *)
Definition memberCount (companyId userId : uuid) (t : Table) : nat :=
  count (isMemberOf companyId userId) t.
End MemberService.

Section Listing.
Context {Row : Type} (created_at : Row -> timestamptz).

(** [order: { created_at: 'DESC' }], ties kept in table order. *)
Fixpoint insertDesc (r : Row) (l : list Row) : list Row :=
  match l with
  | [] => [r]
  | x :: l' =>
      if (created_at x <? created_at r)%Z then r :: l
      else x :: insertDesc r l'
  end.

Definition orderDesc (l : list Row) : list Row :=
  fold_right insertDesc [] l.

(** [findAndCount({ where, order, skip, take })]: the page and the total
    number of matching rows. *)
Definition findAndCount (where_ : Row -> bool) (skip take : nat)
    (t : list Row) : list Row * nat :=
  let matching := filter where_ t in
  (firstn take (skipn skip (orderDesc matching)), List.length matching).

(** [order: { created_at: 'ASC' }], ties kept in table order. *)
Fixpoint insertAsc (r : Row) (l : list Row) : list Row :=
  match l with
  | [] => [r]
  | x :: l' =>
      if (created_at r <? created_at x)%Z then r :: l
      else x :: insertAsc r l'
  end.

Definition orderAsc (l : list Row) : list Row :=
  fold_right insertAsc [] l.

(** Oldest first. *)
Definition oldestFirst : list Row -> Prop :=
  StronglySorted (fun a b => (created_at a <= created_at b)%Z).

End Listing.

(** ** [src/libs/pagination.ts] *)

Record PaginatedResult (A : Type) := mkPage {
  data : list A;
  meta_total : nat;
  meta_page : nat;
  meta_limit : nat;
  meta_totalPages : nat
}.
Arguments mkPage {A}.
Arguments data {A}.
Arguments meta_total {A}.
Arguments meta_page {A}.
Arguments meta_limit {A}.
Arguments meta_totalPages {A}.

(** [Math.ceil(total / limit)]; [limit >= 1] by [PaginationSchema]. *)
Definition paginate {A : Type} (d : list A) (total page limit : nat)
    : PaginatedResult A :=
  mkPage d total page limit ((total + limit - 1) / limit).

(** ** [src/db/entities/question-bank.entity.ts] *)

Inductive QuestionType := QText | QNumber | QBoolean | QChoice.

(** One element of [questions_json] ([QuestionItemSchema]). *)
Record QuestionItem := mkQuestion {
  q_id : string;
  q_question : string;
  q_type : QuestionType;
  q_options : list string;
  q_is_required : bool
}.

Module QuestionBank.
Record t := mk {
  id : uuid;
  company : uuid;
  name : string;
  questions_json : list QuestionItem
}.
End QuestionBank.

(** ** [src/db/entities/job-listing.entity.ts] *)

Module JobListing.
Record t := mk {
  id : uuid;
  company : uuid;
  title : string;
  visibility : JobVisibility;
  status : JobStatus;
  application_deadline : option timestamptz;
  screening_questions_json : option (list QuestionItem);
  deleted_at : option timestamptz;
  created_at : timestamptz
}.

Definition with_status (j : t) (s : JobStatus) : t :=
  mk (id j) (company j) (title j) (visibility j) s (application_deadline j)
     (screening_questions_json j) (deleted_at j) (created_at j).

Definition with_deleted_at (j : t) (d : option timestamptz) : t :=
  mk (id j) (company j) (title j) (visibility j) (status j)
     (application_deadline j) (screening_questions_json j) d (created_at j).
End JobListing.

(** [IsNull()] *)
Definition IsNull {A : Type} (o : option A) : bool :=
  match o with None => true | Some _ => false end.

(** ** [src/api/services/question-bank.service.ts] *)

Module QuestionBankService.
Import QuestionBank.

Definition Table := list QuestionBank.t.

Record CreateQuestionBankDto := mkCreateDto {
  dto_name : string;
  dto_questions_json : list QuestionItem
}.

(** [CreateQuestionBankSchema.partial()] *)
Record UpdateQuestionBankDto := mkUpdateDto {
  upd_name : option string;
  upd_questions_json : option (list QuestionItem)
}.

Definition create (companyId userId : uuid) (dto : CreateQuestionBankDto)
    (t : Table) : Result QuestionBank.t * Table :=
  let qb := mk (fresh id t) companyId (dto_name dto) (dto_questions_json dto) in
  (ret qb, t ++ [qb]).

Definition findOne (companyId qbId : uuid) (t : Table)
    : Result QuestionBank.t :=
  match find (fun qb => (id qb =? qbId) && (company qb =? companyId)) t with
  | None => throw NotFoundException
  | Some qb => ret qb
  end.

(** [Object.assign(qb, dto)] *)
Definition assign (qb : QuestionBank.t) (dto : UpdateQuestionBankDto)
    : QuestionBank.t :=
  mk (id qb) (company qb)
     (match upd_name dto with Some n => n | None => name qb end)
     (match upd_questions_json dto with
      | Some q => q
      | None => questions_json qb
      end).

Definition update (companyId qbId : uuid) (dto : UpdateQuestionBankDto)
    (t : Table) : Result QuestionBank.t * Table :=
  match findOne companyId qbId t with
  | inl e => (throw e, t)
  | inr qb =>
      let qb := assign qb dto in
      (ret qb, save id qb t)
  end.
End QuestionBankService.

(** ** [src/api/services/job.service.ts] *)

Module JobService.
Import JobListing.

Definition Table := list JobListing.t.

Record CreateJobDto := mkCreateDto {
  dto_title : string;
  dto_visibility : JobVisibility;
  dto_status : JobStatus;
  dto_application_deadline : option timestamptz;
  dto_question_bank_id : option uuid
}.

(** What [create] and [updateStatus] answer with. *)
Record JobSummary := mkSummary {
  sum_id : uuid;
  sum_title : string;
  sum_status : JobStatus
}.

Definition create (companyId userId : uuid) (dto : CreateJobDto)
    (now : timestamptz) (banks : QuestionBankService.Table) (t : Table)
    : Result JobSummary * Table :=
  let insert (screeningQuestions : option (list QuestionItem)) :=
    let job := mk (fresh id t) companyId (dto_title dto) (dto_visibility dto)
                  (dto_status dto) (dto_application_deadline dto)
                  screeningQuestions None now in
    (ret (mkSummary (id job) (title job) (status job)), t ++ [job]) in
  match dto_question_bank_id dto with
  | Some question_bank_id =>
      match find (fun qb => (QuestionBank.id qb =? question_bank_id)
                            && (QuestionBank.company qb =? companyId))
                 banks with
      | None => (throw NotFoundException, t)
      | Some qb =>
          (* the list is written into the job's own jsonb column *)
          insert (Some (QuestionBank.questions_json qb))
      end
  | None => insert None
  end.

Definition autoCloseExpiredJobs (companyId : option uuid)
    (now : timestamptz) (t : Table) : Table :=
  update_where
    (fun j =>
       JobStatus_eqb (status j) JOB_ACTIVE
       && match application_deadline j with
          | Some d => (d <=? now)%Z
          | None => false
          end
       && IsNull (deleted_at j)
       && match companyId with
          | Some c => company j =? c
          | None => true
          end)
    (fun j => with_status j JOB_CLOSED) t.

Definition findAll (companyId : uuid) (page limit : nat) (now : timestamptz)
    (t : Table) : PaginatedResult JobListing.t * Table :=
  let t := autoCloseExpiredJobs (Some companyId) now t in
  let '(items, total) :=
    findAndCount created_at
      (fun j => (company j =? companyId) && IsNull (deleted_at j))
      ((page - 1) * limit) limit t in
  (paginate items total page limit, t).

Definition findOne (companyId jobId : uuid) (t : Table)
    : Result JobListing.t :=
  match find (fun j => (id j =? jobId) && (company j =? companyId)
                       && IsNull (deleted_at j)) t with
  | None => throw NotFoundException
  | Some job => ret job
  end.

(** One entry of the public listing. *)
Record PublicJob := mkPublicJob {
  pub_id : uuid;
  pub_title : string;
  pub_application_deadline : option timestamptz;
  pub_created_at : timestamptz
}.

Definition findPublicJobs (page limit : nat) (t : Table)
    : PaginatedResult PublicJob * Table :=
  let '(items, total) :=
    findAndCount created_at
      (fun j => JobVisibility_eqb (visibility j) PUBLIC
                && JobStatus_eqb (status j) JOB_ACTIVE
                && IsNull (deleted_at j))
      ((page - 1) * limit) limit t in
  let d := map (fun job => mkPublicJob (id job) (title job)
                             (application_deadline job) (created_at job))
               items in
  (paginate d total page limit, t).

Definition updateStatus (companyId jobId : uuid) (dto_status : JobStatus)
    (t : Table) : Result JobSummary * Table :=
  match findOne companyId jobId t with
  | inl e => (throw e, t)
  | inr job =>
      let job := with_status job dto_status in
      (ret (mkSummary (id job) (title job) (status job)), save id job t)
  end.

Definition softDelete (companyId jobId : uuid) (now : timestamptz)
    (t : Table) : Result string * Table :=
  match findOne companyId jobId t with
  | inl e => (throw e, t)
  | inr job =>
      let job := with_deleted_at job (Some now) in
      (ret "Job deleted successfully"%string, save id job t)
  end.
(** A non-deleted ACTIVE posting whose deadline has passed at [now]:
    what the closing step is there to remove. *)
Definition expiredActive (now : timestamptz) (j : JobListing.t) : bool :=
  JobStatus_eqb (status j) JOB_ACTIVE
  && match application_deadline j with
     | Some d => (d <=? now)%Z
     | None => false
     end
  && IsNull (deleted_at j).

(** [UpdateJobSchema = CreateJobSchema.partial()] *)
Record UpdateJobDto := mkUpdateDto {
  upd_title : option string;
  upd_visibility : option JobVisibility;
  upd_status : option JobStatus;
  upd_application_deadline : option timestamptz;
  upd_question_bank_id : option uuid
}.

(** [repository.merge(job, updates)]: the columns the body carries
    overwrite, the others stay; [question_bank_id] is no column of
    [job_listings] and is dropped. *)
Definition merge (job : JobListing.t) (updates : UpdateJobDto) : JobListing.t :=
  mk (id job) (company job)
     (match upd_title updates with Some x => x | None => title job end)
     (match upd_visibility updates with
      | Some x => x | None => visibility job end)
     (match upd_status updates with Some x => x | None => status job end)
     (match upd_application_deadline updates with
      | Some d => Some d
      | None => application_deadline job
      end)
     (screening_questions_json job) (deleted_at job) (created_at job).

Definition update (companyId jobId : uuid) (dto : UpdateJobDto) (t : Table)
    : Result JobListing.t * Table :=
  match findOne companyId jobId t with
  | inl e => (throw e, t)
  | inr job =>
      let job := merge job dto in
      (ret job, save id job t)
  end.
End JobService.

(** ** The job and question-bank tables side by side *)

Module Database.
Record t := mk {
  job_listings : JobService.Table;
  question_banks : QuestionBankService.Table
}.

Definition createJob (companyId userId : uuid) (dto : JobService.CreateJobDto)
    (now : timestamptz) (db : t) : Result JobService.JobSummary * t :=
  let '(r, jobs) :=
    JobService.create companyId userId dto now (question_banks db)
      (job_listings db) in
  (r, mk jobs (question_banks db)).

(** Later changes to question banks. *)
Inductive BankEdit :=
| CreateBank (companyId userId : uuid)
    (dto : QuestionBankService.CreateQuestionBankDto)
| UpdateBank (companyId qbId : uuid)
    (dto : QuestionBankService.UpdateQuestionBankDto)
| DeleteBank (qbId : uuid).

(** Modelled from the spec: deletion of a question bank.  No service
    method deletes one; the row is removed from the table, and no column
    of [job_listings] refers to it. *)
Definition deleteBank (qbId : uuid) (banks : QuestionBankService.Table)
    : QuestionBankService.Table :=
  filter (fun qb => negb (QuestionBank.id qb =? qbId)) banks.

Definition edit (db : t) (e : BankEdit) : t :=
  match e with
  | CreateBank c u dto =>
      mk (job_listings db)
         (snd (QuestionBankService.create c u dto (question_banks db)))
  | UpdateBank c q dto =>
      mk (job_listings db)
         (snd (QuestionBankService.update c q dto (question_banks db)))
  | DeleteBank q =>
      mk (job_listings db) (deleteBank q (question_banks db))
  end.

Definition edits (es : list BankEdit) (db : t) : t := fold_left edit es db.
End Database.

(** ** [src/db/entities/resume.entity.ts] *)

(** [`${userId}/${randomUUID()}${ext}`] *)
Definition StorageKey := (uuid * uuid * string)%type.

Module Resume.
Record t := mk {
  id : uuid;
  user : uuid;
  title : string;
  storage_key : StorageKey;
  original_filename : string;
  is_primary : bool;
  created_at : timestamptz
}.

Definition with_is_primary (r : t) (b : bool) : t :=
  mk (id r) (user r) (title r) (storage_key r) (original_filename r) b
     (created_at r).
End Resume.

(** ** [src/db/entities/job-application.entity.ts] *)

Module JobApplication.
Record t := mk {
  id : uuid;
  job : uuid;
  company : uuid;
  user : uuid;
  resume : option uuid;
  status : ApplicationStatus;
  status_changed_by : option uuid;
  created_at : timestamptz
}.

Definition with_status (a : t) (s : ApplicationStatus) : t :=
  mk (id a) (job a) (company a) (user a) (resume a) s (status_changed_by a)
     (created_at a).

Definition with_status_changed_by (a : t) (u : option uuid) : t :=
  mk (id a) (job a) (company a) (user a) (resume a) (status a) u
     (created_at a).
End JobApplication.

(** ** [src/db/entities/application-comment.entity.ts] *)

Module ApplicationComment.
Record t := mk {
  id : uuid;
  job_application : uuid;
  company : uuid;
  user : uuid;
  comment : string;
  visible_to_candidate : bool;
  created_at : timestamptz
}.
End ApplicationComment.

(** ** [src/api/services/application.service.ts] *)

Module ApplicationService.
Import JobApplication.

Definition Table := list JobApplication.t.

Record CreateApplicationDto := mkDto {
  job_id : uuid;
  resume_id : uuid
}.

Record ApplicationSummary := mkSummary {
  sum_id : uuid;
  sum_job_id : uuid;
  sum_status : ApplicationStatus;
  sum_created_at : timestamptz
}.

(** [where: { job: { id }, user: { id } }] *)
Definition isPair (jobId userId : uuid) (a : JobApplication.t) : bool :=
  (job a =? jobId) && (user a =? userId).

Definition apply (userId : uuid) (dto : CreateApplicationDto)
    (now : timestamptz) (jobs : JobService.Table)
    (resumes : list Resume.t) (t : Table)
    : Result ApplicationSummary * Table :=
  match find (fun j => (JobListing.id j =? job_id dto)
                       && JobStatus_eqb (JobListing.status j) JOB_ACTIVE
                       && IsNull (JobListing.deleted_at j)) jobs with
  | None => (throw NotFoundException, t)
  | Some job_ =>
      if match JobListing.application_deadline job_ with
         | Some d => (d <? now)%Z
         | None => false
         end
      then (throw BadRequestException, t)
      else
        match find (fun r => (Resume.id r =? resume_id dto)
                             && (Resume.user r =? userId)) resumes with
        | None => (throw ForbiddenException, t)
        | Some _ =>
            match find (isPair (job_id dto) userId) t with
            | Some _ => (throw BadRequestException, t)
            | None =>
                let application :=
                  mk (fresh id t) (job_id dto) (JobListing.company job_)
                     userId (Some (resume_id dto)) APPLIED None now in
                (ret (mkSummary (id application) (job_id dto)
                        (status application) (created_at application)),
                 t ++ [application])
            end
        end
  end.

Definition withdraw (userId applicationId : uuid) (t : Table)
    : Result string * Table :=
  match find (fun a => (id a =? applicationId) && (user a =? userId)) t with
  | None => (throw NotFoundException, t)
  | Some application =>
      if ApplicationStatus_eqb (status application) ACCEPTED
      then (throw BadRequestException, t)
      else if ApplicationStatus_eqb (status application) WITHDRAWN
      then (throw BadRequestException, t)
      else
        let application := with_status application WITHDRAWN in
        (ret "Application withdrawn successfully"%string,
         save id application t)
  end.

Definition updateStatus (companyId applicationId : uuid)
    (status_ : ApplicationStatus) (changedBy : uuid) (t : Table)
    : Result (uuid * ApplicationStatus) * Table :=
  match find (fun a => (id a =? applicationId) && (company a =? companyId))
             t with
  | None => (throw NotFoundException, t)
  | Some application =>
      if ApplicationStatus_eqb (status application) WITHDRAWN
      then (throw BadRequestException, t)
      else
        let application := with_status application status_ in
        let application := with_status_changed_by application (Some changedBy) in
        (ret (id application, status application), save id application t)
  end.

(** A comment as the candidate listing returns it. *)
Record CommentView := mkCommentView {
  cv_id : uuid;
  cv_comment : string;
  cv_visible_to_candidate : bool;
  cv_created_at : timestamptz
}.

Record CandidateApplication := mkCandidateApplication {
  ca_id : uuid;
  ca_status : ApplicationStatus;
  ca_applied_at : timestamptz;
  ca_job_id : option uuid;
  ca_job_title : option string;
  ca_comments : list CommentView
}.

(** [relations: ['comments']] *)
Definition commentsOf (a : JobApplication.t)
    (comments : list ApplicationComment.t) : list ApplicationComment.t :=
  filter (fun c => ApplicationComment.job_application c =? id a) comments.

Definition getCandidateApplications (userId : uuid) (page limit : nat)
    (jobs : JobService.Table) (comments : list ApplicationComment.t)
    (t : Table) : PaginatedResult CandidateApplication :=
  let '(items, total) :=
    findAndCount created_at (fun a => user a =? userId)
      ((page - 1) * limit) limit t in
  let d :=
    map (fun app =>
           let job_ := find (fun j => JobListing.id j =? job app) jobs in
           mkCandidateApplication (id app) (status app) (created_at app)
             (option_map JobListing.id job_)
             (option_map JobListing.title job_)
             (let allComments := commentsOf app comments in
              let mappedComments :=
                map (fun c =>
                       mkCommentView (ApplicationComment.id c)
                         (ApplicationComment.comment c)
                         (ApplicationComment.visible_to_candidate c)
                         (ApplicationComment.created_at c))
                    allComments in
              mappedComments))
        items in
  paginate d total page limit.
(** One [apply] request, with the job and resume tables it runs against. *)
Record Call := mkCall {
  call_user : uuid;
  call_dto : CreateApplicationDto;
  call_now : timestamptz;
  call_jobs : JobService.Table;
  call_resumes : list Resume.t
}.

Definition step (t : Table) (c : Call) : Table :=
  snd (apply (call_user c) (call_dto c) (call_now c) (call_jobs c)
         (call_resumes c) t).

Definition run (cs : list Call) (t : Table) : Table := fold_left step cs t.

(** Number of application rows of the pair (job, actor). *)
Definition pairCount (jobId userId : uuid) (t : Table) : nat :=
  count (isPair jobId userId) t.

(** [CreateCommentSchema] *)
Record CreateCommentDto := mkCommentDto {
  dto_comment : string;
  dto_visible_to_candidate : bool
}.

Definition addComment (companyId applicationId userId : uuid)
    (dto : CreateCommentDto) (now : timestamptz) (t : Table)
    (comments : list ApplicationComment.t)
    : Result CommentView * list ApplicationComment.t :=
  match find (fun a => (id a =? applicationId) && (company a =? companyId))
             t with
  | None => (throw NotFoundException, comments)
  | Some _ =>
      let comment :=
        ApplicationComment.mk (fresh ApplicationComment.id comments)
          applicationId companyId userId (dto_comment dto)
          (dto_visible_to_candidate dto) now in
      (ret (mkCommentView (ApplicationComment.id comment)
              (ApplicationComment.comment comment)
              (ApplicationComment.visible_to_candidate comment)
              (ApplicationComment.created_at comment)),
       comments ++ [comment])
  end.

(** A comment as the company listing returns it. *)
Record TeamCommentView := mkTeamCommentView {
  tv_id : uuid;
  tv_comment : string;
  tv_visible_to_candidate : bool;
  tv_user_email : option string;
  tv_created_at : timestamptz
}.

(** [where: { job_application: { id }, company: { id } }] *)
Definition isCommentOf (companyId applicationId : uuid)
    (c : ApplicationComment.t) : bool :=
  (ApplicationComment.job_application c =? applicationId)
  && (ApplicationComment.company c =? companyId).

Definition getComments (companyId applicationId : uuid) (users : list User.t)
    (comments : list ApplicationComment.t) : list TeamCommentView :=
  let found :=
    orderAsc ApplicationComment.created_at
      (filter (isCommentOf companyId applicationId) comments) in
  map (fun c =>
         mkTeamCommentView (ApplicationComment.id c)
           (ApplicationComment.comment c)
           (ApplicationComment.visible_to_candidate c)
           (option_map User.email
              (find (fun u => User.id u =? ApplicationComment.user c) users))
           (ApplicationComment.created_at c))
      found.

(** Every request that writes the [job_applications] table. *)
Inductive Request :=
| ReqApply (c : Call)
| ReqWithdraw (userId applicationId : uuid)
| ReqUpdateStatus (companyId applicationId : uuid) (status : ApplicationStatus)
    (changedBy : uuid).

Definition serve (t : Table) (r : Request) : Table :=
  match r with
  | ReqApply c => step t c
  | ReqWithdraw u a => snd (withdraw u a t)
  | ReqUpdateStatus c a st by_ => snd (updateStatus c a st by_ t)
  end.

Definition serveAll (rs : list Request) (t : Table) : Table :=
  fold_left serve rs t.
End ApplicationService.

(** ** [src/api/services/resume.service.ts] *)

Module ResumeService.
Import Resume.

Definition MAX_RESUMES_PER_USER : nat := 10.

(** The [resumes] table and the keys held by the storage bucket. *)
Record State := mkState {
  resumes : list Resume.t;
  bucket : list StorageKey
}.

(** The uploaded file: [originalname] and [path.extname(originalname)]. *)
Record File := mkFile {
  originalname : string;
  extname : string
}.

(** [title || file.originalname] *)
Definition titleOr (title : option string) (file : File) : string :=
  match title with
  | Some s => if String.eqb s EmptyString then originalname file else s
  | None => originalname file
  end.

(** [randomUUID] is the value [randomUUID()] returned; [uploadOk] tells
    whether [storageService.uploadFile] resolved. *)
Definition create (userId : uuid) (file : File) (title : option string)
    (isPrimary : bool) (randomUUID : uuid) (uploadOk : bool)
    (now : timestamptz) (s : State) : Result Resume.t * State :=
  let existingCount := count (fun r => user r =? userId) (resumes s) in
  if MAX_RESUMES_PER_USER <=? existingCount
  then (throw BadRequestException, s)
  else
    let ext := if String.eqb (extname file) EmptyString
               then ".pdf"%string else extname file in
    let storageKey : StorageKey := (userId, randomUUID, ext) in
    if negb uploadOk
    then (throw InternalServerErrorException, s)
    else
      let bucket' := storageKey :: bucket s in
      if isPrimary
      then
        let t := update_where (fun r => (user r =? userId) && is_primary r)
                   (fun r => with_is_primary r false) (resumes s) in
        let resume := mk (fresh id t) userId (titleOr title file) storageKey
                         (originalname file) true now in
        (ret resume, mkState (t ++ [resume]) bucket')
      else
        let resume := mk (fresh id (resumes s)) userId (titleOr title file)
                         storageKey (originalname file) false now in
        (ret resume, mkState (resumes s ++ [resume]) bucket').

Definition setPrimary (userId resumeId : uuid) (s : State)
    : Result Resume.t * State :=
  match find (fun r => (id r =? resumeId) && (user r =? userId))
             (resumes s) with
  | None => (throw NotFoundException, s)
  | Some resume =>
      let t := update_where (fun r => user r =? userId)
                 (fun r => with_is_primary r false) (resumes s) in
      let resume := with_is_primary resume true in
      (ret resume, mkState (save id resume t) (bucket s))
  end.

Inductive Op :=
| Create (userId : uuid) (file : File) (title : option string)
    (isPrimary : bool) (randomUUID : uuid) (uploadOk : bool)
    (now : timestamptz)
| SetPrimary (userId resumeId : uuid).

Definition step (s : State) (o : Op) : State :=
  match o with
  | Create u f ti p k ok now => snd (create u f ti p k ok now s)
  | SetPrimary u r => snd (setPrimary u r s)
  end.

Definition run (ops : list Op) (s : State) : State := fold_left step ops s.


Definition isPrimaryOf (u : uuid) (r : Resume.t) : bool :=
  (user r =? u) && is_primary r.

Definition primaryCount (userId : uuid) (s : State) : nat :=
  count (isPrimaryOf userId) (resumes s).

Definition resumeCount (userId : uuid) (s : State) : nat :=
  count (fun r => user r =? userId) (resumes s).

(** [storageService.deleteFile([key])] *)
Fixpoint removeKey (k : StorageKey) (b : list StorageKey) : list StorageKey :=
  match b with
  | [] => []
  | x :: b' =>
      let '(u, f, e) := x in
      let '(u', f', e') := k in
      if (u =? u') && (f =? f') && String.eqb e e'
      then removeKey k b' else x :: removeKey k b'
  end.

(** [fkViolation] tells whether the database refuses the removal with
    error 23503 (the resume is referenced by an application); [deleteOk]
    whether the best-effort [storageService.deleteFile] resolved. *)
Definition delete (userId resumeId : uuid) (fkViolation deleteOk : bool)
    (s : State) : Result string * State :=
  match find (fun r => (id r =? resumeId) && (user r =? userId))
             (resumes s) with
  | None => (throw NotFoundException, s)
  | Some resume =>
      if fkViolation then (throw ConflictException, s)
      else
        let t := filter (fun r => negb (id r =? id resume)) (resumes s) in
        let b := if deleteOk then removeKey (storage_key resume) (bucket s)
                 else bucket s in
        (ret "Resume deleted successfully"%string, mkState t b)
  end.

(** Every request that writes the [resumes] table. *)
Inductive Request :=
| ReqCreate (userId : uuid) (file : File) (title : option string)
    (isPrimary : bool) (randomUUID : uuid) (uploadOk : bool)
    (now : timestamptz)
| ReqSetPrimary (userId resumeId : uuid)
| ReqDelete (userId resumeId : uuid) (fkViolation deleteOk : bool).

Definition serve (s : State) (r : Request) : State :=
  match r with
  | ReqCreate u f ti p k ok now => snd (create u f ti p k ok now s)
  | ReqSetPrimary u r => snd (setPrimary u r s)
  | ReqDelete u r fk ok => snd (delete u r fk ok s)
  end.

Definition serveAll (rs : list Request) (s : State) : State :=
  fold_left serve rs s.

End ResumeService.

(** ** Guards: [src/api/guards] *)

Module Guards.

(** What a guard throws: [UnauthorizedException] (HTTP 401), or one of the
    exceptions the services throw as well. *)
Inductive GuardException : Type :=
| UnauthorizedException
| Http (e : HttpException).

(** The parts of the Express request the guards read and write. *)
Record Request := mkRequest {
  authorization : option string;        (* headers['authorization'] *)
  companyId : option uuid;              (* params.companyId *)
  user : option User.t;                 (* request.user *)
  membership : option CompanyMember.t   (* request.membership *)
}.

Definition Guard := Request -> GuardException + Request.

(** [String.prototype.split(' ')] *)
Fixpoint split (sep : Ascii.ascii) (s : string) : list string :=
  match s with
  | EmptyString => [EmptyString]
  | String c s' =>
      if Ascii.eqb c sep then EmptyString :: split sep s'
      else match split sep s' with
           | [] => [String c EmptyString]
           | w :: ws => String c w :: ws
           end
  end.

(** The token of an [Authorization: Bearer <token>] header, when the header
    passes the two format tests of [JwtAuthGuard]. *)
Definition bearerToken (authHeader : option string) : option string :=
  match authHeader with
  | None => None
  | Some h =>
      if String.eqb h EmptyString then None
      else
        let parts := split " "%char h in
        let type := nth_error parts 0 in
        let token := nth_error parts 1 in
        match type, token with
        | Some ty, Some tok =>
            if negb (String.eqb ty "Bearer") || String.eqb tok EmptyString
            then None else Some tok
        | _, _ => None
        end
  end.

Section Jwt.
(** [jwt.verify(token, JWT_SECRET)]: the [user_id] of the payload, or
    [None] when the library throws (bad signature, expired token). *)
Variable verify : string -> option uuid.

Definition JwtAuthGuard (users : list User.t) : Guard := fun request =>
  match bearerToken (authorization request) with
  | None => inl UnauthorizedException
  | Some token =>
      match verify token with
      | None => inl UnauthorizedException
      | Some user_id =>
          match find (fun u => User.id u =? user_id) users with
          | None => inl UnauthorizedException
          | Some u =>
              if negb (User.is_active u) then inl UnauthorizedException
              else inr (mkRequest (authorization request) (companyId request)
                          (Some u) (membership request))
          end
      end
  end.
End Jwt.

Definition CompanyMembershipGuard (members : MemberService.Table) : Guard :=
  fun request =>
  match user request with
  | None => inl UnauthorizedException
  | Some u =>
      match companyId request with
      | None => inl (Http ForbiddenException)
      | Some c =>
          match find (fun m => (CompanyMember.company m =? c)
                               && (CompanyMember.user m =? User.id u)
                               && MemberStatus_eqb (CompanyMember.status m) ACTIVE)
                     members with
          | None => inl (Http ForbiddenException)
          | Some m =>
              inr (mkRequest (authorization request) (companyId request)
                     (user request) (Some m))
          end
      end
  end.

(** [requiredRoles] is what [@Roles(...)] attached to the route, [None]
    without the decorator. *)
Definition RoleGuard (requiredRoles : option (list CompanyRole)) : Guard :=
  fun request =>
  match requiredRoles with
  | None | Some [] => inr request
  | Some roles =>
      match membership request with
      | None => inl (Http ForbiddenException)
      | Some m =>
          if existsb (CompanyRole_eqb (CompanyMember.role m)) roles
          then inr request
          else inl (Http ForbiddenException)
      end
  end.

(** [@UseGuards(g1, g2, ...)]: the guards run in the order given and the
    first one that throws ends the request. *)
Fixpoint UseGuards (guards : list Guard) (request : Request)
    : GuardException + Request :=
  match guards with
  | [] => inr request
  | g :: guards' =>
      match g request with
      | inl e => inl e
      | inr request' => UseGuards guards' request'
      end
  end.

(** An incoming request, before any guard has run. *)
Definition incoming (authHeader : option string) (c : option uuid) : Request :=
  mkRequest authHeader c None None.

(** Whether the character occurs in the string. *)
Fixpoint hasChar (c : Ascii.ascii) (s : string) : bool :=
  match s with
  | EmptyString => false
  | String x s' => Ascii.eqb x c || hasChar c s'
  end.

(** Whether [@Roles(...)] admits the role: no decorator or an empty list
    admits every role. *)
Definition roleAllowed (requiredRoles : option (list CompanyRole))
    (r : CompanyRole) : bool :=
  match requiredRoles with
  | None | Some [] => true
  | Some roles => existsb (CompanyRole_eqb r) roles
  end.

(** The clause of [CompanyMembershipGuard]. *)
Definition activeMemberOf (c u : uuid) (m : CompanyMember.t) : bool :=
  (CompanyMember.company m =? c) && (CompanyMember.user m =? u)
  && MemberStatus_eqb (CompanyMember.status m) ACTIVE.
End Guards.

(** ** The member controller: guards, then the service *)

Module MemberController.
Section Routes.
Variable verify : string -> option uuid.
Variable users : list User.t.

(** [PATCH /companies/:companyId/members/:memberId/role], guarded by
    [@UseGuards(JwtAuthGuard, CompanyMembershipGuard, RoleGuard)] and
    [@Roles('OWNER', 'ADMIN')]. *)
Definition updateRole (authHeader : option string) (companyId memberId : uuid)
    (body_role : CompanyRole) (t : MemberService.Table)
    : (Guards.GuardException
       + Result (uuid * CompanyRole * MemberStatus)) * MemberService.Table :=
  match Guards.UseGuards
          [Guards.JwtAuthGuard verify users;
           Guards.CompanyMembershipGuard t;
           Guards.RoleGuard (Some [OWNER; ADMIN])]
          (Guards.incoming authHeader (Some companyId)) with
  | inl e => (inl e, t)
  | inr _ =>
      let '(r, t') :=
        MemberService.updateMemberRole companyId memberId body_role t in
      (inr r, t')
  end.
End Routes.
End MemberController.

(** ** [src/db/entities/company.entity.ts] *)

Module Company.
Record t := mk {
  id : uuid;
  name : string;
  description : option string;
  logo_url : option string;
  website : option string;
  deleted_at : option timestamptz;
  created_at : timestamptz
}.
End Company.

(** ** [src/api/services/company.service.ts] *)

Module CompanyService.
Import Company.

(** The [companies] and [company_members] tables. *)
Record State := mkState {
  companies : list Company.t;
  members : MemberService.Table
}.

Record CreateCompanyDto := mkCreateDto {
  dto_name : string;
  dto_description : option string;
  dto_logo_url : option string;
  dto_website : option string
}.

(** [CreateCompanySchema.partial()] *)
Record UpdateCompanyDto := mkUpdateDto {
  upd_name : option string;
  upd_description : option string;
  upd_logo_url : option string;
  upd_website : option string
}.

Definition createCompany (dto : CreateCompanyDto) (userId : uuid)
    (now : timestamptz) (s : State)
    : Result (uuid * string * timestamptz) * State :=
  let company := mk (fresh id (companies s)) (dto_name dto)
                    (dto_description dto) (dto_logo_url dto) (dto_website dto)
                    None now in
  let membership :=
    CompanyMember.mk (fresh CompanyMember.id (members s)) (id company) userId
      OWNER ACTIVE in
  (ret (id company, name company, created_at company),
   mkState (companies s ++ [company]) (members s ++ [membership])).

Definition getCompanyById (companyId : uuid) (t : list Company.t)
    : Result Company.t :=
  match find (fun c => (id c =? companyId) && IsNull (deleted_at c)) t with
  | None => throw NotFoundException
  | Some company => ret company
  end.

(** [repository.merge(company, dto)]: the fields the body carries
    overwrite, the others stay. *)
Definition merge (company : Company.t) (dto : UpdateCompanyDto) : Company.t :=
  mk (id company)
     (match upd_name dto with Some n => n | None => name company end)
     (match upd_description dto with
      | Some d => Some d | None => description company end)
     (match upd_logo_url dto with
      | Some d => Some d | None => logo_url company end)
     (match upd_website dto with
      | Some d => Some d | None => website company end)
     (deleted_at company) (created_at company).

Definition updateCompany (companyId : uuid) (dto : UpdateCompanyDto)
    (t : list Company.t) : Result Company.t * list Company.t :=
  match find (fun c => (id c =? companyId) && IsNull (deleted_at c)) t with
  | None => (throw NotFoundException, t)
  | Some company =>
      let company := merge company dto in
      (ret company, save id company t)
  end.
End CompanyService.

(** ** Sample tables and requests *)

Definition members_one_owner : MemberService.Table :=
  [ CompanyMember.mk 1 7 100 OWNER ACTIVE;
    CompanyMember.mk 2 7 101 RECRUITER ACTIVE ].

Definition job_dev : JobListing.t :=
  JobListing.mk 1 7 "Dev" PUBLIC JOB_ACTIVE None None None 0%Z.

Definition job_of_tenant_8 : JobListing.t :=
  JobListing.mk 2 8 "Ops" PRIVATE JOB_DRAFT None None None 1%Z.

Definition question_sql : QuestionItem :=
  mkQuestion "q1" "Years of SQL?" QNumber [] true.

Definition question_go : QuestionItem :=
  mkQuestion "q2" "Do you know Go?" QBoolean [] false.

Definition db_with_bank : Database.t :=
  Database.mk [job_dev] [QuestionBank.mk 1 7 "Backend" [question_sql]].

Definition dto_with_bank : JobService.CreateJobDto :=
  JobService.mkCreateDto "Backend engineer" PUBLIC JOB_DRAFT None (Some 1).


Definition resume_of_100 : Resume.t :=
  Resume.mk 1 100 "cv.pdf" (100, 11, ".pdf"%string) "cv.pdf" true 0%Z.

Definition resume_of_101 : Resume.t :=
  Resume.mk 2 101 "cv.pdf" (101, 12, ".pdf"%string) "cv.pdf" true 0%Z.



Definition application_1 : JobApplication.t :=
  JobApplication.mk 1 1 7 100 (Some 1) APPLIED None 3%Z.

Definition application_accepted : JobApplication.t :=
  JobApplication.mk 2 1 7 101 (Some 2) ACCEPTED (Some 200) 4%Z.

Definition members_two_tenants : MemberService.Table :=
  [ CompanyMember.mk 1 7 100 OWNER ACTIVE;
    CompanyMember.mk 2 7 101 RECRUITER ACTIVE;
    CompanyMember.mk 3 8 101 OWNER ACTIVE;
    CompanyMember.mk 4 7 102 ADMIN REVOKED ].

Definition users_sample : list User.t :=
  [ User.mk 100 "ann@acme.io" true;
    User.mk 101 "bob@acme.io" true;
    User.mk 102 "cy@acme.io" true;
    User.mk 103 "dee@acme.io" false ].

Definition member_requests : list MemberService.Request :=
  [ MemberService.ReqInvite 7 (MemberService.mkInviteDto "dee@acme.io" ADMIN)
      100 users_sample;
    MemberService.ReqRoleChange 7 4 OWNER;
    MemberService.ReqTransfer 7 2 100;
    MemberService.ReqRevoke 7 1;
    MemberService.ReqInvite 7 (MemberService.mkInviteDto "cy@acme.io" ADMIN)
      101 users_sample ].

Definition companies_sample : CompanyService.State :=
  CompanyService.mkState
    [ Company.mk 7 "Acme" None None None None 0%Z;
      Company.mk 8 "Globex" (Some "Energy"%string) None None (Some 9%Z) 1%Z ]
    members_two_tenants.

Definition jobs_sample : JobService.Table :=
  [ JobListing.mk 1 7 "Dev" PUBLIC JOB_ACTIVE (Some 5%Z) None None 0%Z;
    JobListing.mk 2 7 "Ops" PRIVATE JOB_ACTIVE (Some 20%Z) None None 3%Z;
    JobListing.mk 3 8 "QA" PUBLIC JOB_ACTIVE (Some 5%Z) None None 1%Z;
    JobListing.mk 4 7 "Old" PUBLIC JOB_ACTIVE (Some 1%Z) None (Some 2%Z) 2%Z;
    JobListing.mk 5 7 "Lead" PUBLIC JOB_ACTIVE None None None 4%Z;
    JobListing.mk 6 7 "Idea" PUBLIC JOB_DRAFT None None None 5%Z ].

Definition application_withdrawn : JobApplication.t :=
  JobApplication.mk 3 1 7 102 (Some 3) WITHDRAWN None 5%Z.

Definition comments_sample : list ApplicationComment.t :=
  [ ApplicationComment.mk 1 1 7 100 "Strong CV" false 9%Z;
    ApplicationComment.mk 2 2 7 100 "Other application" true 4%Z;
    ApplicationComment.mk 3 1 7 101 "Invite to interview" true 6%Z ].

Definition resumes_sample : ResumeService.State :=
  ResumeService.mkState
    [ resume_of_100; resume_of_101;
      Resume.mk 3 100 "old.pdf" (100, 13, ".pdf"%string) "old.pdf" false 1%Z ]
    [ (100, 11, ".pdf"%string); (101, 12, ".pdf"%string);
      (100, 13, ".pdf"%string) ].

(* ================================================================== *)
(** * Properties *)

(** ** Repository lemmas *)

Section RepositoryFacts.
Context {Row : Type} (pk : Row -> uuid).

Lemma save_pk (e : Row) (t : list Row) :
  map pk (save pk e t) = map pk t.
Proof.
  unfold save. induction t as [|r t IH]; simpl; [reflexivity|].
  rewrite IH. destruct (pk r =? pk e) eqn:E; [|reflexivity].
  apply Nat.eqb_eq in E. now rewrite E.
Qed.

Lemma save_absent (e : Row) (t : list Row) :
  ~ In (pk e) (map pk t) -> save pk e t = t.
Proof.
  unfold save. induction t as [|r t IH]; simpl; intros H; [reflexivity|].
  destruct (pk r =? pk e) eqn:E.
  - apply Nat.eqb_eq in E. exfalso. apply H. now left.
  - rewrite IH; [reflexivity|]. intros Hin. apply H. now right.
Qed.

(** Saving [e'] over the row [e] moves the count of a predicate by
    exactly the difference between the two rows. *)
Lemma count_save (p : Row -> bool) (e e' : Row) (t : list Row) :
  NoDup (map pk t) -> In e t -> pk e' = pk e ->
  count p (save pk e' t) + (if p e then 1 else 0)
  = count p t + (if p e' then 1 else 0).
Proof.
  unfold count. induction t as [|r t IH]; simpl; intros ND Hin Hpk; [easy|].
  inversion ND as [|? ? Hnotin ND']; subst.
  destruct (pk r =? pk e') eqn:E.
  - apply Nat.eqb_eq in E.
    assert (e = r) as ->.
    { destruct Hin as [->|Hin]; [reflexivity|].
      exfalso. apply Hnotin. rewrite E, Hpk. now apply in_map. }
    fold (save pk e' t). rewrite save_absent by (rewrite <- E; exact Hnotin).
    destruct (p e'), (p r); simpl; lia.
  - destruct Hin as [->|Hin].
    { rewrite Hpk, Nat.eqb_refl in E. discriminate. }
    specialize (IH ND' Hin Hpk). fold (save pk e' t).
    destruct (p r); simpl; lia.
Qed.
End RepositoryFacts.

(** ** Membership: last-OWNER protection *)

Section MemberFacts.
Import CompanyMember MemberService.

Lemma CompanyRole_eqb_eq (a b : CompanyRole) :
  CompanyRole_eqb a b = true <-> a = b.
Proof. destruct a, b; simpl; split; intros H; congruence. Qed.

Lemma findMembership_some c m t e :
  findMembership c m t = Some e -> In e t /\ id e = m /\ company e = c.
Proof.
  unfold findMembership. intros H. apply find_some in H as [Hin Hp].
  apply andb_true_iff in Hp as [H1 H2].
  apply Nat.eqb_eq in H1, H2. auto.
Qed.

Lemma member_step_pk (t : Table) (o : Op) : map id (step t o) = map id t.
Proof.
  destruct o as [c m | c m r]; simpl.
  - unfold revokeMember. destruct (findMembership c m t); [|reflexivity].
    destruct (_ && _); simpl; [reflexivity | apply save_pk].
  - unfold updateMemberRole. destruct (findMembership c m t); [|reflexivity].
    destruct (_ && _); simpl; [reflexivity | apply save_pk].
Qed.

Lemma isActiveOwnerOf_revoked T e :
  isActiveOwnerOf T (with_status e REVOKED) = false.
Proof. unfold isActiveOwnerOf. simpl. now rewrite !andb_false_r. Qed.

Lemma isActiveOwnerOf_inv T e :
  isActiveOwnerOf T e = true ->
  company e = T /\ role e = OWNER /\ status e = ACTIVE.
Proof.
  unfold isActiveOwnerOf. intros H.
  apply andb_true_iff in H as [H H3]. apply andb_true_iff in H as [H1 H2].
  apply Nat.eqb_eq in H1. apply CompanyRole_eqb_eq in H2.
  destruct (status e); simpl in H3; try discriminate. auto.
Qed.

(** One request keeps every tenant that has an ACTIVE OWNER with one. *)
Lemma step_keeps_owner (T : uuid) (t : Table) (o : Op) :
  NoDup (map id t) -> 1 <= ownerCount T t -> 1 <= ownerCount T (step t o).
Proof.
  intros ND Hc. destruct o as [c m | c m r]; simpl.
  - unfold revokeMember.
    destruct (findMembership c m t) as [e|] eqn:F; [|exact Hc].
    apply findMembership_some in F as (Hin & _ & Hco).
    destruct (CompanyRole_eqb (role e) OWNER && (ownerCount c t <=? 1)) eqn:G;
      simpl; [exact Hc|].
    pose proof (count_save id (isActiveOwnerOf T) e (with_status e REVOKED) t
                  ND Hin eq_refl) as Hcnt.
    rewrite isActiveOwnerOf_revoked in Hcnt. unfold ownerCount in *.
    destruct (isActiveOwnerOf T e) eqn:P; [|lia].
    apply isActiveOwnerOf_inv in P as (HT & Hr & _).
    rewrite Hr in G. simpl in G. apply Nat.leb_gt in G.
    rewrite Hco in HT. subst T. lia.
  - unfold updateMemberRole.
    destruct (findMembership c m t) as [e|] eqn:F; [|exact Hc].
    apply findMembership_some in F as (Hin & _ & Hco).
    destruct (CompanyRole_eqb (role e) OWNER && negb (CompanyRole_eqb r OWNER)
              && (ownerCount c t <=? 1)) eqn:G; simpl; [exact Hc|].
    pose proof (count_save id (isActiveOwnerOf T) e (with_role e r) t
                  ND Hin eq_refl) as Hcnt.
    unfold ownerCount in *.
    destruct (isActiveOwnerOf T e) eqn:P; [|lia].
    apply isActiveOwnerOf_inv in P as (HT & Hr & Hs).
    rewrite Hr in G. simpl in G.
    destruct (CompanyRole_eqb r OWNER) eqn:R.
    + apply CompanyRole_eqb_eq in R. subst r.
      assert (isActiveOwnerOf T (with_role e OWNER) = true) as Q.
      { unfold isActiveOwnerOf. simpl. rewrite HT, Hs, Nat.eqb_refl.
        reflexivity. }
      rewrite Q in Hcnt. lia.
    + simpl in G. apply Nat.leb_gt in G. rewrite Hco in HT. subst T. lia.
Qed.

Lemma run_keeps_owner (T : uuid) (ops : list Op) : forall t : Table,
  NoDup (map id t) -> 1 <= ownerCount T t -> 1 <= ownerCount T (run ops t).
Proof.
  unfold run. induction ops as [|o ops IH]; simpl; intros t ND Hc; [exact Hc|].
  apply IH.
  - rewrite member_step_pk. exact ND.
  - now apply step_keeps_owner.
Qed.
End MemberFacts.

(** C1 (as amended).  In a membership table with unique primary keys, a
    tenant that has at least one ACTIVE OWNER membership keeps at least one
    through every sequence of revoke and role-change requests; and when the
    tenant has exactly one ACTIVE OWNER membership, revoking it throws
    [BadRequestException] (HTTP 400) and leaves the table, hence the
    membership's ACTIVE status, as it was. *)
Theorem last_owner_protected :
  (forall (T : uuid) (ops : list MemberService.Op) (t : MemberService.Table),
      NoDup (map CompanyMember.id t) ->
      1 <= MemberService.ownerCount T t ->
      1 <= MemberService.ownerCount T (MemberService.run ops t))
  /\
  (forall (T memberId : uuid) (t : MemberService.Table) (M : CompanyMember.t),
      MemberService.findMembership T memberId t = Some M ->
      CompanyMember.role M = OWNER ->
      CompanyMember.status M = ACTIVE ->
      MemberService.ownerCount T t = 1 ->
      MemberService.revokeMember T memberId t = (throw BadRequestException, t)
      /\ MemberService.findMembership T memberId
           (snd (MemberService.revokeMember T memberId t)) = Some M).
Proof.
  split.
  - intros T ops t. apply run_keeps_owner.
  - intros T memberId t M F Hr Hs Hc.
    assert (MemberService.revokeMember T memberId t
            = (throw BadRequestException, t)) as E.
    { unfold MemberService.revokeMember. rewrite F, Hr, Hc. reflexivity. }
    rewrite E. split; [reflexivity | exact F].
Qed.

Lemma last_owner_protected_witness :
  1 <= MemberService.ownerCount 7
         (MemberService.run
            [MemberService.Revoke 7 1; MemberService.RoleChange 7 1 ADMIN;
             MemberService.Revoke 7 2]
            members_one_owner)
  /\ MemberService.revokeMember 7 1 members_one_owner
     = (throw BadRequestException, members_one_owner).
Proof.
  split.
  - apply (proj1 last_owner_protected 7).
    + repeat constructor; simpl; intuition discriminate.
    + vm_compute. lia.
  - apply (proj2 last_owner_protected 7 1 members_one_owner
             (CompanyMember.mk 1 7 100 OWNER ACTIVE)); reflexivity.
Defined.

(** C1 as stated fails: revoking the only ACTIVE OWNER is refused with
    [BadRequestException], not with [ConflictException]. *)
Lemma revoke_last_owner_not_conflict :
  MemberService.ownerCount 7 members_one_owner = 1
  /\ fst (MemberService.revokeMember 7 1 members_one_owner)
     = throw BadRequestException
  /\ fst (MemberService.revokeMember 7 1 members_one_owner)
     <> throw ConflictException.
Proof. repeat split. vm_compute. discriminate. Qed.

(** C2.  Ownership transfer whose target is the initiating OWNER's own
    membership: the row is saved as OWNER and then as ADMIN, so the transfer
    reports success while the tenant is left without any ACTIVE OWNER. *)
Theorem transferOwnership_to_self_drops_owner :
  let t := [ CompanyMember.mk 1 7 100 OWNER ACTIVE;
             CompanyMember.mk 2 7 101 RECRUITER ACTIVE ] in
  MemberService.transferOwnership 7 1 100 t
  = (ret "Ownership transferred successfully"%string,
     [ CompanyMember.mk 1 7 100 ADMIN ACTIVE;
       CompanyMember.mk 2 7 101 RECRUITER ACTIVE ])
  /\ MemberService.ownerCount 7 t = 1
  /\ MemberService.ownerCount 7
       (snd (MemberService.transferOwnership 7 1 100 t)) = 0.
Proof. repeat split. Qed.

(** ** Lookups *)

Section FindFacts.
Context {Row : Type}.

Lemma find_all_false (p : Row -> bool) (t : list Row) :
  (forall r, In r t -> p r = false) -> find p t = None.
Proof.
  induction t as [|r t IH]; simpl; intros H; [reflexivity|].
  rewrite (H r) by now left. apply IH. intros x Hx. apply H. now right.
Qed.

Lemma find_save (pk : Row -> uuid) (f : Row -> bool) (k : uuid)
    (e e' : Row) (t : list Row) :
  find (fun r => (pk r =? k) && f r) t = Some e ->
  pk e' = k -> f e' = true ->
  find (fun r => (pk r =? k) && f r) (save pk e' t) = Some e'.
Proof.
  intros F Hk Hf. unfold save.
  induction t as [|r t IH]; simpl in *; [discriminate|].
  destruct (pk r =? pk e') eqn:E.
  - rewrite Hk, Nat.eqb_refl, Hf. reflexivity.
  - rewrite Hk in E. rewrite E in *. simpl in *. now apply IH.
Qed.
End FindFacts.

(** ** Job listings: deadline-triggered closing *)

Section JobFacts.
Import JobListing JobService.

Lemma in_insertDesc {Row} (c : Row -> timestamptz) (x r : Row) (l : list Row) :
  In x (insertDesc c r l) -> x = r \/ In x l.
Proof.
  induction l as [|y l IH]; simpl.
  - intros [->|[]]. now left.
  - destruct (c y <? c r)%Z; simpl.
    + intros [->|[->|H]]; auto.
    + intros [->|H]; auto. destruct (IH H); auto.
Qed.

Lemma in_orderDesc {Row} (c : Row -> timestamptz) (x : Row) (l : list Row) :
  In x (orderDesc c l) -> In x l.
Proof.
  unfold orderDesc. induction l as [|y l IH]; simpl; [easy|].
  intros H. apply in_insertDesc in H as [->|H]; auto.
Qed.

Lemma in_firstn {A} (n : nat) (l : list A) (x : A) :
  In x (firstn n l) -> In x l.
Proof.
  intros H. rewrite <- (firstn_skipn n l). apply in_or_app. now left.
Qed.

Lemma in_skipn {A} (n : nat) (l : list A) (x : A) :
  In x (skipn n l) -> In x l.
Proof.
  intros H. rewrite <- (firstn_skipn n l). apply in_or_app. now right.
Qed.

Lemma in_findAndCount {Row} (c : Row -> timestamptz) (w : Row -> bool)
    (skip take : nat) (t : list Row) (x : Row) :
  In x (fst (findAndCount c w skip take t)) -> In x t /\ w x = true.
Proof.
  unfold findAndCount. simpl. intros H.
  apply in_firstn, in_skipn, in_orderDesc in H.
  now apply filter_In in H.
Qed.

Lemma autoClose_scoped (c : uuid) (now : timestamptz) (t : Table) (j : JobListing.t) :
  In j (autoCloseExpiredJobs (Some c) now t) -> company j = c ->
  expiredActive now j = false.
Proof.
  unfold autoCloseExpiredJobs, update_where. intros H Hc.
  apply in_map_iff in H as (r & Hr & _). cbv beta in Hr.
  fold (expiredActive now r) in Hr.
  destruct (expiredActive now r) eqn:X; simpl in Hr.
  - destruct (company r =? c) eqn:E.
    + subst j. reflexivity.
    + subst j. apply Nat.eqb_neq in E. contradiction.
  - subst j. exact X.
Qed.

(** The tenant-scoped listing does close before it reads: neither the
    table nor the page holds an expired ACTIVE posting of the tenant. *)
Lemma findAll_closes_expired (c : uuid) (page limit : nat)
    (now : timestamptz) (t : Table) :
  (forall j, In j (snd (findAll c page limit now t)) -> company j = c ->
             expiredActive now j = false)
  /\ (forall j, In j (data (fst (findAll c page limit now t))) ->
                expiredActive now j = false).
Proof.
  unfold findAll.
  destruct (findAndCount _ _ _ _ _) as [items total] eqn:F. simpl.
  split.
  - intros j. apply autoClose_scoped.
  - intros j Hj.
    assert (In j (fst (findAndCount created_at
              (fun j => (company j =? c) && IsNull (deleted_at j))
              ((page - 1) * limit) limit
              (autoCloseExpiredJobs (Some c) now t)))) as H
      by (rewrite F; exact Hj).
    apply in_findAndCount in H as [Hin Hw].
    apply andb_true_iff in Hw as [Hc _]. apply Nat.eqb_eq in Hc.
    eapply autoClose_scoped; eauto.
Qed.
End JobFacts.

(** C3.  The public listing is served without the closing step: with one
    PUBLIC posting that is ACTIVE and whose deadline (5) lies before the
    time of the read (10), [findPublicJobs] returns the posting and leaves
    it ACTIVE in the table. *)
Theorem findPublicJobs_serves_expired_active :
  let J := JobListing.mk 1 7 "Dev" PUBLIC JOB_ACTIVE (Some 5%Z) None None 0%Z in
  JobService.findPublicJobs 1 10 [J]
  = (paginate [JobService.mkPublicJob 1 "Dev" (Some 5%Z) 0%Z] 1 1 10, [J])
  /\ JobService.expiredActive 10%Z J = true
  /\ JobListing.status J = JOB_ACTIVE.
Proof. repeat split. Qed.

(** C4.  The candidate listing maps every comment of an application into
    the response and filters none: on the data of the repository's own unit
    test (one visible comment, one internal) both comments are returned. *)
Theorem getCandidateApplications_exposes_hidden_comment :
  let app := JobApplication.mk 1 5 7 100 None APPLIED None 0%Z in
  let cm1 := ApplicationComment.mk 1 1 7 200 "Good" true 1%Z in
  let cm2 := ApplicationComment.mk 2 1 7 200 "Internal" false 2%Z in
  map ApplicationService.ca_comments
      (data (ApplicationService.getCandidateApplications 100 1 10 []
               [cm1; cm2] [app]))
  = [[ApplicationService.mkCommentView 1 "Good" true 1%Z;
      ApplicationService.mkCommentView 2 "Internal" false 2%Z]].
Proof. reflexivity. Qed.

(** ** Counting rows *)

Section CountFacts.
Context {Row : Type} (pk : Row -> uuid).


Lemma count_none (p : Row -> bool) (t : list Row) :
  (forall r, In r t -> p r = false) -> count p t = 0.
Proof.
  unfold count. induction t as [|r t IH]; simpl; intros H; [reflexivity|].
  rewrite (H r) by now left. apply IH. intros x Hx. apply H. now right.
Qed.

Lemma count_snoc (p : Row -> bool) (t : list Row) (r : Row) :
  count p (t ++ [r]) = count p t + (if p r then 1 else 0).
Proof.
  unfold count. rewrite filter_app, length_app. simpl.
  now destruct (p r).
Qed.


Lemma update_where_pk (w : Row -> bool) (set : Row -> Row) (t : list Row) :
  (forall r, pk (set r) = pk r) ->
  map pk (update_where w set t) = map pk t.
Proof.
  intros H. unfold update_where. rewrite map_map. apply map_ext.
  intros r. destruct (w r); [apply H | reflexivity].
Qed.

Lemma fresh_not_in (t : list Row) : ~ In (fresh pk t) (map pk t).
Proof.
  unfold fresh. intros H.
  assert (Forall (fun k => k <= list_max (map pk t)) (map pk t)) as F
    by (apply list_max_le; lia).
  rewrite Forall_forall in F. apply F in H. lia.
Qed.

Lemma NoDup_insert (t : list Row) (r : Row) :
  NoDup (map pk t) -> pk r = fresh pk t -> NoDup (map pk (t ++ [r])).
Proof.
  intros ND E. rewrite map_app. simpl. apply NoDup_app.
  - exact ND.
  - repeat constructor. intros [].
  - intros a Ha [<-|[]]. rewrite E in Ha. now apply fresh_not_in in Ha.
Qed.
End CountFacts.

(** ** Resumes: one primary at most, ten resumes at most *)

Section ResumeFacts.
Import Resume ResumeService.



Lemma find_resume_some (userId resumeId : uuid) (t : list Resume.t) e :
  find (fun r => (id r =? resumeId) && (user r =? userId)) t = Some e ->
  In e t /\ id e = resumeId /\ user e = userId.
Proof.
  intros H. apply find_some in H as [Hin Hp].
  apply andb_true_iff in Hp as [H1 H2]. apply Nat.eqb_eq in H1, H2. auto.
Qed.

Lemma in_update_where {Row} (w : Row -> bool) (set : Row -> Row) t e :
  In e t -> In (if w e then set e else e) (update_where w set t).
Proof. intros H. unfold update_where. now apply (in_map (fun r => if w r then set r else r)). Qed.






End ResumeFacts.





(** ** Applications: one per job and actor, guarded status changes *)

Section ApplicationFacts.
Import JobApplication ApplicationService.

Lemma find_none_count {Row} (p : Row -> bool) (t : list Row) :
  find p t = None <-> count p t = 0.
Proof.
  unfold count. induction t as [|r t IH]; simpl; [tauto|].
  destruct (p r); simpl; [split; discriminate | exact IH].
Qed.

(** [apply] either throws and leaves the table alone, or appends one
    APPLIED row for a pair that had none. *)
Lemma apply_cases (userId : uuid) (dto : CreateApplicationDto)
    (now : timestamptz) (jobs : JobService.Table) (resumes : list Resume.t)
    (t : Table) :
  (exists e, apply userId dto now jobs resumes t = (throw e, t))
  \/ (pairCount (job_id dto) userId t = 0
      /\ exists a,
           job a = job_id dto /\ user a = userId /\ status a = APPLIED
           /\ apply userId dto now jobs resumes t
              = (ret (mkSummary (id a) (job_id dto) APPLIED now), t ++ [a])).
Proof.
  unfold apply.
  destruct (find _ jobs) as [j|]; [|left; eauto].
  destruct (match JobListing.application_deadline j with
            | Some d => (d <? now)%Z | None => false end); [left; eauto|].
  destruct (find _ resumes); [|left; eauto].
  destruct (find (isPair (job_id dto) userId) t) eqn:F; [left; eauto|].
  right. split; [now apply find_none_count|].
  exists (mk (fresh id t) (job_id dto) (JobListing.company j) userId
            (Some (resume_id dto)) APPLIED None now).
  repeat split; reflexivity.
Qed.

Lemma step_pairCount (jobId userId : uuid) (t : Table) (c : Call) :
  pairCount jobId userId t <= 1 -> pairCount jobId userId (step t c) <= 1.
Proof.
  intros H. unfold step.
  destruct (apply_cases (call_user c) (call_dto c) (call_now c) (call_jobs c)
              (call_resumes c) t) as [[e E] | (Z & a & Hj & Hu & _ & E)];
    rewrite E; simpl; [exact H|].
  unfold pairCount in *. rewrite count_snoc.
  unfold isPair at 2. rewrite Hj, Hu.
  destruct (job_id (call_dto c) =? jobId) eqn:J; simpl; [|lia].
  destruct (call_user c =? userId) eqn:U; simpl; [|lia].
  apply Nat.eqb_eq in J, U. subst. lia.
Qed.

Lemma run_pairCount (jobId userId : uuid) (cs : list Call) : forall t : Table,
  pairCount jobId userId t <= 1 -> pairCount jobId userId (run cs t) <= 1.
Proof.
  unfold run. induction cs as [|c cs IH]; simpl; intros t H; [exact H|].
  apply IH. now apply step_pairCount.
Qed.
End ApplicationFacts.

(** C6 (as amended).  At most one application row per (job, actor): the
    bound survives every sequence of [apply] requests.  The first request
    of a pair (job ACTIVE and not deleted, deadline not passed, resume owned
    by the actor, no row yet) creates one row and returns it with status
    APPLIED; a request repeated on the resulting table, at any later time,
    throws [BadRequestException] (HTTP 400) and creates no row; and any
    request for a pair that already has a row throws and creates no row. *)
Theorem one_application_per_pair :
  (forall (jobId userId : uuid) (cs : list ApplicationService.Call)
          (t : ApplicationService.Table),
      ApplicationService.pairCount jobId userId t <= 1 ->
      ApplicationService.pairCount jobId userId (ApplicationService.run cs t) <= 1)
  /\
  (forall (userId : uuid) (dto : ApplicationService.CreateApplicationDto)
          (now : timestamptz) (jobs : JobService.Table)
          (resumes : list Resume.t) (t : ApplicationService.Table)
          (j : JobListing.t) (r : Resume.t),
      find (fun j => (JobListing.id j =? ApplicationService.job_id dto)
                     && JobStatus_eqb (JobListing.status j) JOB_ACTIVE
                     && IsNull (JobListing.deleted_at j)) jobs = Some j ->
      (forall d, JobListing.application_deadline j = Some d -> (now <= d)%Z) ->
      find (fun r => (Resume.id r =? ApplicationService.resume_id dto)
                     && (Resume.user r =? userId)) resumes = Some r ->
      ApplicationService.pairCount (ApplicationService.job_id dto) userId t = 0 ->
      exists a,
        ApplicationService.apply userId dto now jobs resumes t
        = (ret (ApplicationService.mkSummary (JobApplication.id a)
                  (ApplicationService.job_id dto) APPLIED now), t ++ [a])
        /\ JobApplication.status a = APPLIED
        /\ ApplicationService.pairCount (ApplicationService.job_id dto) userId
             (t ++ [a]) = 1
        /\ forall now',
             ApplicationService.apply userId dto now' jobs resumes (t ++ [a])
             = (throw BadRequestException, t ++ [a]))
  /\
  (forall (userId : uuid) (dto : ApplicationService.CreateApplicationDto)
          (now : timestamptz) (jobs : JobService.Table)
          (resumes : list Resume.t) (t : ApplicationService.Table),
      1 <= ApplicationService.pairCount (ApplicationService.job_id dto) userId t ->
      exists e,
        ApplicationService.apply userId dto now jobs resumes t = (throw e, t)).
Proof.
  split; [|split].
  - intros jobId userId cs t. apply run_pairCount.
  - intros userId dto now jobs resumes t j r Fj Hd Fr Hc.
    destruct (apply_cases userId dto now jobs resumes t)
      as [[e E] | (_ & a & Hj & Hu & Hs & E)].
    + exfalso. unfold ApplicationService.apply in E. rewrite Fj, Fr in E.
      assert (match JobListing.application_deadline j with
              | Some d => (d <? now)%Z | None => false end = false) as D.
      { destruct (JobListing.application_deadline j) as [d|] eqn:Q; [|reflexivity].
        apply Z.ltb_ge. now apply Hd. }
      rewrite D in E. apply find_none_count in Hc. rewrite Hc in E.
      discriminate E.
    + exists a. split; [exact E|]. split; [exact Hs|].
      assert (ApplicationService.isPair (ApplicationService.job_id dto) userId a
              = true) as P.
      { unfold ApplicationService.isPair. now rewrite Hj, Hu, !Nat.eqb_refl. }
      split.
      * unfold ApplicationService.pairCount in *. rewrite count_snoc, Hc, P.
        reflexivity.
      * intros now'. unfold ApplicationService.apply. rewrite Fj, Fr.
        destruct (match JobListing.application_deadline j with
                  | Some d => (d <? now')%Z | None => false end);
          [reflexivity|].
        destruct (find _ (t ++ [a])) eqn:F; [reflexivity|].
        apply find_none_count in F.
        unfold ApplicationService.pairCount in Hc.
        rewrite count_snoc, Hc, P in F. discriminate.
  - intros userId dto now jobs resumes t H.
    destruct (apply_cases userId dto now jobs resumes t)
      as [[e E] | (Z & _)]; [eauto | lia].
Qed.

Lemma one_application_per_pair_witness :
  ApplicationService.pairCount 1 100
    (ApplicationService.run
       [ApplicationService.mkCall 100 (ApplicationService.mkDto 1 1) 3%Z
          [job_dev] [resume_of_100];
        ApplicationService.mkCall 100 (ApplicationService.mkDto 1 1) 4%Z
          [job_dev] [resume_of_100]] []) <= 1
  /\ (exists a,
        ApplicationService.apply 100 (ApplicationService.mkDto 1 1) 3%Z
          [job_dev] [resume_of_100] []
        = (ret (ApplicationService.mkSummary (JobApplication.id a) 1 APPLIED 3%Z),
           [] ++ [a])
        /\ JobApplication.status a = APPLIED
        /\ ApplicationService.pairCount 1 100 ([] ++ [a]) = 1
        /\ forall now',
             ApplicationService.apply 100 (ApplicationService.mkDto 1 1) now'
               [job_dev] [resume_of_100] ([] ++ [a])
             = (throw BadRequestException, [] ++ [a]))
  /\ (exists e,
        ApplicationService.apply 100 (ApplicationService.mkDto 1 1) 9%Z
          [job_dev] [resume_of_100] [application_1]
        = (throw e, [application_1])).
Proof.
  split; [|split].
  - apply (proj1 one_application_per_pair). vm_compute. lia.
  - apply (proj1 (proj2 one_application_per_pair) 100
             (ApplicationService.mkDto 1 1) 3%Z [job_dev] [resume_of_100] []
             job_dev resume_of_100).
    + reflexivity.
    + intros d H. discriminate H.
    + reflexivity.
    + reflexivity.
  - apply (proj2 (proj2 one_application_per_pair)). vm_compute. lia.
Defined.

(** C6 as stated fails: the second of two identical [apply] requests is
    refused with [BadRequestException], not with [ConflictException]. *)
Lemma duplicate_apply_not_conflict :
  let dto := ApplicationService.mkDto 1 1 in
  let first := ApplicationService.apply 100 dto 3%Z [job_dev] [resume_of_100] [] in
  let second :=
    ApplicationService.apply 100 dto 3%Z [job_dev] [resume_of_100] (snd first) in
  fst first = ret (ApplicationService.mkSummary 1 1 APPLIED 3%Z)
  /\ fst second = throw BadRequestException
  /\ fst second <> throw ConflictException
  /\ snd second = snd first.
Proof. repeat split. vm_compute. discriminate. Qed.

Section TransitionFacts.
Import JobApplication ApplicationService.

Lemma ApplicationStatus_eqb_eq (a b : ApplicationStatus) :
  ApplicationStatus_eqb a b = true <-> a = b.
Proof. destruct a, b; simpl; split; intros H; congruence. Qed.

Lemma ApplicationStatus_eqb_neq (a b : ApplicationStatus) :
  ApplicationStatus_eqb a b = false <-> a <> b.
Proof. destruct a, b; simpl; split; intros H; congruence. Qed.

Lemma withdraw_spec (userId applicationId : uuid) (t : Table) (a : JobApplication.t) :
  find (fun a => (id a =? applicationId) && (user a =? userId)) t = Some a ->
  withdraw userId applicationId t
  = if ApplicationStatus_eqb (status a) ACCEPTED
       || ApplicationStatus_eqb (status a) WITHDRAWN
    then (throw BadRequestException, t)
    else (ret "Application withdrawn successfully"%string,
          save id (with_status a WITHDRAWN) t).
Proof.
  intros F. unfold withdraw. rewrite F.
  now destruct (status a).
Qed.

Lemma updateStatus_spec (companyId applicationId : uuid)
    (st : ApplicationStatus) (changedBy : uuid) (t : Table)
    (a : JobApplication.t) :
  find (fun a => (id a =? applicationId) && (company a =? companyId)) t
  = Some a ->
  updateStatus companyId applicationId st changedBy t
  = if ApplicationStatus_eqb (status a) WITHDRAWN
    then (throw BadRequestException, t)
    else (ret (id a, st),
          save id (with_status_changed_by (with_status a st) (Some changedBy)) t).
Proof.
  intros F. unfold updateStatus. rewrite F.
  now destruct (status a).
Qed.
End TransitionFacts.

(** C7.  For an application the candidate owns, [withdraw] succeeds exactly
    when the status is neither ACCEPTED nor WITHDRAWN, and then the stored
    status is WITHDRAWN; for an application of the company, [updateStatus]
    succeeds exactly when the status is not WITHDRAWN (from ACCEPTED as
    well), and then the stored status is the requested one.  Every refused
    attempt throws [BadRequestException], the exception the service uses for
    an invalid transition, and leaves the table unchanged. *)
Theorem application_status_transitions :
  (forall (userId applicationId : uuid) (t : ApplicationService.Table)
          (a : JobApplication.t),
      find (fun a => (JobApplication.id a =? applicationId)
                     && (JobApplication.user a =? userId)) t = Some a ->
      ((exists v, fst (ApplicationService.withdraw userId applicationId t) = inr v)
       <-> JobApplication.status a <> ACCEPTED
           /\ JobApplication.status a <> WITHDRAWN)
      /\ (JobApplication.status a <> ACCEPTED ->
          JobApplication.status a <> WITHDRAWN ->
          find (fun a => (JobApplication.id a =? applicationId)
                         && (JobApplication.user a =? userId))
               (snd (ApplicationService.withdraw userId applicationId t))
          = Some (JobApplication.with_status a WITHDRAWN))
      /\ (JobApplication.status a = ACCEPTED
          \/ JobApplication.status a = WITHDRAWN ->
          ApplicationService.withdraw userId applicationId t
          = (throw BadRequestException, t)))
  /\
  (forall (companyId applicationId : uuid) (st : ApplicationStatus)
          (changedBy : uuid) (t : ApplicationService.Table)
          (a : JobApplication.t),
      find (fun a => (JobApplication.id a =? applicationId)
                     && (JobApplication.company a =? companyId)) t = Some a ->
      ((exists v, fst (ApplicationService.updateStatus companyId applicationId
                         st changedBy t) = inr v)
       <-> JobApplication.status a <> WITHDRAWN)
      /\ (JobApplication.status a <> WITHDRAWN ->
          find (fun a => (JobApplication.id a =? applicationId)
                         && (JobApplication.company a =? companyId))
               (snd (ApplicationService.updateStatus companyId applicationId
                       st changedBy t))
          = Some (JobApplication.with_status_changed_by
                    (JobApplication.with_status a st) (Some changedBy)))
      /\ (JobApplication.status a = WITHDRAWN ->
          ApplicationService.updateStatus companyId applicationId st changedBy t
          = (throw BadRequestException, t))).
Proof.
  split.
  - intros userId applicationId t a F.
    pose proof (withdraw_spec userId applicationId t a F) as W.
    pose proof (find_some _ _ F) as [_ P].
    apply andb_true_iff in P as [Pid Pu]. apply Nat.eqb_eq in Pid.
    split; [|split].
    + rewrite W. destruct (JobApplication.status a); simpl; split;
        try (intros [v H]; discriminate H);
        try (intros [H1 H2]; congruence);
        try (intros _; split; discriminate);
        try (intros _; eexists; reflexivity).
    + intros H1 H2. rewrite W.
      destruct (JobApplication.status a) eqn:S; try congruence; simpl;
        apply (find_save JobApplication.id
                 (fun a => JobApplication.user a =? userId) applicationId a);
        auto.
    + intros [H|H]; rewrite W, H; reflexivity.
  - intros companyId applicationId st changedBy t a F.
    pose proof (updateStatus_spec companyId applicationId st changedBy t a F) as W.
    pose proof (find_some _ _ F) as [_ P].
    apply andb_true_iff in P as [Pid Pc]. apply Nat.eqb_eq in Pid.
    split; [|split].
    + rewrite W. destruct (JobApplication.status a); simpl; split;
        try (intros [v H]; discriminate H);
        try (intros H; congruence);
        try (intros _; discriminate);
        try (intros _; eexists; reflexivity).
    + intros H. rewrite W.
      destruct (JobApplication.status a) eqn:S; try congruence; simpl;
        apply (find_save JobApplication.id
                 (fun a => JobApplication.company a =? companyId)
                 applicationId a);
        auto.
    + intros H. rewrite W, H. reflexivity.
Qed.

Lemma application_status_transitions_witness :
  (* Scenario C: the candidate cannot withdraw an ACCEPTED application *)
  ApplicationService.withdraw 101 2 [application_1; application_accepted]
  = (throw BadRequestException, [application_1; application_accepted])
  (* an APPLIED application is withdrawn *)
  /\ find (fun a => (JobApplication.id a =? 1) && (JobApplication.user a =? 100))
          (snd (ApplicationService.withdraw 100 1
                  [application_1; application_accepted]))
     = Some (JobApplication.with_status application_1 WITHDRAWN)
  (* the company may move ACCEPTED to REJECTED *)
  /\ find (fun a => (JobApplication.id a =? 2) && (JobApplication.company a =? 7))
          (snd (ApplicationService.updateStatus 7 2 REJECTED 201
                  [application_1; application_accepted]))
     = Some (JobApplication.with_status_changed_by
               (JobApplication.with_status application_accepted REJECTED)
               (Some 201)).
Proof.
  split; [|split].
  - apply (proj2 (proj2 (proj1 application_status_transitions 101 2
                           [application_1; application_accepted]
                           application_accepted eq_refl))).
    left. reflexivity.
  - apply (proj1 (proj2 (proj1 application_status_transitions 100 1
                           [application_1; application_accepted]
                           application_1 eq_refl))); discriminate.
  - apply (proj1 (proj2 (proj2 application_status_transitions 7 2 REJECTED 201
                           [application_1; application_accepted]
                           application_accepted eq_refl))); discriminate.
Defined.

(** ** Scoped lookups *)

Section ScopeFacts.
Ltac scoped_none H :=
  apply find_all_false; intros r Hin;
  match goal with
  | |- context [?i =? ?k] =>
      destruct (i =? k) eqn:E; simpl; [|reflexivity];
      apply Nat.eqb_eq in E; specialize (H r Hin E);
      apply Nat.eqb_neq in H; rewrite ?H, ?andb_false_r; reflexivity
  end.

Lemma job_other_tenant (companyId jobId : uuid) (t : JobService.Table) :
  (forall j, In j t -> JobListing.id j = jobId ->
             JobListing.company j <> companyId) ->
  find (fun j => (JobListing.id j =? jobId)
                 && (JobListing.company j =? companyId)
                 && IsNull (JobListing.deleted_at j)) t = None.
Proof. intros H. scoped_none H. Qed.

Lemma bank_other_tenant (companyId qbId : uuid) (t : QuestionBankService.Table) :
  (forall q, In q t -> QuestionBank.id q = qbId ->
             QuestionBank.company q <> companyId) ->
  find (fun q => (QuestionBank.id q =? qbId)
                 && (QuestionBank.company q =? companyId)) t = None.
Proof. intros H. scoped_none H. Qed.

Lemma member_other_tenant (companyId memberId : uuid) (t : MemberService.Table) :
  (forall m, In m t -> CompanyMember.id m = memberId ->
             CompanyMember.company m <> companyId) ->
  MemberService.findMembership companyId memberId t = None.
Proof. intros H. unfold MemberService.findMembership. scoped_none H. Qed.

Lemma application_other_actor (userId applicationId : uuid)
    (t : ApplicationService.Table) :
  (forall a, In a t -> JobApplication.id a = applicationId ->
             JobApplication.user a <> userId) ->
  find (fun a => (JobApplication.id a =? applicationId)
                 && (JobApplication.user a =? userId)) t = None.
Proof. intros H. scoped_none H. Qed.

Lemma application_other_tenant (companyId applicationId : uuid)
    (t : ApplicationService.Table) :
  (forall a, In a t -> JobApplication.id a = applicationId ->
             JobApplication.company a <> companyId) ->
  find (fun a => (JobApplication.id a =? applicationId)
                 && (JobApplication.company a =? companyId)) t = None.
Proof. intros H. scoped_none H. Qed.

Lemma resume_other_actor (userId resumeId : uuid) (t : list Resume.t) :
  (forall r, In r t -> Resume.id r = resumeId -> Resume.user r <> userId) ->
  find (fun r => (Resume.id r =? resumeId) && (Resume.user r =? userId)) t
  = None.
Proof. intros H. scoped_none H. Qed.
End ScopeFacts.

(** C8 (as amended).  A lookup by identifier whose row belongs to another
    tenant or another actor is reported as [NotFoundException]: fetching,
    re-statusing or deleting a job of another tenant, fetching or updating
    another tenant's question bank, revoking or re-roling another tenant's
    membership, withdrawing another actor's application, re-statusing
    another tenant's application, making another actor's resume primary.
    The one exception is [apply]: a [resume_id] that belongs to a different
    actor is reported as [ForbiddenException]. *)
Theorem scoping_mismatch_errors :
  (forall (companyId jobId : uuid) (now : timestamptz) (st : JobStatus)
          (t : JobService.Table),
      (forall j, In j t -> JobListing.id j = jobId ->
                 JobListing.company j <> companyId) ->
      JobService.findOne companyId jobId t = throw NotFoundException
      /\ JobService.updateStatus companyId jobId st t
         = (throw NotFoundException, t)
      /\ JobService.softDelete companyId jobId now t
         = (throw NotFoundException, t))
  /\
  (forall (companyId qbId : uuid) (dto : QuestionBankService.UpdateQuestionBankDto)
          (t : QuestionBankService.Table),
      (forall q, In q t -> QuestionBank.id q = qbId ->
                 QuestionBank.company q <> companyId) ->
      QuestionBankService.findOne companyId qbId t = throw NotFoundException
      /\ QuestionBankService.update companyId qbId dto t
         = (throw NotFoundException, t))
  /\
  (forall (companyId memberId : uuid) (role : CompanyRole)
          (t : MemberService.Table),
      (forall m, In m t -> CompanyMember.id m = memberId ->
                 CompanyMember.company m <> companyId) ->
      MemberService.revokeMember companyId memberId t
      = (throw NotFoundException, t)
      /\ MemberService.updateMemberRole companyId memberId role t
         = (throw NotFoundException, t))
  /\
  (forall (userId applicationId : uuid) (t : ApplicationService.Table),
      (forall a, In a t -> JobApplication.id a = applicationId ->
                 JobApplication.user a <> userId) ->
      ApplicationService.withdraw userId applicationId t
      = (throw NotFoundException, t))
  /\
  (forall (companyId applicationId changedBy : uuid) (st : ApplicationStatus)
          (t : ApplicationService.Table),
      (forall a, In a t -> JobApplication.id a = applicationId ->
                 JobApplication.company a <> companyId) ->
      ApplicationService.updateStatus companyId applicationId st changedBy t
      = (throw NotFoundException, t))
  /\
  (forall (userId resumeId : uuid) (s : ResumeService.State),
      (forall r, In r (ResumeService.resumes s) -> Resume.id r = resumeId ->
                 Resume.user r <> userId) ->
      ResumeService.setPrimary userId resumeId s = (throw NotFoundException, s))
  /\
  (forall (userId : uuid) (dto : ApplicationService.CreateApplicationDto)
          (now : timestamptz) (jobs : JobService.Table)
          (resumes : list Resume.t) (t : ApplicationService.Table)
          (j : JobListing.t),
      find (fun j => (JobListing.id j =? ApplicationService.job_id dto)
                     && JobStatus_eqb (JobListing.status j) JOB_ACTIVE
                     && IsNull (JobListing.deleted_at j)) jobs = Some j ->
      (forall d, JobListing.application_deadline j = Some d -> (now <= d)%Z) ->
      (forall r, In r resumes ->
                 Resume.id r = ApplicationService.resume_id dto ->
                 Resume.user r <> userId) ->
      ApplicationService.apply userId dto now jobs resumes t
      = (throw ForbiddenException, t)).
Proof.
  repeat split.
  - unfold JobService.findOne. now rewrite job_other_tenant.
  - unfold JobService.updateStatus, JobService.findOne.
    now rewrite job_other_tenant.
  - unfold JobService.softDelete, JobService.findOne.
    now rewrite job_other_tenant.
  - unfold QuestionBankService.findOne. now rewrite bank_other_tenant.
  - unfold QuestionBankService.update, QuestionBankService.findOne.
    now rewrite bank_other_tenant.
  - unfold MemberService.revokeMember. now rewrite member_other_tenant.
  - unfold MemberService.updateMemberRole. now rewrite member_other_tenant.
  - intros userId applicationId t H.
    unfold ApplicationService.withdraw. now rewrite application_other_actor.
  - intros companyId applicationId changedBy st t H.
    unfold ApplicationService.updateStatus.
    now rewrite application_other_tenant.
  - intros userId resumeId s H.
    unfold ResumeService.setPrimary. now rewrite resume_other_actor.
  - intros userId dto now jobs resumes t j Fj Hd Hr.
    unfold ApplicationService.apply. rewrite Fj.
    assert (match JobListing.application_deadline j with
            | Some d => (d <? now)%Z | None => false end = false) as D.
    { destruct (JobListing.application_deadline j) as [d|] eqn:Q; [|reflexivity].
      apply Z.ltb_ge. now apply Hd. }
    rewrite D. now rewrite resume_other_actor.
Qed.

Lemma scoping_mismatch_errors_witness :
  JobService.findOne 7 2 [job_dev; job_of_tenant_8] = throw NotFoundException
  /\ QuestionBankService.findOne 7 1
       [QuestionBank.mk 1 8 "Backend" []] = throw NotFoundException
  /\ MemberService.revokeMember 8 1 members_one_owner
     = (throw NotFoundException, members_one_owner)
  /\ ApplicationService.withdraw 101 1 [application_1]
     = (throw NotFoundException, [application_1])
  /\ ApplicationService.updateStatus 8 1 ACCEPTED 200 [application_1]
     = (throw NotFoundException, [application_1])
  /\ ResumeService.setPrimary 100 2
       (ResumeService.mkState [resume_of_100; resume_of_101] [])
     = (throw NotFoundException,
        ResumeService.mkState [resume_of_100; resume_of_101] [])
  /\ ApplicationService.apply 100 (ApplicationService.mkDto 1 2) 3%Z
       [job_dev] [resume_of_100; resume_of_101] []
     = (throw ForbiddenException, []).
Proof.
  pose proof scoping_mismatch_errors as (Hj & Hq & Hm & Ha & Hc & Hr & Hf).
  split; [|split; [|split; [|split; [|split; [|split]]]]].
  - apply (proj1 (Hj 7 2 0%Z JOB_ACTIVE [job_dev; job_of_tenant_8] ltac:(
      simpl; intros j [<-|[<-|[]]]; simpl; intros; lia))).
  - apply (proj1 (Hq 7 1 (QuestionBankService.mkUpdateDto None None)
                    [QuestionBank.mk 1 8 "Backend" []] ltac:(
      simpl; intros q [<-|[]]; simpl; intros; lia))).
  - apply (proj1 (Hm 8 1 ADMIN members_one_owner ltac:(
      simpl; intros m [<-|[<-|[]]]; simpl; intros; lia))).
  - apply (Ha 101 1 [application_1]).
    simpl; intros a [<-|[]]; simpl; intros; lia.
  - apply (Hc 8 1 200 ACCEPTED [application_1]).
    simpl; intros a [<-|[]]; simpl; intros; lia.
  - apply (Hr 100 2 (ResumeService.mkState [resume_of_100; resume_of_101] [])).
    simpl; intros r [<-|[<-|[]]]; simpl; intros; lia.
  - apply (Hf 100 (ApplicationService.mkDto 1 2) 3%Z [job_dev]
             [resume_of_100; resume_of_101] [] job_dev).
    + reflexivity.
    + intros d H. discriminate H.
    + simpl; intros r [<-|[<-|[]]]; simpl; intros; lia.
Defined.

(** C8 as stated fails: applying with a resume that exists but belongs to
    another actor is reported as [ForbiddenException], not as
    [NotFoundException]. *)
Lemma apply_foreign_resume_is_forbidden :
  In resume_of_101 [resume_of_100; resume_of_101]
  /\ Resume.user resume_of_101 <> 100
  /\ fst (ApplicationService.apply 100
            (ApplicationService.mkDto 1 (Resume.id resume_of_101)) 3%Z
            [job_dev] [resume_of_100; resume_of_101] [])
     = throw ForbiddenException
  /\ fst (ApplicationService.apply 100
            (ApplicationService.mkDto 1 (Resume.id resume_of_101)) 3%Z
            [job_dev] [resume_of_100; resume_of_101] [])
     <> throw NotFoundException.
Proof.
  repeat split.
  - simpl. auto.
  - simpl. lia.
  - vm_compute. discriminate.
Qed.

(** ** Question-bank snapshot *)

Section SnapshotFacts.
Lemma edits_job_listings (es : list Database.BankEdit) : forall db : Database.t,
  Database.job_listings (Database.edits es db) = Database.job_listings db.
Proof.
  unfold Database.edits. induction es as [|e es IH]; simpl; intros db;
    [reflexivity|].
  rewrite IH. now destruct e.
Qed.

Lemma find_app_none {Row} (p : Row -> bool) (t l : list Row) :
  find p t = None -> find p (t ++ l) = find p l.
Proof.
  induction t as [|r t IH]; simpl; [reflexivity|].
  destruct (p r); [discriminate | exact IH].
Qed.

(** A row inserted under a fresh identifier is the one [findOne] returns. *)
Lemma findOne_inserted (companyId : uuid) (t : JobService.Table)
    (job : JobListing.t) :
  JobListing.id job = fresh JobListing.id t ->
  JobListing.company job = companyId ->
  JobListing.deleted_at job = None ->
  JobService.findOne companyId (JobListing.id job) (t ++ [job]) = ret job.
Proof.
  intros Hid Hc Hd. unfold JobService.findOne.
  rewrite find_app_none.
  - simpl. now rewrite Nat.eqb_refl, Hc, Nat.eqb_refl, Hd.
  - apply find_all_false. intros r Hin.
    destruct (JobListing.id r =? JobListing.id job) eqn:E; [|reflexivity].
    apply Nat.eqb_eq in E. exfalso.
    apply (fresh_not_in JobListing.id t). rewrite <- Hid, <- E.
    now apply in_map.
Qed.
End SnapshotFacts.

(** C9.  A job created with a reference to a question bank of the tenant
    is stored with the bank's question list of that moment as its
    [screening_questions_json]; and after any later sequence of question-bank
    creations, updates and deletions the job is still read back with exactly
    that list. *)
Theorem snapshot_survives_bank_edits
    (companyId userId : uuid) (dto : JobService.CreateJobDto)
    (now : timestamptz) (db : Database.t) (q : uuid) (qb : QuestionBank.t) :
  JobService.dto_question_bank_id dto = Some q ->
  find (fun b => (QuestionBank.id b =? q)
                 && (QuestionBank.company b =? companyId))
       (Database.question_banks db) = Some qb ->
  exists (s : JobService.JobSummary) (db' : Database.t),
    Database.createJob companyId userId dto now db = (ret s, db')
    /\ forall es : list Database.BankEdit,
         exists job,
           JobService.findOne companyId (JobService.sum_id s)
             (Database.job_listings (Database.edits es db')) = ret job
           /\ JobListing.screening_questions_json job
              = Some (QuestionBank.questions_json qb).
Proof.
  intros Hq F.
  unfold Database.createJob, JobService.create. rewrite Hq, F.
  eexists. eexists. split; [reflexivity|].
  intros es. rewrite edits_job_listings. simpl.
  set (job := JobListing.mk (fresh JobListing.id (Database.job_listings db))
                companyId (JobService.dto_title dto)
                (JobService.dto_visibility dto) (JobService.dto_status dto)
                (JobService.dto_application_deadline dto)
                (Some (QuestionBank.questions_json qb)) None now).
  exists job. split; [|reflexivity].
  apply (findOne_inserted companyId (Database.job_listings db) job);
    reflexivity.
Qed.

Lemma snapshot_survives_bank_edits_witness :
  exists (s : JobService.JobSummary) (db' : Database.t),
    Database.createJob 7 100 dto_with_bank 5%Z db_with_bank = (ret s, db')
    /\ forall es : list Database.BankEdit,
         exists job,
           JobService.findOne 7 (JobService.sum_id s)
             (Database.job_listings (Database.edits es db')) = ret job
           /\ JobListing.screening_questions_json job = Some [question_sql].
Proof.
  apply (snapshot_survives_bank_edits 7 100 dto_with_bank 5%Z db_with_bank 1
           (QuestionBank.mk 1 7 "Backend" [question_sql])); reflexivity.
Defined.

(** The edit is real: the bank itself holds the new list afterwards, or is
    gone, while the job reads back the old one. *)
Example snapshot_after_update_and_delete :
  let db' := snd (Database.createJob 7 100 dto_with_bank 5%Z db_with_bank) in
  let upd := Database.UpdateBank 7 1
               (QuestionBankService.mkUpdateDto None (Some [question_go])) in
  QuestionBankService.findOne 7 1
    (Database.question_banks (Database.edits [upd] db'))
  = ret (QuestionBank.mk 1 7 "Backend" [question_go])
  /\ QuestionBankService.findOne 7 1
       (Database.question_banks
          (Database.edits [upd; Database.DeleteBank 1] db'))
     = throw NotFoundException
  /\ option_map JobListing.screening_questions_json
       (match JobService.findOne 7 2
                (Database.job_listings
                   (Database.edits [upd; Database.DeleteBank 1] db')) with
        | inr job => Some job
        | inl _ => None
        end)
     = Some (Some [question_sql]).
Proof. repeat split. Qed.

(** ** Ownership transfer to another member *)

Section TransferFacts.
Import CompanyMember MemberService.

Lemma in_save_same {Row} (pk : Row -> uuid) (e e' : Row) (t : list Row) :
  In e t -> pk e' = pk e -> In e' (save pk e' t).
Proof.
  intros Hin Hpk. unfold save.
  apply in_map_iff. exists e. split; [|exact Hin].
  now rewrite Hpk, Nat.eqb_refl.
Qed.

Lemma in_save_other {Row} (pk : Row -> uuid) (x e' : Row) (t : list Row) :
  In x t -> pk x <> pk e' -> In x (save pk e' t).
Proof.
  intros Hin Hpk. unfold save.
  apply in_map_iff. exists x. split; [|exact Hin].
  apply Nat.eqb_neq in Hpk. now rewrite Hpk.
Qed.

Lemma count_pos {Row} (p : Row -> bool) (x : Row) (t : list Row) :
  In x t -> p x = true -> 1 <= count p t.
Proof.
  unfold count. induction t as [|r t IH]; simpl; [easy|].
  intros [->|Hin] Hp.
  - rewrite Hp. simpl. lia.
  - destruct (p r); simpl; [lia | now apply IH].
Qed.

(** When the target is a membership other than the initiator's, the
    transfer does what its description says: the target row is stored as
    OWNER, the initiator's as ADMIN, and the tenant keeps an ACTIVE OWNER. *)
Lemma transferOwnership_to_other_member
    (companyId targetMemberId currentUserId : uuid) (t : Table)
    (cur tgt : CompanyMember.t) :
  find (fun m => (company m =? companyId) && (user m =? currentUserId)
                 && CompanyRole_eqb (role m) OWNER
                 && MemberStatus_eqb (status m) ACTIVE) t = Some cur ->
  find (fun m => (id m =? targetMemberId) && (company m =? companyId)
                 && MemberStatus_eqb (status m) ACTIVE) t = Some tgt ->
  id tgt <> id cur ->
  exists t',
    transferOwnership companyId targetMemberId currentUserId t
    = (ret "Ownership transferred successfully"%string, t')
    /\ In (with_role tgt OWNER) t'
    /\ In (with_role cur ADMIN) t'
    /\ 1 <= ownerCount companyId t'.
Proof.
  intros Fc Ft Hne. unfold transferOwnership. rewrite Fc, Ft.
  eexists. split; [reflexivity|].
  apply find_some in Fc as [Hc _]. apply find_some in Ft as [Hin Hp].
  apply andb_true_iff in Hp as [Hp Hs]. apply andb_true_iff in Hp as [_ Hco].
  assert (In (with_role tgt OWNER)
            (save id (with_role cur ADMIN) (save id (with_role tgt OWNER) t)))
    as H1.
  { apply in_save_other; [|exact Hne].
    now apply (in_save_same id tgt). }
  split; [exact H1|]. split.
  - apply (in_save_same id cur); [|reflexivity].
    apply in_save_other; [exact Hc | simpl; congruence].
  - apply (count_pos _ _ _ H1). unfold isActiveOwnerOf. simpl.
    now rewrite Hco, Hs.
Qed.
End TransferFacts.

(* ================================================================== *)
(** * Further properties of the services and guards *)

(** ** More on tables *)

Section TableFacts.
Context {Row : Type} (pk : Row -> uuid).

Lemma in_save_inv (e' x : Row) (t : list Row) :
  In x (save pk e' t) -> x = e' \/ (In x t /\ pk x <> pk e').
Proof.
  unfold save. intros H. apply in_map_iff in H as (r & Hr & Hin).
  destruct (pk r =? pk e') eqn:E.
  - left. congruence.
  - right. subst x. split; [exact Hin | now apply Nat.eqb_neq].
Qed.

Lemma in_save_pk (e' : Row) (t : list Row) :
  In (pk e') (map pk t) -> In e' (save pk e' t).
Proof.
  intros H. apply in_map_iff in H as (r & Hr & Hin).
  apply (in_save_same pk r); auto.
Qed.

Lemma pk_inj (t : list Row) (x y : Row) :
  NoDup (map pk t) -> In x t -> In y t -> pk x = pk y -> x = y.
Proof.
  induction t as [|r t IH]; simpl; intros ND Hx Hy E; [easy|].
  inversion ND as [|? ? Hnotin ND']; subst.
  destruct Hx as [->|Hx], Hy as [->|Hy]; auto.
  - exfalso. apply Hnotin. rewrite E. now apply in_map.
  - exfalso. apply Hnotin. rewrite <- E. now apply in_map.
Qed.

Lemma count_save_same (p : Row -> bool) (e e' : Row) (t : list Row) :
  NoDup (map pk t) -> In e t -> pk e' = pk e -> p e' = p e ->
  count p (save pk e' t) = count p t.
Proof.
  intros ND Hin Hpk Hp.
  pose proof (count_save pk p e e' t ND Hin Hpk) as C.
  rewrite Hp in C. destruct (p e); lia.
Qed.

Lemma count_le1_unique (p : Row -> bool) (t : list Row) (x y : Row) :
  count p t <= 1 -> In x t -> In y t -> p x = true -> p y = true -> x = y.
Proof.
  unfold count. induction t as [|r t IH]; simpl; intros C Hx Hy Px Py; [easy|].
  destruct (p r) eqn:Pr; simpl in C.
  - assert (forall z, In z t -> p z = true -> False) as N.
    { intros z Hz Pz.
      pose proof (count_pos p z t Hz Pz) as Q. unfold count in Q. lia. }
    destruct Hx as [->|Hx], Hy as [->|Hy]; auto.
    + exfalso. eauto.
    + exfalso. eauto.
    + exfalso. eauto.
  - destruct Hx as [->|Hx]; [congruence|].
    destruct Hy as [->|Hy]; [congruence|]. auto.
Qed.

Lemma find_exists (p : Row -> bool) (t : list Row) (x : Row) :
  In x t -> p x = true -> exists y, find p t = Some y.
Proof.
  intros Hin Hp. destruct (find p t) as [y|] eqn:F; [eauto|].
  pose proof (find_none p t F x Hin). congruence.
Qed.

(** Looking a saved entity up again, by any clause that pins its key. *)
Lemma find_saved (p : Row -> bool) (e' : Row) (t : list Row) :
  In (pk e') (map pk t) -> p e' = true ->
  (forall r, p r = true -> pk r = pk e') ->
  find p (save pk e' t) = Some e'.
Proof.
  intros Hin Hp Hk. unfold save.
  induction t as [|r t IH]; simpl in *; [easy|].
  destruct (pk r =? pk e') eqn:E.
  - now rewrite Hp.
  - destruct (p r) eqn:Pr.
    + apply Hk in Pr. apply Nat.eqb_neq in E. contradiction.
    + apply IH. destruct Hin as [Hin|Hin]; [|exact Hin].
      apply Nat.eqb_neq in E. contradiction.
Qed.
End TableFacts.

(** ** Membership requests taken together *)

Section MembershipRequests.
Import CompanyMember MemberService.

Ltac destruct_find x H :=
  match goal with
  | |- context [match find ?p ?l with _ => _ end] =>
      destruct (find p l) as [x|] eqn:H
  end.

Lemma serve_pk (t : Table) (r : Request) :
  NoDup (map id t) -> NoDup (map id (serve t r)).
Proof.
  intros ND. destruct r as [c dto i users | c m | c m ro | c m u]; simpl.
  - unfold inviteMember. destruct (find _ users); [|exact ND].
    destruct (find _ t); simpl; [exact ND|].
    apply NoDup_insert; [exact ND | reflexivity].
  - unfold revokeMember. destruct (findMembership c m t); [|exact ND].
    destruct (_ && _); simpl; [exact ND | now rewrite save_pk].
  - unfold updateMemberRole. destruct (findMembership c m t); [|exact ND].
    destruct (_ && _); simpl; [exact ND | now rewrite save_pk].
  - unfold transferOwnership. destruct (find _ t); [|exact ND].
    destruct (find _ t); simpl; [|exact ND]. now rewrite !save_pk.
Qed.

(** What one request does to one row: the row keeps its key, tenant and
    actor, and its status either stays or becomes REVOKED. *)
Lemma serve_row (t : Table) (r : Request) (m : CompanyMember.t) :
  NoDup (map id t) -> In m t ->
  exists m', In m' (serve t r)
    /\ id m' = id m /\ company m' = company m /\ user m' = user m
    /\ (status m' = status m \/ status m' = REVOKED).
Proof.
  intros ND Hin.
  assert (exists m', In m' t /\ id m' = id m /\ company m' = company m
                     /\ user m' = user m
                     /\ (status m' = status m \/ status m' = REVOKED)) as Same
    by (exists m; repeat split; auto).
  destruct r as [c dto i users | c mid | c mid ro | c mid u]; simpl.
  - unfold inviteMember. destruct (find _ users); [|exact Same].
    destruct (find _ t); simpl; [exact Same|].
    exists m. split; [apply in_or_app; now left | repeat split; auto].
  - unfold revokeMember.
    destruct (findMembership c mid t) as [e|] eqn:F; [|exact Same].
    destruct (_ && _); simpl; [exact Same|].
    apply findMembership_some in F as (He & _ & _).
    destruct (Nat.eq_dec (id m) (id e)) as [E|E].
    + assert (m = e) by (apply (pk_inj id t); auto). subst e.
      exists (with_status m REVOKED). split; [|repeat split; simpl; auto].
      now apply (in_save_same id m).
    + exists m. split; [|repeat split; auto]. apply in_save_other; [exact Hin | exact E].
  - unfold updateMemberRole.
    destruct (findMembership c mid t) as [e|] eqn:F; [|exact Same].
    destruct (_ && _); simpl; [exact Same|].
    apply findMembership_some in F as (He & _ & _).
    destruct (Nat.eq_dec (id m) (id e)) as [E|E].
    + assert (m = e) by (apply (pk_inj id t); auto). subst e.
      exists (with_role m ro). split; [|repeat split; simpl; auto].
      now apply (in_save_same id m).
    + exists m. split; [|repeat split; auto]. apply in_save_other; [exact Hin | exact E].
  - unfold transferOwnership.
    destruct_find cur Fc; [|exact Same].
    destruct_find tgt Ft; simpl; [|exact Same].
    apply find_some in Fc as [Hc _]. apply find_some in Ft as [Ht _].
    destruct (Nat.eq_dec (id m) (id cur)) as [E|E].
    + assert (m = cur) by (apply (pk_inj id t); auto). subst cur.
      exists (with_role m ADMIN). split; [|repeat split; simpl; auto].
      apply in_save_pk. rewrite save_pk. simpl. now apply in_map.
    + destruct (Nat.eq_dec (id m) (id tgt)) as [E'|E'].
      * assert (m = tgt) by (apply (pk_inj id t); auto). subst tgt.
        exists (with_role m OWNER). split; [|repeat split; simpl; auto].
        apply in_save_other; [|exact E].
        now apply (in_save_same id m).
      * exists m. split; [|repeat split; auto].
        apply in_save_other; [|exact E]. now apply in_save_other.
Qed.

Lemma serveAll_row (rs : list Request) : forall (t : Table) (m : CompanyMember.t),
  NoDup (map id t) -> In m t ->
  exists m', In m' (serveAll rs t)
    /\ id m' = id m /\ company m' = company m /\ user m' = user m
    /\ (status m' = status m \/ status m' = REVOKED).
Proof.
  unfold serveAll. induction rs as [|r rs IH]; simpl; intros t m ND Hin.
  - exists m. repeat split; auto.
  - destruct (serve_row t r m ND Hin) as (m1 & H1 & I1 & C1 & U1 & S1).
    destruct (IH (serve t r) m1 (serve_pk t r ND) H1)
      as (m2 & H2 & I2 & C2 & U2 & S2).
    exists m2. repeat split; try congruence.
    destruct S1 as [S1|S1], S2 as [S2|S2]; try (right; congruence).
    left. congruence.
Qed.

Lemma serve_memberCount (c u : uuid) (t : Table) (r : Request) :
  NoDup (map id t) -> memberCount c u t <= 1 ->
  memberCount c u (serve t r) <= 1.
Proof.
  intros ND H. unfold memberCount in *.
  destruct r as [c' dto i users | c' mid | c' mid ro | c' mid u']; simpl.
  - unfold inviteMember. destruct (find _ users) as [inv|]; [|exact H].
    destruct (find _ t) eqn:F; simpl; [exact H|].
    apply find_none_count in F. rewrite count_snoc.
    unfold isMemberOf at 2. simpl.
    destruct (c' =? c) eqn:Ec; simpl; [|lia].
    destruct (User.id inv =? u) eqn:Eu; simpl; [|lia].
    apply Nat.eqb_eq in Ec, Eu. subst. lia.
  - unfold revokeMember.
    destruct (findMembership c' mid t) as [e|] eqn:F; [|exact H].
    destruct (_ && _); simpl; [exact H|].
    apply findMembership_some in F as (He & _ & _).
    rewrite (count_save_same id _ e); auto.
  - unfold updateMemberRole.
    destruct (findMembership c' mid t) as [e|] eqn:F; [|exact H].
    destruct (_ && _); simpl; [exact H|].
    apply findMembership_some in F as (He & _ & _).
    rewrite (count_save_same id _ e); auto.
  - unfold transferOwnership.
    destruct_find cur Fc; [|exact H].
    destruct_find tgt Ft; simpl; [|exact H].
    apply find_some in Fc as [Hc _]. apply find_some in Ft as [Ht _].
    assert (count (isMemberOf c u) (save id (with_role tgt OWNER) t)
            = count (isMemberOf c u) t) as E1
      by (apply (count_save_same id _ tgt); auto).
    assert (NoDup (map id (save id (with_role tgt OWNER) t))) as ND1
      by now rewrite save_pk.
    destruct (Nat.eq_dec (id cur) (id tgt)) as [E|E].
    + assert (cur = tgt) by (apply (pk_inj id t); auto). subst tgt.
      rewrite (count_save_same id _ (with_role cur OWNER)); auto.
      * lia.
      * now apply (in_save_same id cur).
    + rewrite (count_save_same id _ cur); auto.
      * lia.
      * now apply in_save_other.
Qed.

Lemma serveAll_invariant (rs : list Request) : forall t : Table,
  NoDup (map id t) -> (forall c u, memberCount c u t <= 1) ->
  NoDup (map id (serveAll rs t))
  /\ forall c u, memberCount c u (serveAll rs t) <= 1.
Proof.
  unfold serveAll. induction rs as [|r rs IH]; simpl; intros t ND H; [auto|].
  apply IH; [now apply serve_pk|].
  intros c u. now apply serve_memberCount.
Qed.
End MembershipRequests.

(** X1.  One membership per (tenant, actor): in a table with unique
    primary keys that holds at most one membership per pair, every sequence
    of invite, revoke, role-change and ownership-transfer requests leaves at
    most one membership per pair, and unique primary keys. *)
Theorem members_unique_per_pair
    (rs : list MemberService.Request) (t : MemberService.Table) :
  NoDup (map CompanyMember.id t) ->
  (forall c u, MemberService.memberCount c u t <= 1) ->
  NoDup (map CompanyMember.id (MemberService.serveAll rs t))
  /\ forall c u, MemberService.memberCount c u (MemberService.serveAll rs t) <= 1.
Proof. apply serveAll_invariant. Qed.

(** X2.  REVOKED is terminal, and nothing activates a membership: through
    every sequence of invite, revoke, role-change and ownership-transfer
    requests a membership row keeps its key, tenant and actor, and its status
    either stays what it was or becomes REVOKED.  In particular a REVOKED
    membership stays REVOKED. *)
Theorem membership_status_only_revokes
    (rs : list MemberService.Request) (t : MemberService.Table)
    (m : CompanyMember.t) :
  NoDup (map CompanyMember.id t) -> In m t ->
  exists m', In m' (MemberService.serveAll rs t)
    /\ CompanyMember.id m' = CompanyMember.id m
    /\ CompanyMember.company m' = CompanyMember.company m
    /\ CompanyMember.user m' = CompanyMember.user m
    /\ (CompanyMember.status m' = CompanyMember.status m
        \/ CompanyMember.status m' = REVOKED)
    /\ (CompanyMember.status m = REVOKED -> CompanyMember.status m' = REVOKED).
Proof.
  intros ND Hin.
  destruct (serveAll_row rs t m ND Hin) as (m' & H & I & C & U & S).
  exists m'. repeat split; auto. intros R. destruct S; congruence.
Qed.

(** Distinct (tenant, actor) pairs give at most one membership per pair. *)
Lemma memberCount_of_NoDup (t : MemberService.Table) :
  NoDup (map (fun m => (CompanyMember.company m, CompanyMember.user m)) t) ->
  forall c u, MemberService.memberCount c u t <= 1.
Proof.
  unfold MemberService.memberCount, count.
  induction t as [|r t IH]; simpl; intros ND c u; [lia|].
  inversion ND as [|? ? Hnotin ND']; subst.
  destruct (MemberService.isMemberOf c u r) eqn:P; simpl; [|now apply IH].
  assert (filter (MemberService.isMemberOf c u) t = []) as ->; [|simpl; lia].
  destruct (filter (MemberService.isMemberOf c u) t) as [|x l] eqn:F;
    [reflexivity|].
  exfalso. apply Hnotin.
  assert (In x (filter (MemberService.isMemberOf c u) t)) as Hx
    by (rewrite F; now left).
  apply filter_In in Hx as [Hx Px].
  unfold MemberService.isMemberOf in P, Px.
  apply andb_true_iff in P as [P1 P2]. apply andb_true_iff in Px as [Q1 Q2].
  apply Nat.eqb_eq in P1, P2, Q1, Q2.
  apply in_map_iff. exists x. split; [congruence | exact Hx].
Qed.

Lemma members_two_tenants_unique :
  NoDup (map CompanyMember.id members_two_tenants)
  /\ forall c u, MemberService.memberCount c u members_two_tenants <= 1.
Proof.
  split.
  - repeat constructor; simpl; intuition discriminate.
  - apply memberCount_of_NoDup.
    repeat constructor; simpl; intuition discriminate.
Qed.

Lemma members_unique_per_pair_witness :
  NoDup (map CompanyMember.id
           (MemberService.serveAll member_requests members_two_tenants))
  /\ forall c u,
       MemberService.memberCount c u
         (MemberService.serveAll member_requests members_two_tenants) <= 1.
Proof.
  apply (members_unique_per_pair member_requests members_two_tenants);
    apply members_two_tenants_unique.
Defined.

Lemma membership_status_only_revokes_witness :
  exists m', In m' (MemberService.serveAll member_requests members_two_tenants)
    /\ CompanyMember.id m' = 4
    /\ CompanyMember.company m' = 7
    /\ CompanyMember.user m' = 102
    /\ (CompanyMember.status m' = REVOKED \/ CompanyMember.status m' = REVOKED)
    /\ (REVOKED = REVOKED -> CompanyMember.status m' = REVOKED).
Proof.
  apply (membership_status_only_revokes member_requests members_two_tenants
           (CompanyMember.mk 4 7 102 ADMIN REVOKED)).
  - apply members_two_tenants_unique.
  - simpl. auto.
Defined.

(** ** Guards *)

Section GuardFacts.
Import Guards.

Lemma MemberStatus_eqb_eq (a b : MemberStatus) :
  MemberStatus_eqb a b = true <-> a = b.
Proof. destruct a, b; simpl; split; intros H; congruence. Qed.

Lemma activeMemberOf_inv c u m :
  activeMemberOf c u m = true <->
  CompanyMember.company m = c /\ CompanyMember.user m = u
  /\ CompanyMember.status m = ACTIVE.
Proof.
  unfold activeMemberOf. rewrite !andb_true_iff, !Nat.eqb_eq, MemberStatus_eqb_eq.
  tauto.
Qed.

Lemma membershipGuard_spec (members : MemberService.Table) (h : option string)
    (c : uuid) (u : User.t) (old : option CompanyMember.t) :
  CompanyMembershipGuard members (mkRequest h (Some c) (Some u) old)
  = match find (activeMemberOf c (User.id u)) members with
    | Some m => inr (mkRequest h (Some c) (Some u) (Some m))
    | None => inl (Http ForbiddenException)
    end.
Proof. reflexivity. Qed.
End GuardFacts.

(** X3.  [CompanyMembershipGuard] lets an authenticated actor through
    exactly when the table holds an ACTIVE membership of the actor in the
    tenant of the route, and then attaches such a membership to the request;
    INVITED and REVOKED memberships do not count, and the rejection is
    [ForbiddenException]. *)
Theorem membership_guard_iff_active
    (members : MemberService.Table) (h : option string) (c : uuid)
    (u : User.t) (old : option CompanyMember.t) :
  ((exists r, Guards.CompanyMembershipGuard members
                (Guards.mkRequest h (Some c) (Some u) old) = inr r)
   <-> exists m, In m members /\ CompanyMember.company m = c
                 /\ CompanyMember.user m = User.id u
                 /\ CompanyMember.status m = ACTIVE)
  /\ (forall r, Guards.CompanyMembershipGuard members
                  (Guards.mkRequest h (Some c) (Some u) old) = inr r ->
        exists m, Guards.membership r = Some m /\ In m members
                  /\ CompanyMember.company m = c
                  /\ CompanyMember.user m = User.id u
                  /\ CompanyMember.status m = ACTIVE)
  /\ (forall e, Guards.CompanyMembershipGuard members
                  (Guards.mkRequest h (Some c) (Some u) old) = inl e ->
        e = Guards.Http ForbiddenException).
Proof.
  rewrite membershipGuard_spec.
  destruct (find (Guards.activeMemberOf c (User.id u)) members) as [m|] eqn:F.
  - apply find_some in F as [Hin P]. apply activeMemberOf_inv in P.
    split; [|split].
    + split; [intros _; exists m; tauto | intros _; eauto].
    + intros r E. inversion E; subst. exists m. simpl. tauto.
    + intros e E. discriminate E.
  - split; [|split].
    + split; [intros [r E]; discriminate E|].
      intros (m & Hin & Hc & Hu & Hs). exfalso.
      pose proof (find_none _ _ F m Hin) as N.
      assert (Guards.activeMemberOf c (User.id u) m = true)
        by (apply activeMemberOf_inv; auto).
      congruence.
    + intros r E. discriminate E.
    + intros e E. now inversion E.
Qed.

(** X4.  An invitation gives access at once: when the e-mail belongs to a
    user who has no membership in the tenant, [inviteMember] appends one
    ACTIVE membership with the requested role, and the invitee passes
    [CompanyMembershipGuard] on the resulting table with that membership
    attached. *)
Theorem invite_grants_access_at_once
    (companyId inviterId : uuid) (dto : MemberService.InviteMemberDto)
    (users : list User.t) (t : MemberService.Table) (invitee : User.t)
    (h : option string) :
  find (fun u => String.eqb (User.email u) (MemberService.dto_email dto)) users
  = Some invitee ->
  MemberService.memberCount companyId (User.id invitee) t = 0 ->
  exists m,
    MemberService.inviteMember companyId dto inviterId users t
    = (ret (CompanyMember.id m, MemberService.dto_email dto,
            MemberService.dto_role dto, ACTIVE), t ++ [m])
    /\ CompanyMember.role m = MemberService.dto_role dto
    /\ CompanyMember.status m = ACTIVE
    /\ Guards.CompanyMembershipGuard (t ++ [m])
         (Guards.mkRequest h (Some companyId) (Some invitee) None)
       = inr (Guards.mkRequest h (Some companyId) (Some invitee) (Some m)).
Proof.
  intros Fu Hc. unfold MemberService.inviteMember. rewrite Fu.
  unfold MemberService.memberCount in Hc.
  pose proof (proj2 (find_none_count _ _) Hc) as Fm. rewrite Fm.
  set (m := CompanyMember.mk (fresh CompanyMember.id t) companyId
              (User.id invitee) (MemberService.dto_role dto) ACTIVE).
  exists m. repeat split.
  rewrite membershipGuard_spec.
  rewrite find_app_none.
  - simpl. unfold Guards.activeMemberOf. simpl. now rewrite !Nat.eqb_refl.
  - apply find_all_false. intros r Hin.
    pose proof (find_none _ _ Fm r Hin) as N.
    unfold MemberService.isMemberOf in N. unfold Guards.activeMemberOf.
    now rewrite N.
Qed.

Lemma invite_grants_access_at_once_witness :
  exists m,
    MemberService.inviteMember 7
      (MemberService.mkInviteDto "dee@acme.io" RECRUITER) 100 users_sample
      members_two_tenants
    = (ret (CompanyMember.id m, "dee@acme.io"%string, RECRUITER, ACTIVE),
       members_two_tenants ++ [m])
    /\ CompanyMember.role m = RECRUITER
    /\ CompanyMember.status m = ACTIVE
    /\ Guards.CompanyMembershipGuard (members_two_tenants ++ [m])
         (Guards.mkRequest None (Some 7)
            (Some (User.mk 103 "dee@acme.io" false)) None)
       = inr (Guards.mkRequest None (Some 7)
                (Some (User.mk 103 "dee@acme.io" false)) (Some m)).
Proof.
  apply (invite_grants_access_at_once 7 100
           (MemberService.mkInviteDto "dee@acme.io" RECRUITER) users_sample
           members_two_tenants (User.mk 103 "dee@acme.io" false) None);
    reflexivity.
Defined.

(** X5.  A member who was revoked is locked out and cannot be invited
    back: after a successful [revokeMember], in a table with unique keys and
    one membership per pair, the actor is rejected by
    [CompanyMembershipGuard] with [ForbiddenException], and an invitation
    for the same actor throws [BadRequestException] and adds no row. *)
Theorem revoked_member_locked_out
    (companyId memberId inviterId : uuid) (t : MemberService.Table)
    (M : CompanyMember.t) (msg : string) (u : User.t)
    (dto : MemberService.InviteMemberDto) (users : list User.t)
    (h : option string) (old : option CompanyMember.t) :
  NoDup (map CompanyMember.id t) ->
  MemberService.memberCount companyId (User.id u) t <= 1 ->
  MemberService.findMembership companyId memberId t = Some M ->
  CompanyMember.user M = User.id u ->
  fst (MemberService.revokeMember companyId memberId t) = inr msg ->
  find (fun x => String.eqb (User.email x) (MemberService.dto_email dto)) users
  = Some u ->
  let t' := snd (MemberService.revokeMember companyId memberId t) in
  Guards.CompanyMembershipGuard t'
    (Guards.mkRequest h (Some companyId) (Some u) old)
  = inl (Guards.Http ForbiddenException)
  /\ MemberService.inviteMember companyId dto inviterId users t'
     = (throw BadRequestException, t').
Proof.
  intros ND Hc F Hu Hok Fu t'.
  pose proof (findMembership_some _ _ _ _ F) as (Hin & Hid & Hco).
  assert (t' = save CompanyMember.id (CompanyMember.with_status M REVOKED) t)
    as Ht'.
  { unfold t', MemberService.revokeMember in *. rewrite F in *.
    destruct (_ && _); [discriminate Hok | reflexivity]. }
  assert (In (CompanyMember.with_status M REVOKED) t') as HM'
    by (rewrite Ht'; now apply (in_save_same CompanyMember.id M)).
  split.
  - rewrite membershipGuard_spec.
    rewrite (find_all_false (Guards.activeMemberOf companyId (User.id u)) t');
      [reflexivity|].
    intros r Hr. rewrite Ht' in Hr. apply in_save_inv in Hr as [->|[Hr Hne]].
    + unfold Guards.activeMemberOf. simpl. apply andb_false_r.
    + destruct (Guards.activeMemberOf companyId (User.id u) r) eqn:P; [|reflexivity].
      apply activeMemberOf_inv in P as (P1 & P2 & _).
      exfalso. apply Hne. simpl. f_equal.
      apply (count_le1_unique (MemberService.isMemberOf companyId (User.id u)) t);
        auto; unfold MemberService.isMemberOf.
      * now rewrite P1, P2, !Nat.eqb_refl.
      * now rewrite Hco, Hu, !Nat.eqb_refl.
  - unfold MemberService.inviteMember. rewrite Fu.
    destruct (find_exists (MemberService.isMemberOf companyId (User.id u)) t'
                (CompanyMember.with_status M REVOKED) HM') as [y Fy].
    + unfold MemberService.isMemberOf. simpl.
      now rewrite Hco, Hu, !Nat.eqb_refl.
    + now rewrite Fy.
Qed.

Lemma revoked_member_locked_out_witness :
  Guards.CompanyMembershipGuard
    (snd (MemberService.revokeMember 7 2 members_two_tenants))
    (Guards.mkRequest None (Some 7) (Some (User.mk 101 "bob@acme.io" true)) None)
  = inl (Guards.Http ForbiddenException)
  /\ MemberService.inviteMember 7
       (MemberService.mkInviteDto "bob@acme.io" ADMIN) 100 users_sample
       (snd (MemberService.revokeMember 7 2 members_two_tenants))
     = (throw BadRequestException,
        snd (MemberService.revokeMember 7 2 members_two_tenants)).
Proof.
  apply (revoked_member_locked_out 7 2 100 members_two_tenants
           (CompanyMember.mk 2 7 101 RECRUITER ACTIVE)
           "Member revoked successfully" (User.mk 101 "bob@acme.io" true)
           (MemberService.mkInviteDto "bob@acme.io" ADMIN) users_sample
           None None).
  - apply members_two_tenants_unique.
  - apply members_two_tenants_unique.
  - reflexivity.
  - reflexivity.
  - reflexivity.
  - reflexivity.
Defined.

(** ** The authorization header *)

Section HeaderFacts.
Import Guards.
Variable sep : Ascii.ascii.

Lemma split_not_nil (s : string) : split sep s <> [].
Proof.
  destruct s as [|c s]; simpl; [discriminate|].
  destruct (Ascii.eqb c sep); [discriminate|].
  destruct (split sep s); discriminate.
Qed.

Lemma split_nosep (w : string) :
  hasChar sep w = false -> split sep w = [w].
Proof.
  induction w as [|c w IH]; simpl; intros H; [reflexivity|].
  apply orb_false_iff in H as [H1 H2]. rewrite H1, (IH H2). reflexivity.
Qed.

Lemma split_app (w s : string) :
  hasChar sep w = false ->
  split sep (w ++ String sep s) = w :: split sep s.
Proof.
  induction w as [|c w IH]; simpl; intros H.
  - now rewrite Ascii.eqb_refl.
  - apply orb_false_iff in H as [H1 H2]. rewrite H1, (IH H2). reflexivity.
Qed.

(** The first field of a split string, and what follows it. *)
Lemma split_head (s w : string) (ws : list string) :
  split sep s = w :: ws ->
  hasChar sep w = false
  /\ ((ws = [] /\ s = w)
      \/ exists s', s = (w ++ String sep s')%string /\ split sep s' = ws).
Proof.
  revert w ws. induction s as [|c s IH]; simpl; intros w ws H.
  - inversion H; subst. split; [reflexivity | left; auto].
  - destruct (Ascii.eqb c sep) eqn:E.
    + inversion H; subst. apply Ascii.eqb_eq in E. subst c.
      split; [reflexivity|]. right. exists s. auto.
    + destruct (split sep s) as [|w' ws'] eqn:S; inversion H; subst.
      * exfalso. now apply (split_not_nil s).
      * destruct (IH w' ws eq_refl) as [N [[-> ->]|(s' & -> & S')]].
        -- split; [simpl; now rewrite E, N | left; auto].
        -- split; [simpl; now rewrite E, N|]. right. exists s'. auto.
Qed.
End HeaderFacts.

(** X6.  The header format accepted by [JwtAuthGuard]: a token is read
    exactly from headers of the form [Bearer <token>] or
    [Bearer <token> <anything>], where the token is non-empty and contains no
    space; the scheme is matched literally and case-sensitively, and every
    other header (missing, empty, other scheme, doubled space) gives none. *)
Theorem bearerToken_format (h : option string) (tok : string) :
  Guards.bearerToken h = Some tok
  <-> tok <> EmptyString
      /\ Guards.hasChar " "%char tok = false
      /\ (h = Some ("Bearer " ++ tok)%string
          \/ exists rest, h = Some ("Bearer " ++ tok ++ " " ++ rest)%string).
Proof.
  split.
  - unfold Guards.bearerToken. destruct h as [h|]; [|discriminate].
    destruct (String.eqb h EmptyString); [discriminate|].
    destruct (Guards.split " "%char h) as [|ty [|tk rest]] eqn:S; simpl;
      try discriminate.
    destruct (String.eqb ty "Bearer") eqn:Ety; simpl; [|discriminate].
    destruct (String.eqb tk EmptyString) eqn:Etk; [discriminate|].
    intros H. inversion H; subst tk. clear H.
    apply String.eqb_eq in Ety. subst ty. apply String.eqb_neq in Etk.
    apply split_head in S as [_ [[D _]|(s' & -> & S')]]; [discriminate D|].
    apply split_head in S' as [N [[-> ->]|(s'' & -> & _)]].
    + repeat split; auto.
    + repeat split; auto. right. exists s''. reflexivity.
  - intros (Hne & Hns & [->|[rest ->]]); unfold Guards.bearerToken.
    + change ("Bearer " ++ tok)%string
        with ("Bearer" ++ String " "%char tok)%string.
      rewrite (split_app " "%char "Bearer" tok eq_refl).
      rewrite (split_nosep " "%char tok Hns). simpl.
      apply String.eqb_neq in Hne. now rewrite Hne.
    + change ("Bearer " ++ tok ++ " " ++ rest)%string
        with ("Bearer" ++ String " "%char (tok ++ String " "%char rest))%string.
      rewrite (split_app " "%char "Bearer" _ eq_refl).
      rewrite (split_app " "%char tok rest Hns). simpl.
      apply String.eqb_neq in Hne. now rewrite Hne.
Qed.

(** ** The access-decision pipeline *)

Section PipelineFacts.
Import Guards.
Variable verify : string -> option uuid.

Lemma roleGuard_spec (roles : option (list CompanyRole)) (h : option string)
    (c : option uuid) (u : option User.t) (m : CompanyMember.t) :
  RoleGuard roles (mkRequest h c u (Some m))
  = if roleAllowed roles (CompanyMember.role m)
    then inr (mkRequest h c u (Some m))
    else inl (Http ForbiddenException).
Proof. destruct roles as [[|r rs]|]; reflexivity. Qed.

Lemma jwtGuard_cases (users : list User.t) (h : option string) (c : option uuid) :
  (JwtAuthGuard verify users (incoming h c) = inl UnauthorizedException
   /\ ~ exists tok uid u,
          bearerToken h = Some tok /\ verify tok = Some uid
          /\ find (fun x => User.id x =? uid) users = Some u
          /\ User.is_active u = true)
  \/ exists tok uid u,
       bearerToken h = Some tok /\ verify tok = Some uid
       /\ find (fun x => User.id x =? uid) users = Some u
       /\ User.is_active u = true
       /\ JwtAuthGuard verify users (incoming h c)
          = inr (mkRequest h c (Some u) None).
Proof.
  unfold JwtAuthGuard, incoming. simpl.
  destruct (bearerToken h) as [tok|] eqn:B.
  2:{ left. split; [reflexivity|]. intros (t & i & u & H & _). discriminate H. }
  destruct (verify tok) as [uid|] eqn:V.
  2:{ left. split; [reflexivity|]. intros (t & i & u & H & V' & _).
      inversion H; subst. congruence. }
  destruct (find _ users) as [u|] eqn:F.
  2:{ left. split; [reflexivity|]. intros (t & i & u & H & V' & F' & _).
      inversion H; subst. rewrite V in V'. inversion V'; subst. congruence. }
  destruct (User.is_active u) eqn:A; simpl.
  - right. exists tok, uid, u. auto.
  - left. split; [reflexivity|]. intros (t & i & u' & H & V' & F' & A').
    inversion H; subst. rewrite V in V'. inversion V'; subst.
    rewrite F in F'. inversion F'; subst. congruence.
Qed.
End PipelineFacts.

(** X7.  The guard chain of a tenant-scoped route,
    [@UseGuards(JwtAuthGuard, CompanyMembershipGuard, RoleGuard)]: the
    request is let through exactly when the header carries a token that
    verifies to an existing, active user who holds an ACTIVE membership in the
    tenant of the route whose role the route admits; the request then carries
    that user and membership.  A rejection is [UnauthorizedException] exactly
    when the first guard rejects, and [ForbiddenException] otherwise. *)
Theorem tenant_route_access
    (verify : string -> option uuid) (users : list User.t)
    (members : MemberService.Table) (roles : option (list CompanyRole))
    (h : option string) (c : option uuid) :
  let chain :=
    Guards.UseGuards [Guards.JwtAuthGuard verify users;
                      Guards.CompanyMembershipGuard members;
                      Guards.RoleGuard roles] in
  (forall r,
      chain (Guards.incoming h c) = inr r
      <-> exists tok uid u cid m,
            Guards.bearerToken h = Some tok /\ verify tok = Some uid
            /\ find (fun x => User.id x =? uid) users = Some u
            /\ User.is_active u = true
            /\ c = Some cid
            /\ find (Guards.activeMemberOf cid (User.id u)) members = Some m
            /\ Guards.roleAllowed roles (CompanyMember.role m) = true
            /\ r = Guards.mkRequest h c (Some u) (Some m))
  /\ (forall e,
        chain (Guards.incoming h c) = inl e ->
        (e = Guards.UnauthorizedException
         <-> Guards.JwtAuthGuard verify users (Guards.incoming h c)
             = inl Guards.UnauthorizedException)
        /\ (e = Guards.UnauthorizedException
            \/ e = Guards.Http ForbiddenException)).
Proof.
  simpl.
  destruct (jwtGuard_cases verify users h c)
    as [[J N] | (tok & uid & u & B & V & F & A & J)]; rewrite J.
  - split.
    + intros r. split; [discriminate|].
      intros (tok & uid & u & cid & m & B & V & F & A & _).
      exfalso. apply N. eauto 10.
    + intros e E. inversion E; subst. split; [tauto | now left].
  - destruct c as [cid|]; simpl.
    2:{ split.
        - intros r. split; [discriminate|].
          intros (? & ? & ? & ? & ? & _ & _ & _ & _ & D & _). discriminate D.
        - intros e E. inversion E; subst.
          split; [split; discriminate | now right]. }
    rewrite membershipGuard_spec.
    destruct (find (Guards.activeMemberOf cid (User.id u)) members)
      as [m|] eqn:M.
    2:{ split.
        - intros r. split; [discriminate|].
          intros (tok' & uid' & u' & cid' & m' & B' & V' & F' & _ & C' & M' & _).
          inversion C'; subst cid'. rewrite B in B'. inversion B'; subst tok'.
          rewrite V in V'. inversion V'; subst uid'.
          rewrite F in F'. inversion F'; subst u'. congruence.
        - intros e E. inversion E; subst.
          split; [split; discriminate | now right]. }
    rewrite roleGuard_spec.
    destruct (Guards.roleAllowed roles (CompanyMember.role m)) eqn:R.
    + split.
      * intros r. split.
        -- intros E. inversion E; subst.
           exists tok, uid, u, cid, m. repeat split; auto.
        -- intros (tok' & uid' & u' & cid' & m' & B' & V' & F' & _ & C' & M' & _ & ->).
           inversion C'; subst cid'. rewrite B in B'. inversion B'; subst tok'.
           rewrite V in V'. inversion V'; subst uid'.
           rewrite F in F'. inversion F'; subst u'.
           rewrite M in M'. inversion M'; subst m'. reflexivity.
      * intros e E. discriminate E.
    + split.
      * intros r. split; [discriminate|].
        intros (tok' & uid' & u' & cid' & m' & B' & V' & F' & _ & C' & M' & R' & _).
        inversion C'; subst cid'. rewrite B in B'. inversion B'; subst tok'.
        rewrite V in V'. inversion V'; subst uid'.
        rewrite F in F'. inversion F'; subst u'.
        rewrite M in M'. inversion M'; subst m'. congruence.
      * intros e E. inversion E; subst.
        split; [split; discriminate | now right].
Qed.

(** X8.  The order of the guards is load-bearing: without [JwtAuthGuard]
    before it, [CompanyMembershipGuard] rejects every incoming request with
    [UnauthorizedException]; and a [RoleGuard] with a non-empty role list
    placed before [CompanyMembershipGuard] rejects every request the first
    guard lets through with [ForbiddenException], whatever the actor's
    membership. *)
Theorem guard_order_matters
    (verify : string -> option uuid) (users : list User.t)
    (members : MemberService.Table) (role : CompanyRole)
    (roles : list CompanyRole) (h : option string) (c : option uuid) :
  Guards.UseGuards [Guards.CompanyMembershipGuard members;
                    Guards.RoleGuard (Some (role :: roles))]
    (Guards.incoming h c)
  = inl Guards.UnauthorizedException
  /\ (Guards.UseGuards [Guards.JwtAuthGuard verify users;
                        Guards.RoleGuard (Some (role :: roles));
                        Guards.CompanyMembershipGuard members]
        (Guards.incoming h c)
      = inl Guards.UnauthorizedException
      \/ Guards.UseGuards [Guards.JwtAuthGuard verify users;
                           Guards.RoleGuard (Some (role :: roles));
                           Guards.CompanyMembershipGuard members]
           (Guards.incoming h c)
         = inl (Guards.Http ForbiddenException)).
Proof.
  split; [reflexivity|]. simpl.
  destruct (jwtGuard_cases verify users h c)
    as [[J N] | (tok & uid & u & B & V & F & A & J)]; rewrite J; auto.
Qed.

(** ** Companies *)

Section CompanyFacts.
Import Company CompanyService.

Lemma fresh_absent {Row} (pk : Row -> uuid) (t : list Row) (r : Row) :
  In r t -> pk r <> fresh pk t.
Proof.
  intros Hin E. apply (fresh_not_in pk t). rewrite <- E. now apply in_map.
Qed.
End CompanyFacts.

(** X9.  Creating a company bootstraps its owner: when every membership row
    refers to a company of the table, [createCompany] returns the new
    company's identifier, the company is read back by [getCompanyById], it
    has exactly one ACTIVE OWNER membership, the creator passes
    [CompanyMembershipGuard] and an OWNER-only [RoleGuard] for it, and the
    owner counts of all other tenants are unchanged. *)
Theorem createCompany_bootstraps_owner
    (dto : CompanyService.CreateCompanyDto) (u : User.t) (now : timestamptz)
    (s : CompanyService.State) (h : option string) :
  (forall m, In m (CompanyService.members s) ->
             In (CompanyMember.company m)
                (map Company.id (CompanyService.companies s))) ->
  let r := fst (CompanyService.createCompany dto (User.id u) now s) in
  let s' := snd (CompanyService.createCompany dto (User.id u) now s) in
  exists cid m,
    r = ret (cid, CompanyService.dto_name dto, now)
    /\ CompanyService.getCompanyById cid (CompanyService.companies s')
       = ret (Company.mk cid (CompanyService.dto_name dto)
                (CompanyService.dto_description dto)
                (CompanyService.dto_logo_url dto)
                (CompanyService.dto_website dto) None now)
    /\ MemberService.ownerCount cid (CompanyService.members s') = 1
    /\ Guards.UseGuards
         [Guards.CompanyMembershipGuard (CompanyService.members s');
          Guards.RoleGuard (Some [OWNER])]
         (Guards.mkRequest h (Some cid) (Some u) None)
       = inr (Guards.mkRequest h (Some cid) (Some u) (Some m))
    /\ CompanyMember.role m = OWNER
    /\ forall c, c <> cid ->
         MemberService.ownerCount c (CompanyService.members s')
         = MemberService.ownerCount c (CompanyService.members s).
Proof.
  intros FK. simpl.
  set (cid := fresh Company.id (CompanyService.companies s)).
  set (m := CompanyMember.mk (fresh CompanyMember.id (CompanyService.members s))
              cid (User.id u) OWNER ACTIVE).
  assert (forall x, In x (CompanyService.members s) ->
                    CompanyMember.company x <> cid) as NoM.
  { intros x Hx E. apply FK in Hx. rewrite E in Hx.
    now apply (fresh_not_in Company.id) in Hx. }
  exists cid, m. split; [reflexivity|]. split; [|split; [|split; [|split]]].
  - unfold CompanyService.getCompanyById. rewrite find_app_none.
    + simpl. fold cid. now rewrite Nat.eqb_refl.
    + apply find_all_false. intros c Hc.
      destruct (Company.id c =? cid) eqn:E; [|reflexivity].
      apply Nat.eqb_eq in E. exfalso.
      now apply (fresh_absent Company.id _ c Hc).
  - unfold MemberService.ownerCount. rewrite count_snoc.
    rewrite count_none.
    + unfold MemberService.isActiveOwnerOf. simpl. now rewrite Nat.eqb_refl.
    + intros x Hx. unfold MemberService.isActiveOwnerOf.
      apply NoM in Hx. apply Nat.eqb_neq in Hx. now rewrite Hx.
  - simpl. rewrite membershipGuard_spec. rewrite find_app_none.
    + simpl. unfold Guards.activeMemberOf. simpl. now rewrite !Nat.eqb_refl.
    + apply find_all_false. intros x Hx. unfold Guards.activeMemberOf.
      apply NoM in Hx. apply Nat.eqb_neq in Hx. now rewrite Hx.
  - reflexivity.
  - intros c Hc. unfold MemberService.ownerCount. rewrite count_snoc.
    unfold MemberService.isActiveOwnerOf at 2.
    assert ((CompanyMember.company m =? c) = false) as ->
      by (apply Nat.eqb_neq; unfold m; simpl; congruence).
    simpl. lia.
Qed.

Lemma createCompany_bootstraps_owner_witness :
  exists cid m,
    fst (CompanyService.createCompany
           (CompanyService.mkCreateDto "Initech" None None None) 102 5%Z
           companies_sample)
    = ret (cid, "Initech"%string, 5%Z)
    /\ CompanyService.getCompanyById cid
         (CompanyService.companies
            (snd (CompanyService.createCompany
                    (CompanyService.mkCreateDto "Initech" None None None) 102
                    5%Z companies_sample)))
       = ret (Company.mk cid "Initech" None None None None 5%Z)
    /\ MemberService.ownerCount cid
         (CompanyService.members
            (snd (CompanyService.createCompany
                    (CompanyService.mkCreateDto "Initech" None None None) 102
                    5%Z companies_sample))) = 1
    /\ Guards.UseGuards
         [Guards.CompanyMembershipGuard
            (CompanyService.members
               (snd (CompanyService.createCompany
                       (CompanyService.mkCreateDto "Initech" None None None)
                       102 5%Z companies_sample)));
          Guards.RoleGuard (Some [OWNER])]
         (Guards.mkRequest None (Some cid)
            (Some (User.mk 102 "cy@acme.io" true)) None)
       = inr (Guards.mkRequest None (Some cid)
                (Some (User.mk 102 "cy@acme.io" true)) (Some m))
    /\ CompanyMember.role m = OWNER
    /\ forall c, c <> cid ->
         MemberService.ownerCount c
           (CompanyService.members
              (snd (CompanyService.createCompany
                      (CompanyService.mkCreateDto "Initech" None None None)
                      102 5%Z companies_sample)))
         = MemberService.ownerCount c (CompanyService.members companies_sample).
Proof.
  apply (createCompany_bootstraps_owner
           (CompanyService.mkCreateDto "Initech" None None None)
           (User.mk 102 "cy@acme.io" true) 5%Z companies_sample None).
  simpl. intros m [<-|[<-|[<-|[<-|[]]]]]; simpl; auto.
Defined.

(** X10.  Company profiles: [updateCompany] on a company that is not
    soft-deleted overwrites exactly the fields the body carries, keeps the
    identifier, the deletion mark and the creation time, and
    [getCompanyById] then returns the merged company; a company whose rows
    are all soft-deleted is reported [NotFoundException] by both, and is not
    modified. *)
Theorem company_update_then_get :
  (forall (companyId : uuid) (dto : CompanyService.UpdateCompanyDto)
          (t : list Company.t) (c : Company.t),
      find (fun c => (Company.id c =? companyId)
                     && IsNull (Company.deleted_at c)) t = Some c ->
      CompanyService.updateCompany companyId dto t
      = (ret (CompanyService.merge c dto),
         save Company.id (CompanyService.merge c dto) t)
      /\ CompanyService.getCompanyById companyId
           (snd (CompanyService.updateCompany companyId dto t))
         = ret (CompanyService.merge c dto)
      /\ Company.id (CompanyService.merge c dto) = companyId
      /\ Company.deleted_at (CompanyService.merge c dto) = None
      /\ Company.created_at (CompanyService.merge c dto) = Company.created_at c
      /\ (CompanyService.upd_name dto = None ->
          Company.name (CompanyService.merge c dto) = Company.name c)
      /\ (CompanyService.upd_description dto = None ->
          Company.description (CompanyService.merge c dto)
          = Company.description c))
  /\
  (forall (companyId : uuid) (dto : CompanyService.UpdateCompanyDto)
          (t : list Company.t),
      (forall c, In c t -> Company.id c = companyId ->
                 Company.deleted_at c <> None) ->
      CompanyService.getCompanyById companyId t = throw NotFoundException
      /\ CompanyService.updateCompany companyId dto t
         = (throw NotFoundException, t)).
Proof.
  split.
  - intros companyId dto t c F.
    pose proof (find_some _ _ F) as [Hin P].
    apply andb_true_iff in P as [Pid Pdel]. apply Nat.eqb_eq in Pid.
    assert (Company.deleted_at c = None) as Hd
      by (destruct (Company.deleted_at c); [discriminate | reflexivity]).
    split; [|split; [|split; [|split; [|split; [|split]]]]].
    + unfold CompanyService.updateCompany. now rewrite F.
    + unfold CompanyService.updateCompany. rewrite F. simpl.
      unfold CompanyService.getCompanyById.
      rewrite (find_saved Company.id); [reflexivity| | |].
      * simpl. apply in_map_iff. exists c. auto.
      * simpl. now rewrite Pid, Nat.eqb_refl, Hd.
      * intros r Pr. apply andb_true_iff in Pr as [Pr _].
        apply Nat.eqb_eq in Pr. simpl. congruence.
    + exact Pid.
    + exact Hd.
    + reflexivity.
    + intros N. simpl. now rewrite N.
    + intros N. simpl. now rewrite N.
  - intros companyId dto t H.
    assert (find (fun c => (Company.id c =? companyId)
                           && IsNull (Company.deleted_at c)) t = None) as F.
    { apply find_all_false. intros c Hc.
      destruct (Company.id c =? companyId) eqn:E; [|reflexivity].
      apply Nat.eqb_eq in E. specialize (H c Hc E).
      destruct (Company.deleted_at c); [reflexivity | congruence]. }
    unfold CompanyService.getCompanyById, CompanyService.updateCompany.
    now rewrite F.
Qed.

Lemma company_update_then_get_witness :
  CompanyService.getCompanyById 7
    (snd (CompanyService.updateCompany 7
            (CompanyService.mkUpdateDto None (Some "Anvils"%string) None None)
            (CompanyService.companies companies_sample)))
  = ret (Company.mk 7 "Acme" (Some "Anvils"%string) None None None 0%Z)
  /\ CompanyService.updateCompany 8
       (CompanyService.mkUpdateDto (Some "Globex 2"%string) None None None)
       (CompanyService.companies companies_sample)
     = (throw NotFoundException, CompanyService.companies companies_sample).
Proof.
  split.
  - apply (proj1 (proj2 (proj1 company_update_then_get 7
             (CompanyService.mkUpdateDto None (Some "Anvils"%string) None None)
             (CompanyService.companies companies_sample)
             (Company.mk 7 "Acme" None None None None 0%Z) eq_refl))).
  - apply (proj2 (proj2 company_update_then_get 8
             (CompanyService.mkUpdateDto (Some "Globex 2"%string) None None None)
             (CompanyService.companies companies_sample)
             ltac:(simpl; intros c [<-|[<-|[]]]; simpl; intros; [lia | discriminate]))).
Defined.

(** ** Ordered, paged listings *)

Section ListingFacts.
Context {Row : Type} (created_at : Row -> timestamptz).

Lemma insertDesc_perm (r : Row) (l : list Row) :
  Permutation (insertDesc created_at r l) (r :: l).
Proof.
  induction l as [|x l IH]; simpl; [reflexivity|].
  destruct (created_at x <? created_at r)%Z; [reflexivity|].
  rewrite IH. apply perm_swap.
Qed.

Lemma orderDesc_perm (l : list Row) : Permutation (orderDesc created_at l) l.
Proof.
  unfold orderDesc. induction l as [|x l IH]; simpl; [reflexivity|].
  rewrite insertDesc_perm. now constructor.
Qed.





Lemma firstn_add {A} (a b : nat) (l : list A) :
  firstn (a + b) l = firstn a l ++ firstn b (skipn a l).
Proof.
  revert l. induction a as [|a IH]; intros l; [reflexivity|].
  destruct l as [|x l]; simpl.
  - now rewrite firstn_nil.
  - now rewrite IH.
Qed.

(** Consecutive pages of size [take], put end to end, are the list. *)
Lemma pages_concat {A} (take n : nat) (l : list A) :
  List.concat (map (fun k => firstn take (skipn (k * take) l)) (seq 0 n))
  = firstn (n * take) l.
Proof.
  induction n as [|n IH]; [reflexivity|].
  rewrite seq_S, map_app, concat_app, IH. simpl.
  rewrite app_nil_r, <- firstn_add. f_equal. lia.
Qed.

(** [Math.ceil(total / limit)] pages hold [total] items. *)
Lemma ceil_pages (total limit : nat) :
  1 <= limit ->
  total <= ((total + limit - 1) / limit) * limit
  /\ (1 <= total -> ((total + limit - 1) / limit - 1) * limit < total).
Proof.
  intros L.
  pose proof (Nat.div_mod_eq (total + limit - 1) limit) as D.
  pose proof (Nat.mod_upper_bound (total + limit - 1) limit ltac:(lia)) as M.
  split; [nia|]. intros T.
  assert (1 <= (total + limit - 1) / limit) by
    (apply Nat.div_le_lower_bound; lia).
  nia.
Qed.
End ListingFacts.

(** ** Job listings, continued *)

Section JobListingFacts.
Import JobListing JobService.

(** The [where] clause of [autoCloseExpiredJobs]. *)
Lemma autoClose_row (c : option uuid) (now : timestamptz) (t : Table) :
  autoCloseExpiredJobs c now t
  = map (fun j =>
           if expiredActive now j
              && match c with Some c => company j =? c | None => true end
           then with_status j JOB_CLOSED else j) t.
Proof. reflexivity. Qed.

Lemma expiredActive_closed (now : timestamptz) (j : JobListing.t) :
  expiredActive now (with_status j JOB_CLOSED) = false.
Proof. reflexivity. Qed.

Lemma expiredActive_mono (now1 now2 : timestamptz) (j : JobListing.t) :
  (now1 <= now2)%Z -> expiredActive now1 j = true -> expiredActive now2 j = true.
Proof.
  unfold expiredActive. intros L H.
  apply andb_true_iff in H as [H H3]. apply andb_true_iff in H as [H1 H2].
  rewrite H1, H3. destruct (application_deadline j) as [d|]; [|discriminate].
  apply Z.leb_le in H2. simpl. rewrite andb_true_r. apply Z.leb_le. lia.
Qed.


End JobListingFacts.

(** X11.  The closing step settles: running [autoCloseExpiredJobs] again,
    at the same or a later time, after it has run gives the table a single
    run at the later time gives (so a repeated run at one time changes
    nothing).  It changes nothing but the status of non-deleted ACTIVE
    postings of its scope whose deadline has passed, which become CLOSED. *)
Theorem autoClose_settles
    (c : option uuid) (now1 now2 : timestamptz) (t : JobService.Table) :
  (now1 <= now2)%Z ->
  JobService.autoCloseExpiredJobs c now2 (JobService.autoCloseExpiredJobs c now1 t)
  = JobService.autoCloseExpiredJobs c now2 t
  /\ JobService.autoCloseExpiredJobs c now1
       (JobService.autoCloseExpiredJobs c now1 t)
     = JobService.autoCloseExpiredJobs c now1 t
  /\ Forall2 (fun j j' =>
                j' = j
                \/ (JobService.expiredActive now1 j = true
                    /\ match c with
                       | Some c => JobListing.company j = c
                       | None => True
                       end
                    /\ j' = JobListing.with_status j JOB_CLOSED))
       t (JobService.autoCloseExpiredJobs c now1 t).
Proof.
  intros L.
  assert (forall a b, (a <= b)%Z ->
            JobService.autoCloseExpiredJobs c b
              (JobService.autoCloseExpiredJobs c a t)
            = JobService.autoCloseExpiredJobs c b t) as K.
  { intros a b Lab. rewrite !autoClose_row, map_map. apply map_ext. intros j.
    destruct (JobService.expiredActive a j) eqn:Ea; simpl.
    - rewrite (expiredActive_mono a b j Lab Ea). simpl.
      destruct (match c with Some c0 => _ | None => true end) eqn:S.
      + rewrite expiredActive_closed. reflexivity.
      + rewrite (expiredActive_mono a b j Lab Ea), S. reflexivity.
    - reflexivity. }
  split; [now apply K|]. split; [apply K; lia|].
  rewrite autoClose_row. induction t as [|j t IH]; simpl; constructor.
  - destruct (JobService.expiredActive now1 j) eqn:E; simpl; [|now left].
    destruct c as [c|].
    + destruct (JobListing.company j =? c) eqn:Q; [|now left].
      apply Nat.eqb_eq in Q. right. auto.
    + right. auto.
  - apply IH. intros a b Lab.
    specialize (K a b Lab). rewrite !autoClose_row in *. simpl in K.
    now inversion K.
Qed.

Lemma autoClose_settles_witness :
  JobService.autoCloseExpiredJobs (Some 7) 30%Z
    (JobService.autoCloseExpiredJobs (Some 7) 10%Z jobs_sample)
  = JobService.autoCloseExpiredJobs (Some 7) 30%Z jobs_sample
  /\ map JobListing.status (JobService.autoCloseExpiredJobs (Some 7) 10%Z jobs_sample)
     = [JOB_CLOSED; JOB_ACTIVE; JOB_ACTIVE; JOB_ACTIVE; JOB_ACTIVE; JOB_DRAFT].
Proof.
  split; [|reflexivity].
  apply (proj1 (autoClose_settles (Some 7) 10%Z 30%Z jobs_sample ltac:(lia))).
Defined.


(** X13.  Paging through the public listing loses and repeats nothing: for
    a page size of at least 1, pages 1 to [meta.totalPages] of
    [findPublicJobs], put end to end, are exactly the PUBLIC, ACTIVE,
    non-deleted postings, newest first, each once; every page holds at most
    [limit] entries, every later page is empty, and the table is never
    written. *)
Theorem public_listing_pages (limit : nat) (t : JobService.Table) :
  1 <= limit ->
  let shown := fun j => JobVisibility_eqb (JobListing.visibility j) PUBLIC
                        && JobStatus_eqb (JobListing.status j) JOB_ACTIVE
                        && IsNull (JobListing.deleted_at j) in
  let n := meta_totalPages (fst (JobService.findPublicJobs 1 limit t)) in
  let pages := List.concat
                 (map (fun p => data (fst (JobService.findPublicJobs p limit t)))
                      (seq 1 n)) in
  pages = map (fun job => JobService.mkPublicJob (JobListing.id job)
                            (JobListing.title job)
                            (JobListing.application_deadline job)
                            (JobListing.created_at job))
              (orderDesc JobListing.created_at (filter shown t))
  /\ Permutation (map JobService.pub_id pages)
       (map JobListing.id (filter shown t))
  /\ (forall p, List.length (data (fst (JobService.findPublicJobs p limit t)))
                <= limit)
  /\ (forall p, n < p -> data (fst (JobService.findPublicJobs p limit t)) = [])
  /\ (forall p, snd (JobService.findPublicJobs p limit t) = t).
Proof.
  intros L shown n pages.
  set (toPublic := fun job => JobService.mkPublicJob (JobListing.id job)
                     (JobListing.title job)
                     (JobListing.application_deadline job)
                     (JobListing.created_at job)).
  set (sorted := orderDesc JobListing.created_at (filter shown t)).
  assert (forall p, data (fst (JobService.findPublicJobs p limit t))
                    = map toPublic (firstn limit (skipn ((p - 1) * limit) sorted)))
    as D by reflexivity.
  assert (n = (List.length (filter shown t) + limit - 1) / limit) as Hn
    by reflexivity.
  assert (List.length sorted = List.length (filter shown t)) as Hlen
    by (apply Permutation_length, orderDesc_perm).
  destruct (ceil_pages (List.length (filter shown t)) limit L) as [Hc _].
  assert (pages = map toPublic sorted) as P.
  { unfold pages. rewrite <- seq_shift, map_map.
    rewrite (map_ext _ (fun k => map toPublic
                                   (firstn limit (skipn (k * limit) sorted)))).
    2:{ intros k. rewrite D. simpl. now rewrite Nat.sub_0_r. }
    rewrite <- (map_map (fun k => firstn limit (skipn (k * limit) sorted))
                  (map toPublic)).
    rewrite <- concat_map, pages_concat.
    rewrite firstn_all2; [reflexivity | rewrite Hlen, Hn; exact Hc]. }
  split; [exact P|]. split; [|split; [|split]].
  - rewrite P, map_map. simpl.
    apply Permutation_map, orderDesc_perm.
  - intros p. rewrite D, length_map. apply firstn_le_length.
  - intros p Hp. rewrite D.
    rewrite skipn_all2; [now rewrite firstn_nil|].
    rewrite Hlen. rewrite Hn in Hp.
    assert (n * limit <= (p - 1) * limit) by (rewrite Hn; nia). lia.
  - reflexivity.
Qed.

Lemma public_listing_pages_witness :
  List.concat
    (map (fun p => data (fst (JobService.findPublicJobs p 1 jobs_sample)))
         (seq 1 (meta_totalPages (fst (JobService.findPublicJobs 1 1 jobs_sample)))))
  = [ JobService.mkPublicJob 5 "Lead" None 4%Z;
      JobService.mkPublicJob 3 "QA" (Some 5%Z) 1%Z;
      JobService.mkPublicJob 1 "Dev" (Some 5%Z) 0%Z ].
Proof.
  rewrite (proj1 (public_listing_pages 1 jobs_sample ltac:(lia))).
  reflexivity.
Defined.

Section JobLifecycleFacts.
Import JobListing JobService.

Lemma findOne_some (c jobId : uuid) (t : Table) (job : JobListing.t) :
  findOne c jobId t = ret job ->
  In job t /\ id job = jobId /\ company job = c /\ deleted_at job = None.
Proof.
  unfold findOne. destruct (find _ t) as [j|] eqn:F; [|discriminate].
  intros E. inversion E; subst j. apply find_some in F as [Hin P].
  apply andb_true_iff in P as [P Pd]. apply andb_true_iff in P as [Pi Pc].
  apply Nat.eqb_eq in Pi, Pc.
  destruct (deleted_at job); [discriminate | auto].
Qed.

(** Reading back the entity a method saved over a job it had fetched. *)
Lemma findOne_saved (c jobId : uuid) (t : Table) (job job' : JobListing.t) :
  findOne c jobId t = ret job ->
  id job' = id job -> company job' = company job -> deleted_at job' = None ->
  findOne c jobId (save id job' t) = ret job'.
Proof.
  intros F Hi Hc Hd. apply findOne_some in F as (Hin & Fi & Fc & _).
  unfold findOne. rewrite (find_saved id); [reflexivity| | |].
  - rewrite Hi. now apply in_map.
  - now rewrite Hi, Fi, Hc, Fc, !Nat.eqb_refl, Hd.
  - intros r P. apply andb_true_iff in P as [P _].
    apply andb_true_iff in P as [P _]. apply Nat.eqb_eq in P. congruence.
Qed.

(** After a job is saved as deleted no row carrying its key is live. *)
Lemma deleted_rows (job' : JobListing.t) (t : Table) (r : JobListing.t) :
  deleted_at job' <> None ->
  In r (save id job' t) -> id r = id job' -> deleted_at r <> None.
Proof.
  intros Hd Hin Hid. apply in_save_inv in Hin as [->|[_ Hne]]; [exact Hd|].
  contradiction.
Qed.

(** A posting on a page of the tenant listing comes from a live row. *)
Lemma findAll_page_row (c : uuid) (page limit : nat) (now : timestamptz)
    (t : Table) (j : JobListing.t) :
  In j (data (fst (findAll c page limit now t))) ->
  exists r, In r t /\ id r = id j /\ deleted_at r = None.
Proof.
  unfold findAll, findAndCount. simpl. intros Hj.
  apply in_firstn, in_skipn, in_orderDesc, filter_In in Hj as [Hin P].
  apply andb_true_iff in P as [_ Pd].
  assert (deleted_at j = None) as Hd
    by (destruct (deleted_at j); [discriminate | reflexivity]).
  rewrite autoClose_row in Hin. apply in_map_iff in Hin as (r & Hr & Hrin).
  exists r. split; [exact Hrin|].
  destruct (expiredActive now r && (company r =? c)); subst j; simpl in *; auto.
Qed.
End JobLifecycleFacts.

(** X14.  A soft-deleted job is gone for every reader: after a successful
    [softDelete], [findOne], [updateStatus], [update] and a second
    [softDelete] report [NotFoundException], no page of the tenant listing
    and no page of the public listing shows the job, and [apply] for it
    reports [NotFoundException] and creates no application. *)
Theorem softDelete_hides_job
    (c jobId : uuid) (now : timestamptz) (t : JobService.Table)
    (job : JobListing.t) :
  JobService.findOne c jobId t = ret job ->
  let t' := snd (JobService.softDelete c jobId now t) in
  fst (JobService.softDelete c jobId now t) = ret "Job deleted successfully"%string
  /\ JobService.findOne c jobId t' = throw NotFoundException
  /\ (forall now', JobService.softDelete c jobId now' t'
                   = (throw NotFoundException, t'))
  /\ (forall st, JobService.updateStatus c jobId st t'
                 = (throw NotFoundException, t'))
  /\ (forall dto, JobService.update c jobId dto t'
                  = (throw NotFoundException, t'))
  /\ (forall page limit now' j,
        In j (data (fst (JobService.findAll c page limit now' t'))) ->
        JobListing.id j <> jobId)
  /\ (forall page limit p,
        In p (data (fst (JobService.findPublicJobs page limit t'))) ->
        JobService.pub_id p <> jobId)
  /\ (forall userId resumeId now' resumes apps,
        ApplicationService.apply userId
          (ApplicationService.mkDto jobId resumeId) now' t' resumes apps
        = (throw NotFoundException, apps)).
Proof.
  intros F t'.
  pose proof (findOne_some _ _ _ _ F) as (Hin & Hi & Hc & Hd).
  assert (t' = save JobListing.id
                 (JobListing.with_deleted_at job (Some now)) t) as Ht'
    by (unfold t', JobService.softDelete; now rewrite F).
  assert (forall r, In r t' -> JobListing.id r = jobId ->
                    JobListing.deleted_at r <> None) as Dead.
  { intros r Hr Hid. rewrite Ht' in Hr.
    apply (deleted_rows (JobListing.with_deleted_at job (Some now)) t r);
      simpl; [discriminate | exact Hr | congruence]. }
  assert (forall f : JobListing.t -> bool,
            find (fun j => (JobListing.id j =? jobId) && f j
                           && IsNull (JobListing.deleted_at j)) t' = None)
    as NF.
  { intros f. apply find_all_false. intros r Hr.
    destruct (JobListing.id r =? jobId) eqn:E; [|reflexivity].
    apply Nat.eqb_eq in E. specialize (Dead r Hr E).
    destruct (JobListing.deleted_at r); [apply andb_false_r | congruence]. }
  assert (JobService.findOne c jobId t' = throw NotFoundException) as NF1.
  { unfold JobService.findOne.
    now rewrite (NF (fun j => JobListing.company j =? c)). }
  split; [unfold JobService.softDelete; now rewrite F|].
  split; [exact NF1|].
  split; [intros now'; unfold JobService.softDelete; now rewrite NF1|].
  split; [intros st; unfold JobService.updateStatus; now rewrite NF1|].
  split; [intros dto; unfold JobService.update; now rewrite NF1|].
  split; [|split].
  - intros page limit now' j Hj Hid.
    destruct (findAll_page_row c page limit now' t' j Hj) as (r & Hrin & A & B).
    apply (Dead r Hrin); congruence.
  - intros page limit p Hp Hid.
    unfold JobService.findPublicJobs, findAndCount in Hp. simpl in Hp.
    apply in_map_iff in Hp as (j & <- & Hj).
    apply in_firstn, in_skipn, in_orderDesc, filter_In in Hj as [Hjin P].
    apply andb_true_iff in P as [_ Pd]. simpl in Hid.
    specialize (Dead j Hjin Hid).
    destruct (JobListing.deleted_at j); [discriminate | congruence].
  - intros userId resumeId now' resumes apps.
    unfold ApplicationService.apply. simpl.
    now rewrite (NF (fun j => JobStatus_eqb (JobListing.status j) JOB_ACTIVE)).
Qed.

Lemma softDelete_hides_job_witness :
  JobService.findOne 7 5 (snd (JobService.softDelete 7 5 9%Z jobs_sample))
  = throw NotFoundException
  /\ data (fst (JobService.findPublicJobs 1 10
                  (snd (JobService.softDelete 7 5 9%Z jobs_sample))))
     = [ JobService.mkPublicJob 3 "QA" (Some 5%Z) 1%Z;
         JobService.mkPublicJob 1 "Dev" (Some 5%Z) 0%Z ].
Proof.
  split; [|reflexivity].
  apply (softDelete_hides_job 7 5 9%Z jobs_sample
           (JobListing.mk 5 7 "Lead" PUBLIC JOB_ACTIVE None None None 4%Z)
           eq_refl).
Defined.

Section JobStatusFacts.
Import JobListing JobService.

Lemma find_map {A} (p : A -> bool) (f : A -> A) (l : list A) :
  (forall x, p (f x) = p x) -> find p (map f l) = option_map f (find p l).
Proof.
  intros H. induction l as [|x l IH]; simpl; [reflexivity|].
  rewrite H. now destruct (p x).
Qed.

Lemma findAll_table (c : uuid) (page limit : nat) (now : timestamptz) (t : Table) :
  snd (findAll c page limit now t) = autoCloseExpiredJobs (Some c) now t.
Proof.
  unfold findAll.
  match goal with
  | |- context [findAndCount ?a ?b ?c ?d ?e] =>
      destruct (findAndCount a b c d e)
  end.
  reflexivity.
Qed.

Lemma findOne_after_close (c jobId : uuid) (now : timestamptz) (t : Table) :
  findOne c jobId (autoCloseExpiredJobs (Some c) now t)
  = match findOne c jobId t with
    | inr job => ret (if expiredActive now job
                      then with_status job JOB_CLOSED else job)
    | inl e => inl e
    end.
Proof.
  unfold findOne. rewrite autoClose_row, find_map.
  - destruct (find _ t) as [job|] eqn:F; simpl; [|reflexivity].
    apply find_some in F as [_ P].
    apply andb_true_iff in P as [P _]. apply andb_true_iff in P as [_ P].
    rewrite P, andb_true_r. reflexivity.
  - intros j. now destruct (expiredActive now j && (company j =? c)).
Qed.
End JobStatusFacts.

(** X15.  Job status changes are unrestricted, except that the deadline
    wins: for a job [findOne] returns, [updateStatus] accepts every target
    status from every current status and the job is read back with it; but a
    job whose deadline has passed and that is set (back) to ACTIVE is read
    back CLOSED after the next tenant listing. *)
Theorem job_status_any_until_deadline
    (c jobId : uuid) (t : JobService.Table) (job : JobListing.t) :
  JobService.findOne c jobId t = ret job ->
  (forall st,
      JobService.updateStatus c jobId st t
      = (ret (JobService.mkSummary jobId (JobListing.title job) st),
         save JobListing.id (JobListing.with_status job st) t)
      /\ JobService.findOne c jobId (snd (JobService.updateStatus c jobId st t))
         = ret (JobListing.with_status job st))
  /\ (forall d now page limit,
        JobListing.application_deadline job = Some d -> (d <= now)%Z ->
        JobService.findOne c jobId
          (snd (JobService.findAll c page limit now
                  (snd (JobService.updateStatus c jobId JOB_ACTIVE t))))
        = ret (JobListing.with_status job JOB_CLOSED)).
Proof.
  intros F. pose proof (findOne_some _ _ _ _ F) as (Hin & Hi & Hc & Hd).
  assert (forall st,
            JobService.findOne c jobId
              (save JobListing.id (JobListing.with_status job st) t)
            = ret (JobListing.with_status job st)) as R
    by (intros st; now apply (findOne_saved c jobId t job)).
  split.
  - intros st. unfold JobService.updateStatus. rewrite F. simpl.
    rewrite Hi. split; [reflexivity | apply R].
  - intros d now page limit Hdl Hle.
    assert (snd (JobService.updateStatus c jobId JOB_ACTIVE t)
            = save JobListing.id (JobListing.with_status job JOB_ACTIVE) t) as E
      by (unfold JobService.updateStatus; now rewrite F).
    rewrite E, findAll_table, findOne_after_close, R.
    unfold JobService.expiredActive. simpl. rewrite Hdl, Hd.
    apply Z.leb_le in Hle. now rewrite Hle.
Qed.

Lemma job_status_any_until_deadline_witness :
  JobService.findOne 7 6 (snd (JobService.updateStatus 7 6 JOB_CLOSED jobs_sample))
  = ret (JobListing.mk 6 7 "Idea" PUBLIC JOB_CLOSED None None None 5%Z)
  /\ JobService.findOne 7 1
       (snd (JobService.findAll 7 1 10 6%Z
               (snd (JobService.updateStatus 7 1 JOB_ACTIVE
                       (JobService.autoCloseExpiredJobs None 6%Z jobs_sample)))))
     = ret (JobListing.mk 1 7 "Dev" PUBLIC JOB_CLOSED (Some 5%Z) None None 0%Z).
Proof.
  split.
  - apply (proj1 (job_status_any_until_deadline 7 6 jobs_sample
             (JobListing.mk 6 7 "Idea" PUBLIC JOB_DRAFT None None None 5%Z)
             eq_refl) JOB_CLOSED).
  - apply (proj2 (job_status_any_until_deadline 7 1
             (JobService.autoCloseExpiredJobs None 6%Z jobs_sample)
             (JobListing.mk 1 7 "Dev" PUBLIC JOB_CLOSED (Some 5%Z) None None 0%Z)
             eq_refl) 5%Z 6%Z 1 10 eq_refl ltac:(lia)).
Defined.

(** X16.  At the instant of the deadline the two checks disagree: [apply]
    refuses a job only when the deadline is strictly past, the closing step
    closes it when the deadline is reached.  So an application submitted at
    exactly the deadline is accepted, while the same application submitted
    after a tenant listing was read at that instant is refused with
    [NotFoundException]. *)
Theorem deadline_instant
    (userId : uuid) (dto : ApplicationService.CreateApplicationDto)
    (now : timestamptz) (jobs : JobService.Table) (resumes : list Resume.t)
    (apps : ApplicationService.Table) (j : JobListing.t) (r : Resume.t)
    (page limit : nat) :
  NoDup (map JobListing.id jobs) ->
  find (fun j => (JobListing.id j =? ApplicationService.job_id dto)
                 && JobStatus_eqb (JobListing.status j) JOB_ACTIVE
                 && IsNull (JobListing.deleted_at j)) jobs = Some j ->
  JobListing.application_deadline j = Some now ->
  find (fun r => (Resume.id r =? ApplicationService.resume_id dto)
                 && (Resume.user r =? userId)) resumes = Some r ->
  ApplicationService.pairCount (ApplicationService.job_id dto) userId apps = 0 ->
  (exists a,
      ApplicationService.apply userId dto now jobs resumes apps
      = (ret (ApplicationService.mkSummary (JobApplication.id a)
                (ApplicationService.job_id dto) APPLIED now), apps ++ [a]))
  /\ ApplicationService.apply userId dto now
       (snd (JobService.findAll (JobListing.company j) page limit now jobs))
       resumes apps
     = (throw NotFoundException, apps).
Proof.
  intros ND Fj Hdl Fr Hc. split.
  - unfold ApplicationService.apply. rewrite Fj, Hdl, Z.ltb_irrefl, Fr.
    apply find_none_count in Hc. rewrite Hc. eexists. reflexivity.
  - pose proof (find_some _ _ Fj) as [Hin P].
    apply andb_true_iff in P as [P Pd]. apply andb_true_iff in P as [Pi Ps].
    apply Nat.eqb_eq in Pi.
    rewrite findAll_table.
    unfold ApplicationService.apply.
    rewrite find_all_false; [reflexivity|].
    intros x Hx. rewrite autoClose_row in Hx.
    apply in_map_iff in Hx as (y & Hy & Hyin).
    destruct (JobListing.id x =? ApplicationService.job_id dto) eqn:E;
      [|reflexivity].
    apply Nat.eqb_eq in E.
    assert (JobListing.id y = JobListing.id x) as Hxy
      by (destruct (_ && _) in Hy; subst x; reflexivity).
    assert (y = j) by (apply (pk_inj JobListing.id jobs); auto; congruence).
    subst y.
    assert (JobService.expiredActive now j = true) as X.
    { unfold JobService.expiredActive. rewrite Ps, Pd, Hdl, Z.leb_refl.
      reflexivity. }
    rewrite X, Nat.eqb_refl in Hy. simpl in Hy. subst x. reflexivity.
Qed.

Lemma deadline_instant_witness :
  (exists a,
      ApplicationService.apply 100 (ApplicationService.mkDto 2 1) 20%Z
        jobs_sample [resume_of_100] []
      = (ret (ApplicationService.mkSummary (JobApplication.id a) 2 APPLIED 20%Z),
         [] ++ [a]))
  /\ ApplicationService.apply 100 (ApplicationService.mkDto 2 1) 20%Z
       (snd (JobService.findAll 7 1 10 20%Z jobs_sample)) [resume_of_100] []
     = (throw NotFoundException, []).
Proof.
  apply (deadline_instant 100 (ApplicationService.mkDto 2 1) 20%Z jobs_sample
           [resume_of_100] []
           (JobListing.mk 2 7 "Ops" PRIVATE JOB_ACTIVE (Some 20%Z) None None 3%Z)
           resume_of_100 1 10).
  - repeat constructor; simpl; intuition discriminate.
  - reflexivity.
  - reflexivity.
  - reflexivity.
  - reflexivity.
Defined.

(** X17.  Editing a job never touches its question snapshot: for a job
    [findOne] returns, [update] overwrites exactly the columns the body
    carries and the job is read back merged; the key, tenant, creation time
    and [screening_questions_json] are kept, also when the body names a
    [question_bank_id]. *)
Theorem job_update_keeps_snapshot
    (c jobId : uuid) (dto : JobService.UpdateJobDto) (t : JobService.Table)
    (job : JobListing.t) :
  JobService.findOne c jobId t = ret job ->
  JobService.update c jobId dto t
  = (ret (JobService.merge job dto),
     save JobListing.id (JobService.merge job dto) t)
  /\ JobService.findOne c jobId (snd (JobService.update c jobId dto t))
     = ret (JobService.merge job dto)
  /\ JobListing.screening_questions_json (JobService.merge job dto)
     = JobListing.screening_questions_json job
  /\ JobListing.id (JobService.merge job dto) = jobId
  /\ JobListing.company (JobService.merge job dto) = c
  /\ JobListing.created_at (JobService.merge job dto) = JobListing.created_at job
  /\ (JobService.upd_title dto = None ->
      JobListing.title (JobService.merge job dto) = JobListing.title job)
  /\ (JobService.upd_status dto = None ->
      JobListing.status (JobService.merge job dto) = JobListing.status job)
  /\ (JobService.upd_application_deadline dto = None ->
      JobListing.application_deadline (JobService.merge job dto)
      = JobListing.application_deadline job).
Proof.
  intros F. pose proof (findOne_some _ _ _ _ F) as (Hin & Hi & Hc & Hd).
  unfold JobService.update. rewrite F. simpl.
  repeat split; auto.
  - now apply (findOne_saved c jobId t job).
  - intros N. now rewrite N.
  - intros N. now rewrite N.
  - intros N. now rewrite N.
Qed.

Lemma job_update_keeps_snapshot_witness :
  let job := JobListing.mk 2 7 "Backend engineer" PUBLIC JOB_DRAFT None
               (Some [question_sql]) None 5%Z in
  let dto := JobService.mkUpdateDto (Some "Staff engineer"%string) None
               (Some JOB_ACTIVE) None (Some 1) in
  JobService.findOne 7 2 (snd (JobService.update 7 2 dto [job_dev; job]))
  = ret (JobListing.mk 2 7 "Staff engineer" PUBLIC JOB_ACTIVE None
           (Some [question_sql]) None 5%Z).
Proof.
  apply (proj1 (proj2 (job_update_keeps_snapshot 7 2
           (JobService.mkUpdateDto (Some "Staff engineer"%string) None
              (Some JOB_ACTIVE) None (Some 1))
           [job_dev;
            JobListing.mk 2 7 "Backend engineer" PUBLIC JOB_DRAFT None
              (Some [question_sql]) None 5%Z]
           (JobListing.mk 2 7 "Backend engineer" PUBLIC JOB_DRAFT None
              (Some [question_sql]) None 5%Z) eq_refl))).
Defined.

(** ** Roles through the controller *)

Section EscalationFacts.
Lemma UseGuards_cons (g : Guards.Guard) (gs : list Guards.Guard)
    (r : Guards.Request) :
  Guards.UseGuards (g :: gs) r
  = match g r with
    | inl e => inl e
    | inr r' => Guards.UseGuards gs r'
    end.
Proof. reflexivity. Qed.

Lemma find_unique {Row} (p : Row -> bool) (t : list Row) (x : Row) :
  In x t -> p x = true ->
  (forall y, In y t -> p y = true -> y = x) ->
  find p t = Some x.
Proof.
  intros Hin Hp U. destruct (find_exists p t x Hin Hp) as [y F].
  rewrite F. f_equal. apply find_some in F as [Hy Py]. now apply U.
Qed.

(** The membership the guard attaches after a row of the actor was saved. *)
Lemma guard_after_save (t : MemberService.Table) (c : uuid) (u : User.t)
    (M M' : CompanyMember.t) (h : option string) (old : option CompanyMember.t) :
  NoDup (map CompanyMember.id t) ->
  MemberService.memberCount c (User.id u) t <= 1 ->
  In M t -> CompanyMember.company M = c -> CompanyMember.user M = User.id u ->
  CompanyMember.id M' = CompanyMember.id M ->
  CompanyMember.company M' = c -> CompanyMember.user M' = User.id u ->
  CompanyMember.status M' = ACTIVE ->
  Guards.CompanyMembershipGuard (save CompanyMember.id M' t)
    (Guards.mkRequest h (Some c) (Some u) old)
  = inr (Guards.mkRequest h (Some c) (Some u) (Some M')).
Proof.
  intros ND Hc Hin Mc Mu Hid Mc' Mu' Ms'.
  rewrite membershipGuard_spec.
  rewrite (find_unique _ _ M'); [reflexivity| | |].
  - now apply (in_save_same CompanyMember.id M).
  - apply activeMemberOf_inv. auto.
  - intros y Hy Py. apply in_save_inv in Hy as [->|[Hy Hne]]; [reflexivity|].
    apply activeMemberOf_inv in Py as (P1 & P2 & _).
    exfalso. apply Hne. rewrite Hid. f_equal.
    apply (count_le1_unique (MemberService.isMemberOf c (User.id u)) t);
      auto; unfold MemberService.isMemberOf.
    + now rewrite P1, P2, !Nat.eqb_refl.
    + now rewrite Mc, Mu, !Nat.eqb_refl.
Qed.
End EscalationFacts.

(** X18.  The role-change route does not compare the caller's role with
    the role it grants: an active user who holds an ACTIVE ADMIN membership
    can set that very membership to OWNER through [updateRole], and then
    passes the OWNER-only guard chain (the one of the ownership-transfer
    route).  A RECRUITER is refused by the route with [ForbiddenException]
    and the table is unchanged. *)
Theorem role_change_route_escalation
    (verify : string -> option uuid) (users : list User.t)
    (t : MemberService.Table) (h : option string) (tok : string)
    (u : User.t) (c : uuid) (M : CompanyMember.t) :
  NoDup (map CompanyMember.id t) ->
  MemberService.memberCount c (User.id u) t <= 1 ->
  Guards.bearerToken h = Some tok ->
  verify tok = Some (User.id u) ->
  find (fun x => User.id x =? User.id u) users = Some u ->
  User.is_active u = true ->
  In M t ->
  CompanyMember.company M = c -> CompanyMember.user M = User.id u ->
  CompanyMember.status M = ACTIVE ->
  (CompanyMember.role M = ADMIN ->
   MemberController.updateRole verify users h c (CompanyMember.id M) OWNER t
   = (inr (ret (CompanyMember.id M, OWNER, ACTIVE)),
      save CompanyMember.id (CompanyMember.with_role M OWNER) t)
   /\ Guards.UseGuards
        [Guards.JwtAuthGuard verify users;
         Guards.CompanyMembershipGuard
           (snd (MemberController.updateRole verify users h c
                   (CompanyMember.id M) OWNER t));
         Guards.RoleGuard (Some [OWNER])]
        (Guards.incoming h (Some c))
      = inr (Guards.mkRequest h (Some c) (Some u)
               (Some (CompanyMember.with_role M OWNER))))
  /\ (CompanyMember.role M = RECRUITER ->
      forall memberId role,
        MemberController.updateRole verify users h c memberId role t
        = (inl (Guards.Http ForbiddenException), t)).
Proof.
  intros ND Hc B V F A Hin Mc Mu Ms.
  assert (Guards.JwtAuthGuard verify users (Guards.incoming h (Some c))
          = inr (Guards.mkRequest h (Some c) (Some u) None)) as J.
  { unfold Guards.JwtAuthGuard, Guards.incoming. simpl.
    now rewrite B, V, F, A. }
  assert (Guards.CompanyMembershipGuard t
            (Guards.mkRequest h (Some c) (Some u) None)
          = inr (Guards.mkRequest h (Some c) (Some u) (Some M))) as G.
  { rewrite membershipGuard_spec.
    rewrite (find_unique _ _ M); [reflexivity|exact Hin| |].
    - apply activeMemberOf_inv. auto.
    - intros y Hy Py. apply activeMemberOf_inv in Py as (P1 & P2 & _).
      apply (count_le1_unique (MemberService.isMemberOf c (User.id u)) t);
        auto; unfold MemberService.isMemberOf.
      + now rewrite P1, P2, !Nat.eqb_refl.
      + now rewrite Mc, Mu, !Nat.eqb_refl. }
  split.
  - intros Mr.
    assert (MemberService.findMembership c (CompanyMember.id M) t = Some M)
      as FM.
    { unfold MemberService.findMembership.
      apply find_unique; [exact Hin | now rewrite Nat.eqb_refl, Mc, Nat.eqb_refl|].
      intros y Hy Py. apply andb_true_iff in Py as [Py _].
      apply Nat.eqb_eq in Py. now apply (pk_inj CompanyMember.id t). }
    assert (MemberController.updateRole verify users h c (CompanyMember.id M)
              OWNER t
            = (inr (ret (CompanyMember.id M, OWNER, ACTIVE)),
               save CompanyMember.id (CompanyMember.with_role M OWNER) t)) as E.
    { unfold MemberController.updateRole.
      rewrite UseGuards_cons, J, UseGuards_cons, G, UseGuards_cons,
        roleGuard_spec.
      simpl. rewrite Mr. simpl.
      unfold MemberService.updateMemberRole. rewrite FM, Mr. simpl.
      now rewrite Ms. }
    split; [exact E|]. rewrite E. simpl snd.
    rewrite UseGuards_cons, J, UseGuards_cons.
    rewrite (guard_after_save t c u M); auto.
  - intros Mr memberId role.
    unfold MemberController.updateRole.
    rewrite UseGuards_cons, J, UseGuards_cons, G, UseGuards_cons,
      roleGuard_spec.
    simpl. now rewrite Mr.
Qed.

Lemma role_change_route_escalation_witness :
  let verify := fun tok : string =>
                  if String.eqb tok "t-cy" then Some 102 else None in
  let t := [ CompanyMember.mk 1 7 100 OWNER ACTIVE;
             CompanyMember.mk 4 7 102 ADMIN ACTIVE ] in
  MemberController.updateRole verify users_sample (Some "Bearer t-cy"%string)
    7 4 OWNER t
  = (inr (ret (4, OWNER, ACTIVE)),
     [ CompanyMember.mk 1 7 100 OWNER ACTIVE;
       CompanyMember.mk 4 7 102 OWNER ACTIVE ]).
Proof.
  intros verify t.
  apply (proj1 (role_change_route_escalation verify users_sample t
                  (Some "Bearer t-cy"%string) "t-cy"
                  (User.mk 102 "cy@acme.io" true) 7
                  (CompanyMember.mk 4 7 102 ADMIN ACTIVE)
                  ltac:(repeat constructor; simpl; intuition discriminate)
                  ltac:(vm_compute; lia)
                  eq_refl eq_refl eq_refl eq_refl
                  ltac:(simpl; auto) eq_refl eq_refl eq_refl) eq_refl).
Defined.

(** ** Applications, continued *)

Section ApplicationRequests.
Import JobApplication ApplicationService.

Lemma app_serve_pk (t : Table) (r : Request) :
  NoDup (map id t) -> NoDup (map id (serve t r)).
Proof.
  intros ND. destruct r as [c | u a | c a st by_]; simpl.
  - unfold step.
    destruct (apply_cases (call_user c) (call_dto c) (call_now c) (call_jobs c)
                (call_resumes c) t) as [[e E] | (_ & a & _ & _ & _ & E)].
    + now rewrite E.
    + assert (id a = fresh id t) as Hid.
      { unfold apply in E.
        repeat match type of E with
               | context [match ?x with _ => _ end] => destruct x
               end; inversion E as [[E1 E2]].
        apply app_inv_head in E2. now inversion E2. }
      rewrite E. simpl. now apply NoDup_insert.
  - unfold withdraw. destruct (find _ t); [|exact ND].
    destruct (ApplicationStatus_eqb _ ACCEPTED); [exact ND|].
    destruct (ApplicationStatus_eqb _ WITHDRAWN); simpl; [exact ND|].
    now rewrite save_pk.
  - unfold updateStatus. destruct (find _ t); [|exact ND].
    destruct (ApplicationStatus_eqb _ WITHDRAWN); simpl; [exact ND|].
    now rewrite save_pk.
Qed.

Lemma app_serve_withdrawn (t : Table) (r : Request) (a : JobApplication.t) :
  NoDup (map id t) -> In a t -> status a = WITHDRAWN -> In a (serve t r).
Proof.
  intros ND Hin Hs. destruct r as [c | u k | c k st by_]; simpl.
  - unfold step.
    destruct (apply_cases (call_user c) (call_dto c) (call_now c) (call_jobs c)
                (call_resumes c) t) as [[e E] | (_ & x & _ & _ & _ & E)];
      rewrite E; simpl; [exact Hin | apply in_or_app; now left].
  - unfold withdraw. destruct (find _ t) as [e|] eqn:F; [|exact Hin].
    apply find_some in F as [He _].
    destruct (ApplicationStatus_eqb (status e) ACCEPTED) eqn:A; [exact Hin|].
    destruct (ApplicationStatus_eqb (status e) WITHDRAWN) eqn:W; simpl;
      [exact Hin|].
    apply in_save_other; [exact Hin|]. simpl. intros E.
    assert (a = e) by (apply (pk_inj id t); auto). subst e.
    rewrite Hs in W. discriminate.
  - unfold updateStatus. destruct (find _ t) as [e|] eqn:F; [|exact Hin].
    apply find_some in F as [He _].
    destruct (ApplicationStatus_eqb (status e) WITHDRAWN) eqn:W; simpl;
      [exact Hin|].
    apply in_save_other; [exact Hin|]. simpl. intros E.
    assert (a = e) by (apply (pk_inj id t); auto). subst e.
    rewrite Hs in W. discriminate.
Qed.
End ApplicationRequests.

(** X19.  WITHDRAWN is terminal: in a table with unique primary keys, an
    application that is WITHDRAWN is still in the table, with no column
    changed, after any sequence of apply, withdraw and company status-change
    requests. *)
Theorem withdrawn_is_terminal
    (rs : list ApplicationService.Request) (t : ApplicationService.Table)
    (a : JobApplication.t) :
  NoDup (map JobApplication.id t) -> In a t ->
  JobApplication.status a = WITHDRAWN ->
  In a (ApplicationService.serveAll rs t).
Proof.
  unfold ApplicationService.serveAll. revert t.
  induction rs as [|r rs IH]; simpl; intros t ND Hin Hs; [exact Hin|].
  apply IH; [now apply app_serve_pk | now apply app_serve_withdrawn | exact Hs].
Qed.

Lemma withdrawn_is_terminal_witness :
  In application_withdrawn
     (ApplicationService.serveAll
        [ ApplicationService.ReqUpdateStatus 7 3 ACCEPTED 200;
          ApplicationService.ReqWithdraw 102 3;
          ApplicationService.ReqUpdateStatus 7 2 REJECTED 200;
          ApplicationService.ReqApply
            (ApplicationService.mkCall 103 (ApplicationService.mkDto 1 1) 6%Z
               [job_dev] [resume_of_100]) ]
        [application_1; application_accepted; application_withdrawn]).
Proof.
  apply (withdrawn_is_terminal _ _ application_withdrawn).
  - repeat constructor; simpl; intuition discriminate.
  - simpl. auto.
  - reflexivity.
Defined.

(** ** Comments *)

Section AscendingFacts.
Context {Row : Type} (created_at : Row -> timestamptz).

Lemma insertAsc_perm (r : Row) (l : list Row) :
  Permutation (insertAsc created_at r l) (r :: l).
Proof.
  induction l as [|x l IH]; simpl; [reflexivity|].
  destruct (created_at r <? created_at x)%Z; [reflexivity|].
  rewrite IH. apply perm_swap.
Qed.

Lemma orderAsc_perm (l : list Row) : Permutation (orderAsc created_at l) l.
Proof.
  unfold orderAsc. induction l as [|x l IH]; simpl; [reflexivity|].
  rewrite insertAsc_perm. now constructor.
Qed.

Lemma insertAsc_sorted (r : Row) (l : list Row) :
  oldestFirst created_at l -> oldestFirst created_at (insertAsc created_at r l).
Proof.
  unfold oldestFirst. induction 1 as [|x l S IH F]; simpl.
  - repeat constructor.
  - destruct (created_at r <? created_at x)%Z eqn:E.
    + apply Z.ltb_lt in E. constructor; [now constructor|].
      constructor; [lia|]. rewrite Forall_forall in *.
      intros y Hy. specialize (F y Hy). simpl in F. lia.
    + apply Z.ltb_ge in E. constructor; [exact IH|].
      rewrite Forall_forall in *. intros y Hy.
      apply (Permutation_in _ (insertAsc_perm r l)) in Hy.
      destruct Hy as [->|Hy]; [exact E | now apply F].
Qed.

Lemma orderAsc_sorted (l : list Row) :
  oldestFirst created_at (orderAsc created_at l).
Proof.
  unfold orderAsc. induction l as [|x l IH]; simpl; [constructor|].
  now apply insertAsc_sorted.
Qed.

Lemma sorted_map {B} (R : Row -> Row -> Prop) (R' : B -> B -> Prop)
    (f : Row -> B) (l : list Row) :
  (forall a b, R a b -> R' (f a) (f b)) ->
  StronglySorted R l -> StronglySorted R' (map f l).
Proof.
  intros H. induction 1 as [|x l S IH F]; simpl; constructor; [exact IH|].
  rewrite Forall_forall in *. intros y Hy.
  apply in_map_iff in Hy as (z & <- & Hz). auto.
Qed.
End AscendingFacts.

(** X20.  Team comments round trip.  [getComments] returns exactly the
    comments of the application inside the tenant, whatever their
    [visible_to_candidate] flag, oldest first.  [addComment] on an
    application of the tenant stores the comment with the flag the body
    carries, and the listing then shows it next to the comments it showed
    before; on an application of another tenant it throws
    [NotFoundException] and stores nothing. *)
Theorem team_comments_roundtrip
    (companyId applicationId : uuid) (users : list User.t)
    (comments : list ApplicationComment.t) :
  (Permutation
     (map ApplicationService.tv_id
        (ApplicationService.getComments companyId applicationId users comments))
     (map ApplicationComment.id
        (filter (ApplicationService.isCommentOf companyId applicationId)
           comments))
   /\ oldestFirst ApplicationService.tv_created_at
        (ApplicationService.getComments companyId applicationId users comments))
  /\ (forall userId dto now apps a,
        find (fun a => (JobApplication.id a =? applicationId)
                       && (JobApplication.company a =? companyId)) apps
        = Some a ->
        let cm := ApplicationComment.mk
                    (fresh ApplicationComment.id comments) applicationId
                    companyId userId (ApplicationService.dto_comment dto)
                    (ApplicationService.dto_visible_to_candidate dto) now in
        ApplicationService.addComment companyId applicationId userId dto now
          apps comments
        = (ret (ApplicationService.mkCommentView
                  (ApplicationComment.id cm)
                  (ApplicationService.dto_comment dto)
                  (ApplicationService.dto_visible_to_candidate dto) now),
           comments ++ [cm])
        /\ In (ApplicationService.mkTeamCommentView (ApplicationComment.id cm)
                 (ApplicationService.dto_comment dto)
                 (ApplicationService.dto_visible_to_candidate dto)
                 (option_map User.email
                    (find (fun u => User.id u =? userId) users))
                 now)
              (ApplicationService.getComments companyId applicationId users
                 (comments ++ [cm]))
        /\ Permutation
             (map ApplicationService.tv_id
                (ApplicationService.getComments companyId applicationId users
                   (comments ++ [cm])))
             (ApplicationComment.id cm
              :: map ApplicationService.tv_id
                   (ApplicationService.getComments companyId applicationId
                      users comments)))
  /\ (forall userId dto now apps,
        (forall a, In a apps -> JobApplication.id a = applicationId ->
                   JobApplication.company a <> companyId) ->
        ApplicationService.addComment companyId applicationId userId dto now
          apps comments
        = (throw NotFoundException, comments)).
Proof.
  assert (forall cs,
            Permutation
              (map ApplicationService.tv_id
                 (ApplicationService.getComments companyId applicationId users cs))
              (map ApplicationComment.id
                 (filter (ApplicationService.isCommentOf companyId applicationId)
                    cs))) as P.
  { intros cs. unfold ApplicationService.getComments. rewrite map_map. simpl.
    apply Permutation_map, orderAsc_perm. }
  split; [split; [apply P|]|split].
  - unfold ApplicationService.getComments.
    apply (sorted_map
             (fun a b => (ApplicationComment.created_at a
                          <= ApplicationComment.created_at b)%Z)).
    + intros a b H. exact H.
    + apply orderAsc_sorted.
  - intros userId dto now apps a F cm.
    assert (ApplicationService.isCommentOf companyId applicationId cm = true)
      as Pc.
    { unfold ApplicationService.isCommentOf. simpl. now rewrite !Nat.eqb_refl. }
    split; [|split].
    + unfold ApplicationService.addComment. now rewrite F.
    + unfold ApplicationService.getComments.
      apply in_map_iff. exists cm. split; [reflexivity|].
      apply (Permutation_in _ (Permutation_sym (orderAsc_perm _ _))).
      apply filter_In. split; [apply in_or_app; right; now left | exact Pc].
    + rewrite !P, filter_app. simpl. rewrite Pc, map_app. simpl.
      apply Permutation_sym, Permutation_cons_append.
  - intros userId dto now apps H. unfold ApplicationService.addComment.
    now rewrite application_other_tenant.
Qed.

Lemma team_comments_roundtrip_witness :
  map ApplicationService.tv_comment
    (ApplicationService.getComments 7 1 users_sample
       (snd (ApplicationService.addComment 7 1 101
               (ApplicationService.mkCommentDto "Too junior" false) 7%Z
               [application_1] comments_sample)))
  = ["Invite to interview"%string; "Too junior"%string; "Strong CV"%string]
  /\ In (ApplicationService.mkTeamCommentView 4 "Too junior" false
           (Some "bob@acme.io"%string) 7%Z)
        (ApplicationService.getComments 7 1 users_sample
           (comments_sample
            ++ [ApplicationComment.mk 4 1 7 101 "Too junior" false 7%Z])).
Proof.
  split; [reflexivity|].
  apply (proj1 (proj2 (proj1 (proj2 (team_comments_roundtrip 7 1 users_sample
           comments_sample)) 101
           (ApplicationService.mkCommentDto "Too junior" false) 7%Z
           [application_1] application_1 eq_refl))).
Defined.


(** ** Resumes, continued *)

Section ResumeMoreFacts.
Import Resume ResumeService.

Lemma count_remove {Row} (pk : Row -> uuid) (p : Row -> bool) (r : Row)
    (t : list Row) :
  NoDup (map pk t) -> In r t ->
  count p (filter (fun x => negb (pk x =? pk r)) t) + (if p r then 1 else 0)
  = count p t.
Proof.
  unfold count. induction t as [|x t IH]; simpl; intros ND Hin; [easy|].
  inversion ND as [|? ? Hnotin ND']; subst.
  destruct (pk x =? pk r) eqn:E; simpl.
  - apply Nat.eqb_eq in E.
    assert (x = r) as ->.
    { destruct Hin as [->|Hin]; [reflexivity|].
      exfalso. apply Hnotin. rewrite E. now apply in_map. }
    assert (filter (fun x => negb (pk x =? pk r)) t = t) as ->.
    { clear IH Hin ND ND'. induction t as [|y t IH]; simpl; [reflexivity|].
      destruct (pk y =? pk r) eqn:Q; simpl.
      - apply Nat.eqb_eq in Q. exfalso. apply Hnotin. left. exact Q.
      - rewrite IH; [reflexivity|]. intros H. apply Hnotin. now right. }
    destruct (p r); simpl; lia.
  - destruct Hin as [->|Hin]; [rewrite Nat.eqb_refl in E; discriminate|].
    specialize (IH ND' Hin). destruct (p x); simpl; lia.
Qed.

Lemma delete_cases (userId resumeId : uuid) (fk ok : bool) (s : State)
    (r : Resume.t) :
  find (fun r => (id r =? resumeId) && (user r =? userId)) (resumes s)
  = Some r ->
  delete userId resumeId fk ok s
  = if fk then (throw ConflictException, s)
    else (ret "Resume deleted successfully"%string,
          mkState (filter (fun x => negb (id x =? resumeId)) (resumes s))
                  (if ok then removeKey (storage_key r) (bucket s)
                   else bucket s)).
Proof.
  intros F. unfold delete. rewrite F.
  apply find_resume_some in F as (_ & Hid & _). now rewrite Hid.
Qed.
End ResumeMoreFacts.

(** X22.  Deleting a resume.  A resume of another actor is reported
    [NotFoundException]; a removal the database refuses for a foreign-key
    violation is reported [ConflictException]; in both cases nothing
    changes.  Otherwise, in a table with unique keys, exactly the row with
    that key goes: the actor has one resume fewer, [setPrimary] and a second
    [delete] for the key report [NotFoundException], and when the deleted
    resume was the actor's primary one the actor is left with no primary
    resume (none is promoted in its place). *)
Theorem resume_delete
    (userId resumeId : uuid) (ok : bool) (s : ResumeService.State) :
  ((forall r, In r (ResumeService.resumes s) -> Resume.id r = resumeId ->
              Resume.user r <> userId) ->
   forall fk, ResumeService.delete userId resumeId fk ok s
              = (throw NotFoundException, s))
  /\
  (forall r,
     find (fun r => (Resume.id r =? resumeId) && (Resume.user r =? userId))
          (ResumeService.resumes s) = Some r ->
     ResumeService.delete userId resumeId true ok s
     = (throw ConflictException, s)
     /\ (NoDup (map Resume.id (ResumeService.resumes s)) ->
         let s' := snd (ResumeService.delete userId resumeId false ok s) in
         fst (ResumeService.delete userId resumeId false ok s)
         = ret "Resume deleted successfully"%string
         /\ (forall x, In x (ResumeService.resumes s')
                       <-> In x (ResumeService.resumes s)
                           /\ Resume.id x <> resumeId)
         /\ ResumeService.resumeCount userId s' + 1
            = ResumeService.resumeCount userId s
         /\ ResumeService.setPrimary userId resumeId s'
            = (throw NotFoundException, s')
         /\ (forall fk ok', ResumeService.delete userId resumeId fk ok' s'
                            = (throw NotFoundException, s'))
         /\ (Resume.is_primary r = true ->
             ResumeService.primaryCount userId s <= 1 ->
             ResumeService.primaryCount userId s' = 0))).
Proof.
  split.
  - intros H fk. unfold ResumeService.delete.
    now rewrite resume_other_actor.
  - intros r F. split; [now rewrite (delete_cases _ _ _ _ _ r F)|].
    intros ND s'.
    pose proof (find_resume_some _ _ _ _ F) as (Hin & Hid & Hu).
    assert (s' = ResumeService.mkState
                   (filter (fun x => negb (Resume.id x =? resumeId))
                      (ResumeService.resumes s))
                   (if ok then ResumeService.removeKey (Resume.storage_key r)
                                 (ResumeService.bucket s)
                    else ResumeService.bucket s)) as Hs'
      by (unfold s'; now rewrite (delete_cases _ _ _ _ _ r F)).
    assert (forall x, In x (ResumeService.resumes s')
                      <-> In x (ResumeService.resumes s)
                          /\ Resume.id x <> resumeId) as Rows.
    { intros x. rewrite Hs'. simpl. rewrite filter_In, negb_true_iff.
      now rewrite Nat.eqb_neq. }
    assert (find (fun r => (Resume.id r =? resumeId)
                           && (Resume.user r =? userId))
                 (ResumeService.resumes s') = None) as Gone.
    { apply resume_other_actor. intros x Hx Hxid.
      apply Rows in Hx as [_ Hne]. contradiction. }
    split; [now rewrite (delete_cases _ _ _ _ _ r F)|].
    split; [exact Rows|]. split; [|split; [|split]].
    + unfold ResumeService.resumeCount. rewrite Hs'. simpl.
      pose proof (count_remove Resume.id (fun x => Resume.user x =? userId) r
                    (ResumeService.resumes s) ND Hin) as C.
      rewrite Hid, Hu, Nat.eqb_refl in C. exact C.
    + unfold ResumeService.setPrimary. now rewrite Gone.
    + intros fk ok'. unfold ResumeService.delete. now rewrite Gone.
    + intros Hp Hc. unfold ResumeService.primaryCount in *. rewrite Hs'. simpl.
      pose proof (count_remove Resume.id (ResumeService.isPrimaryOf userId) r
                    (ResumeService.resumes s) ND Hin) as C.
      unfold ResumeService.isPrimaryOf at 2 in C.
      rewrite Hid, Hu, Hp, Nat.eqb_refl in C. simpl in C. lia.
Qed.

Lemma resume_delete_witness :
  ResumeService.delete 100 2 false true resumes_sample
  = (throw NotFoundException, resumes_sample)
  /\ ResumeService.delete 100 1 true true resumes_sample
     = (throw ConflictException, resumes_sample)
  /\ ResumeService.primaryCount 100
       (snd (ResumeService.delete 100 1 false true resumes_sample)) = 0
  /\ ResumeService.resumeCount 100
       (snd (ResumeService.delete 100 1 false true resumes_sample)) = 1.
Proof.
  pose proof (resume_delete 100 2 true resumes_sample) as [N _].
  pose proof (resume_delete 100 1 true resumes_sample) as [_ D].
  destruct (D resume_of_100 eq_refl) as [C S].
  split; [|split; [exact C|split]].
  - apply N. simpl. intros r [<-|[<-|[<-|[]]]]; simpl; intros; lia.
  - apply S.
    + repeat constructor; simpl; intuition discriminate.
    + reflexivity.
    + vm_compute. lia.
  - reflexivity.
Defined.

(** X23.  Which resume is the primary one.  After a successful
    [setPrimary], in a table with unique keys, the actor's primary resume is
    the chosen one and no other: a resume of the actor is primary exactly
    when it carries the chosen key.  After [create] with [is_primary] the
    new resume is the actor's only primary one.  Neither touches a resume of
    another actor. *)
Theorem primary_is_the_chosen_one :
  (forall (userId resumeId : uuid) (s : ResumeService.State) (r : Resume.t),
      NoDup (map Resume.id (ResumeService.resumes s)) ->
      find (fun r => (Resume.id r =? resumeId) && (Resume.user r =? userId))
           (ResumeService.resumes s) = Some r ->
      let s' := snd (ResumeService.setPrimary userId resumeId s) in
      fst (ResumeService.setPrimary userId resumeId s)
      = ret (Resume.with_is_primary r true)
      /\ In (Resume.with_is_primary r true) (ResumeService.resumes s')
      /\ (forall x, In x (ResumeService.resumes s') -> Resume.user x = userId ->
                    (Resume.is_primary x = true <-> Resume.id x = resumeId))
      /\ (forall x, Resume.user x <> userId ->
                    (In x (ResumeService.resumes s')
                     <-> In x (ResumeService.resumes s))))
  /\
  (forall (userId : uuid) (file : ResumeService.File) (title : option string)
          (randomUUID : uuid) (now : timestamptz) (s : ResumeService.State),
      ResumeService.resumeCount userId s < 10 ->
      let s' := snd (ResumeService.create userId file title true randomUUID
                       true now s) in
      exists r,
        fst (ResumeService.create userId file title true randomUUID true now s)
        = ret r
        /\ In r (ResumeService.resumes s')
        /\ Resume.user r = userId /\ Resume.is_primary r = true
        /\ (forall x, In x (ResumeService.resumes s') ->
                      Resume.user x = userId -> Resume.is_primary x = true ->
                      x = r)
        /\ (forall x, Resume.user x <> userId ->
                      (In x (ResumeService.resumes s')
                       <-> In x (ResumeService.resumes s)))).
Proof.
  split.
  - intros userId resumeId s r ND F s'.
    pose proof (find_resume_some _ _ _ _ F) as (Hin & Hid & Hu).
    set (w := fun x : Resume.t => Resume.user x =? userId).
    set (demote := fun x : Resume.t => Resume.with_is_primary x false).
    assert (s' = ResumeService.mkState
                   (save Resume.id (Resume.with_is_primary r true)
                      (update_where w demote (ResumeService.resumes s)))
                   (ResumeService.bucket s)) as Hs'
      by (unfold s', ResumeService.setPrimary; now rewrite F).
    assert (In (Resume.with_is_primary r true) (ResumeService.resumes s'))
      as Hr'.
    { rewrite Hs'. simpl. apply in_save_pk.
      rewrite update_where_pk by reflexivity. simpl. now apply in_map. }
    split; [unfold ResumeService.setPrimary; now rewrite F|].
    split; [exact Hr'|]. split.
    + intros x Hx Hxu. rewrite Hs' in Hx. simpl in Hx.
      apply in_save_inv in Hx as [->|[Hx Hne]]; [simpl; tauto|].
      simpl in Hne. unfold update_where in Hx.
      apply in_map_iff in Hx as (y & Hy & _).
      split; [|intros Q; congruence].
      intros P. exfalso. unfold w in Hy.
      destruct (Resume.user y =? userId) eqn:E.
      * subst x. discriminate P.
      * subst x. apply Nat.eqb_neq in E. contradiction.
    + intros x Hxu. rewrite Hs'. simpl. split.
      * intros Hx. apply in_save_inv in Hx as [->|[Hx _]];
          [simpl in Hxu; congruence|].
        unfold update_where in Hx. apply in_map_iff in Hx as (y & Hy & Hyin).
        unfold w in Hy. destruct (Resume.user y =? userId) eqn:E.
        -- apply Nat.eqb_eq in E. subst x. simpl in Hxu. contradiction.
        -- now subst x.
      * intros Hx. apply in_save_other.
        -- apply (in_update_where w demote) in Hx.
           unfold w in Hx at 1.
           apply Nat.eqb_neq in Hxu. now rewrite Hxu in Hx.
        -- simpl. intros Q.
           assert (x = r) by (apply (pk_inj Resume.id (ResumeService.resumes s));
                              auto).
           subst x. contradiction.
  - intros userId file title randomUUID now s Hlt s'.
    set (w := fun x : Resume.t => (Resume.user x =? userId) && Resume.is_primary x).
    set (demote := fun x : Resume.t => Resume.with_is_primary x false).
    set (t := update_where w demote (ResumeService.resumes s)).
    set (ext := if String.eqb (ResumeService.extname file) EmptyString
                then ".pdf"%string else ResumeService.extname file).
    set (r := Resume.mk (fresh Resume.id t) userId
                (ResumeService.titleOr title file) (userId, randomUUID, ext)
                (ResumeService.originalname file) true now).
    assert (ResumeService.create userId file title true randomUUID true now s
            = (ret r, ResumeService.mkState (t ++ [r])
                        ((userId, randomUUID, ext) :: ResumeService.bucket s)))
      as E.
    { unfold ResumeService.create, ResumeService.resumeCount in *.
      apply Nat.leb_gt in Hlt. unfold ResumeService.MAX_RESUMES_PER_USER.
      now rewrite Hlt. }
    exists r. unfold s'. rewrite E. simpl.
    split; [reflexivity|]. split; [apply in_or_app; right; now left|].
    split; [reflexivity|]. split; [reflexivity|]. split.
    + intros x Hx Hxu Hp. apply in_app_or in Hx as [Hx|[<-|[]]]; [|reflexivity].
      exfalso. unfold t, update_where in Hx.
      apply in_map_iff in Hx as (y & Hy & _). unfold w in Hy.
      destruct ((Resume.user y =? userId) && Resume.is_primary y) eqn:Q.
      * subst x. discriminate Hp.
      * subst x. apply Nat.eqb_eq in Hxu. rewrite Hxu, Hp in Q. discriminate.
    + intros x Hxu. split.
      * intros Hx. apply in_app_or in Hx as [Hx|[<-|[]]];
          [|simpl in Hxu; congruence].
        unfold t, update_where in Hx. apply in_map_iff in Hx as (y & Hy & Hyin).
        unfold w in Hy.
        destruct ((Resume.user y =? userId) && Resume.is_primary y) eqn:Q.
        -- apply andb_true_iff in Q as [Q _]. apply Nat.eqb_eq in Q.
           subst x. simpl in Hxu. contradiction.
        -- now subst x.
      * intros Hx. apply in_or_app. left.
        apply (in_update_where w demote) in Hx. unfold w in Hx at 1.
        apply Nat.eqb_neq in Hxu. now rewrite Hxu in Hx.
Qed.

Lemma primary_is_the_chosen_one_witness :
  map (fun r => (Resume.id r, Resume.is_primary r))
      (ResumeService.resumes (snd (ResumeService.setPrimary 100 3 resumes_sample)))
  = [(1, false); (2, true); (3, true)]
  /\ (forall x,
        In x (ResumeService.resumes
                (snd (ResumeService.setPrimary 100 3 resumes_sample))) ->
        Resume.user x = 100 ->
        (Resume.is_primary x = true <-> Resume.id x = 3)).
Proof.
  split; [reflexivity|].
  apply (proj1 primary_is_the_chosen_one 100 3 resumes_sample
           (Resume.mk 3 100 "old.pdf" (100, 13, ".pdf"%string) "old.pdf"
              false 1%Z)).
  - repeat constructor; simpl; intuition discriminate.
  - reflexivity.
Defined.

Section ResumeCreateFacts.
Import Resume ResumeService.


End ResumeCreateFacts.



(** ** Question banks *)

Section BankFacts.
Import QuestionBank QuestionBankService.

Lemma bank_findOne_some (c q : uuid) (t : Table) (qb : QuestionBank.t) :
  findOne c q t = ret qb -> In qb t /\ id qb = q /\ company qb = c.
Proof.
  unfold findOne. destruct (find _ t) as [b|] eqn:F; [|discriminate].
  intros E. inversion E; subst b. apply find_some in F as [Hin P].
  apply andb_true_iff in P as [P1 P2]. apply Nat.eqb_eq in P1, P2. auto.
Qed.
End BankFacts.

(** X25.  Question banks.  A bank just created is read back by [findOne]
    in its tenant, with the questions given.  [update] on a bank of the
    tenant overwrites the name and the question list only where the body
    carries them, and the bank is read back merged; in a table with unique
    keys every other bank is left as it was. *)
Theorem question_bank_roundtrip :
  (forall (companyId userId : uuid)
          (dto : QuestionBankService.CreateQuestionBankDto)
          (t : QuestionBankService.Table),
      exists qb,
        QuestionBankService.create companyId userId dto t = (ret qb, t ++ [qb])
        /\ QuestionBank.questions_json qb
           = QuestionBankService.dto_questions_json dto
        /\ QuestionBankService.findOne companyId (QuestionBank.id qb)
             (t ++ [qb]) = ret qb)
  /\
  (forall (companyId qbId : uuid)
          (dto : QuestionBankService.UpdateQuestionBankDto)
          (t : QuestionBankService.Table) (qb : QuestionBank.t),
      QuestionBankService.findOne companyId qbId t = ret qb ->
      let t' := snd (QuestionBankService.update companyId qbId dto t) in
      fst (QuestionBankService.update companyId qbId dto t)
      = ret (QuestionBankService.assign qb dto)
      /\ QuestionBankService.findOne companyId qbId t'
         = ret (QuestionBankService.assign qb dto)
      /\ (QuestionBankService.upd_questions_json dto = None ->
          QuestionBank.questions_json (QuestionBankService.assign qb dto)
          = QuestionBank.questions_json qb)
      /\ (QuestionBankService.upd_name dto = None ->
          QuestionBank.name (QuestionBankService.assign qb dto)
          = QuestionBank.name qb)
      /\ (NoDup (map QuestionBank.id t) ->
          forall b, QuestionBank.id b <> qbId -> (In b t' <-> In b t))).
Proof.
  split.
  - intros companyId userId dto t.
    set (qb := QuestionBank.mk (fresh QuestionBank.id t) companyId
                 (QuestionBankService.dto_name dto)
                 (QuestionBankService.dto_questions_json dto)).
    exists qb. split; [reflexivity|]. split; [reflexivity|].
    unfold QuestionBankService.findOne. rewrite find_app_none.
    + simpl. now rewrite !Nat.eqb_refl.
    + apply find_all_false. intros b Hb.
      destruct (QuestionBank.id b =? QuestionBank.id qb) eqn:E; [|reflexivity].
      apply Nat.eqb_eq in E. exfalso.
      now apply (fresh_absent QuestionBank.id t b Hb).
  - intros companyId qbId dto t qb F t'.
    pose proof (bank_findOne_some _ _ _ _ F) as (Hin & Hid & Hc).
    assert (t' = save QuestionBank.id (QuestionBankService.assign qb dto) t)
      as Ht' by (unfold t', QuestionBankService.update; now rewrite F).
    split; [unfold QuestionBankService.update; now rewrite F|].
    split; [|split; [|split]].
    + rewrite Ht'. unfold QuestionBankService.findOne.
      rewrite (find_saved QuestionBank.id); [reflexivity| | |].
      * simpl. now apply in_map.
      * simpl. now rewrite Hid, Hc, !Nat.eqb_refl.
      * intros b P. apply andb_true_iff in P as [P _].
        apply Nat.eqb_eq in P. simpl. congruence.
    + intros N. simpl. now rewrite N.
    + intros N. simpl. now rewrite N.
    + intros ND b Hb. rewrite Ht'. split.
      * intros H. apply in_save_inv in H as [->|[H _]]; [|exact H].
        simpl in Hb. congruence.
      * intros H. apply in_save_other; [exact H|]. simpl. congruence.
Qed.

Lemma question_bank_roundtrip_witness :
  QuestionBankService.findOne 7 1
    (snd (QuestionBankService.update 7 1
            (QuestionBankService.mkUpdateDto (Some "Backend v2"%string) None)
            (Database.question_banks db_with_bank)))
  = ret (QuestionBank.mk 1 7 "Backend v2" [question_sql]).
Proof.
  apply (proj1 (proj2 (proj2 question_bank_roundtrip 7 1
           (QuestionBankService.mkUpdateDto (Some "Backend v2"%string) None)
           (Database.question_banks db_with_bank)
           (QuestionBank.mk 1 7 "Backend" [question_sql]) eq_refl))).
Defined.

(** ** Page arithmetic *)

(** X26.  [paginate] reports the ceiling of [total / limit]: for a page
    size of at least 1, [meta.totalPages] pages are enough to hold [total]
    items, one page fewer is not, and an empty result has no page; the
    items, total, page and limit are passed through unchanged. *)
Theorem paginate_total_pages {A : Type} (d : list A) (total page limit : nat) :
  1 <= limit ->
  total <= meta_totalPages (paginate d total page limit) * limit
  /\ (1 <= total ->
      (meta_totalPages (paginate d total page limit) - 1) * limit < total)
  /\ (total = 0 -> meta_totalPages (paginate d total page limit) = 0)
  /\ data (paginate d total page limit) = d
  /\ meta_total (paginate d total page limit) = total
  /\ meta_page (paginate d total page limit) = page
  /\ meta_limit (paginate d total page limit) = limit.
Proof.
  intros L. simpl. destruct (ceil_pages total limit L) as [C1 C2].
  repeat split; auto.
  intros ->. simpl. apply Nat.div_small. lia.
Qed.

Lemma paginate_total_pages_witness :
  meta_totalPages (paginate [1; 2; 3] 25 1 10) = 3
  /\ 25 <= meta_totalPages (paginate [1; 2; 3] 25 1 10) * 10.
Proof.
  split; [reflexivity|].
  apply (proj1 (paginate_total_pages [1; 2; 3] 25 1 10 ltac:(lia))).
Defined.

(** X27.  Ownership transfer to another member: when the caller holds an
    ACTIVE OWNER membership in the tenant and the target is a different
    ACTIVE membership of the tenant, [transferOwnership] stores the target
    as OWNER and the caller as ADMIN, and the tenant has an ACTIVE OWNER
    afterwards. *)
Theorem transfer_to_other_member
    (companyId targetMemberId currentUserId : uuid) (t : MemberService.Table)
    (cur tgt : CompanyMember.t) :
  find (fun m => (CompanyMember.company m =? companyId)
                 && (CompanyMember.user m =? currentUserId)
                 && CompanyRole_eqb (CompanyMember.role m) OWNER
                 && MemberStatus_eqb (CompanyMember.status m) ACTIVE) t
  = Some cur ->
  find (fun m => (CompanyMember.id m =? targetMemberId)
                 && (CompanyMember.company m =? companyId)
                 && MemberStatus_eqb (CompanyMember.status m) ACTIVE) t
  = Some tgt ->
  CompanyMember.id tgt <> CompanyMember.id cur ->
  exists t',
    MemberService.transferOwnership companyId targetMemberId currentUserId t
    = (ret "Ownership transferred successfully"%string, t')
    /\ In (CompanyMember.with_role tgt OWNER) t'
    /\ In (CompanyMember.with_role cur ADMIN) t'
    /\ 1 <= MemberService.ownerCount companyId t'.
Proof. apply transferOwnership_to_other_member. Qed.

Lemma transfer_to_other_member_witness :
  exists t',
    MemberService.transferOwnership 7 2 100 members_one_owner
    = (ret "Ownership transferred successfully"%string, t')
    /\ In (CompanyMember.mk 2 7 101 OWNER ACTIVE) t'
    /\ In (CompanyMember.mk 1 7 100 ADMIN ACTIVE) t'
    /\ 1 <= MemberService.ownerCount 7 t'.
Proof.
  apply (transfer_to_other_member 7 2 100 members_one_owner
           (CompanyMember.mk 1 7 100 OWNER ACTIVE)
           (CompanyMember.mk 2 7 101 RECRUITER ACTIVE)).
  - reflexivity.
  - reflexivity.
  - simpl. lia.
Defined.


